(** * OnlineJudge API tool: session handling, rank retrieval and scoring

    A shallow embedding of [oj_api_tool.py].  Python values are modelled by
    the types the judge's API contract gives them; exceptions are a result
    type; the session, the cookie file, the HTTP traffic and standard output
    are fields of an explicit [world] threaded by a small state-and-error
    monad. *)

From Stdlib Require Import ZArith String Ascii List.
From Stdlib Require Import PrimFloat FloatOps SpecFloat Uint63.
From Stdlib Require FloatAxioms DecimalString DecimalPos.
From stdpp Require Import gmap strings list sorting.

Local Open Scope Z_scope.
Local Open Scope string_scope.

(** ** Python runtime *)

(** The exception classes the program can meet.  Every one of them derives
    from Python's [Exception]. *)
Inductive exn :=
| ValueError
| RuntimeError
| HTTPError
| FileNotFoundError
| PermissionError
| JSONDecodeError
| AttributeError
| LibraryError.

Inductive result (A : Type) :=
| Ok (a : A)
| Raise (e : exn).
Arguments Ok {A} a.
Arguments Raise {A} e.

Definition result_bind {A B} (r : result A) (k : A → result B) : result B :=
  match r with
  | Ok a => k a
  | Raise e => Raise e
  end.

(** [[f(x) for x in xs]] where [f] may raise: the first exception aborts. *)
Fixpoint result_mapM {A B} (f : A → result B) (xs : list A) : result (list B) :=
  match xs with
  | [] => Ok []
  | x :: xs' =>
      result_bind (f x) (λ y,
      result_bind (result_mapM f xs') (λ ys, Ok (y :: ys)))
  end.

(** *** [int(s)] on a string *)

(** White space as [int] skips it in an ASCII string: tab, line feed,
    vertical tab, form feed, carriage return and space. *)
Definition is_space (c : ascii) : bool :=
  let n := N_of_ascii c in
  ((9 <=? n) && (n <=? 13) || (n =? 32))%N.

Definition digit_of (c : ascii) : option Z :=
  let n := Z.of_N (N_of_ascii c) in
  if ((48 <=? n) && (n <=? 57))%Z then Some (n - 48) else None.

Fixpoint lstrip (s : string) : string :=
  match s with
  | String c s' => if is_space c then lstrip s' else s
  | EmptyString => EmptyString
  end.

Fixpoint rstrip (s : string) : string :=
  match s with
  | String c s' =>
      match rstrip s' with
      | EmptyString => if is_space c then EmptyString else String c EmptyString
      | t => String c t
      end
  | EmptyString => EmptyString
  end.

(** Digits with single underscores between them; [acc] is the value read so
    far and [after_digit] says whether the previous character was a digit. *)
Fixpoint parse_digits (s : string) (acc : Z) (after_digit : bool) : option Z :=
  match s with
  | EmptyString => if after_digit then Some acc else None
  | String c s' =>
      match digit_of c with
      | Some d => parse_digits s' (10 * acc + d) true
      | None =>
          if Ascii.eqb c "_" && after_digit
          then match s' with
               | String c' _ =>
                   match digit_of c' with
                   | Some _ => parse_digits s' acc false
                   | None => None
                   end
               | EmptyString => None
               end
          else None
      end
  end.

(** [int(s)] in base ten: surrounding white space, an optional sign, decimal
    digits with single underscores between them.  The string is read as ASCII
    text: on a string with non-ASCII characters Python also accepts Unicode
    decimal digits and Unicode white space, which this definition does not
    (it raises [ValueError] there); the interpreter's configurable limit on
    the number of digits is not modelled either. *)
Definition py_int (s : string) : result Z :=
  let body := rstrip (lstrip s) in
  let '(neg, ds) :=
    match body with
    | String "-" r => (true, r)
    | String "+" r => (false, r)
    | _ => (false, body)
    end in
  match parse_digits ds 0 false with
  | Some n => Ok (if neg : bool then - n else n)
  | None => Raise ValueError
  end.

(** [str(n)] on an int. *)
Definition py_str (n : Z) : string :=
  DecimalString.NilZero.string_of_int (Z.to_int n).

(** *** Numbers of the ACM scorer: ints and binary64 floats *)

Inductive pynum :=
| PInt (z : Z)
| PFloat (f : float).

(** [float(z)], exact for the small ints the scorer converts. *)
Definition float_of_Z (z : Z) : float :=
  if (z <? 0)%Z then PrimFloat.opp (PrimFloat.of_uint63 (Uint63.of_Z (- z)))
  else PrimFloat.of_uint63 (Uint63.of_Z z).

Definition to_float (x : pynum) : float :=
  match x with
  | PInt z => float_of_Z z
  | PFloat f => f
  end.

(** [a / b], true division: the result is always a float.  The divisor is
    non-zero at both places the scorer divides. *)
Definition py_truediv (a b : pynum) : pynum :=
  PFloat (PrimFloat.div (to_float a) (to_float b)).

(** [a + b]. *)
Definition py_add (a b : pynum) : pynum :=
  match a, b with
  | PInt x, PInt y => PInt (x + y)
  | _, _ => PFloat (PrimFloat.add (to_float a) (to_float b))
  end.

(** *** The format specification [.2f] *)

(** Nearest integer to [n / d], ties to even ([0 < d]). *)
Definition round_half_even (n d : Z) : Z :=
  let q := n / d in
  let r := n mod d in
  if (2 * r <? d)%Z then q
  else if (d <? 2 * r)%Z then q + 1
  else if Z.even q then q else q + 1.

Definition digit_char (d : Z) : ascii :=
  ascii_of_N (Z.to_N (48 + d)).

(** Hundredths [h >= 0] written with two decimals. *)
Definition show_hundredths (h : Z) : string :=
  py_str (h / 100) ++ "." ++
  String (digit_char (h / 10 mod 10)) (String (digit_char (h mod 10)) "").

Definition format_2f_float (f : float) : string :=
  match Prim2SF f with
  | S754_zero s => if s then "-0.00" else "0.00"
  | S754_infinity s => if s then "-inf" else "inf"
  | S754_nan => "nan"
  | S754_finite s m e =>
      let h := if (0 <=? e)%Z
               then Z.pos m * 100 * 2 ^ e
               else round_half_even (Z.pos m * 100) (2 ^ (- e)) in
      (if s then "-" else "") ++ show_hundredths h
  end.

(** [f"{x:.2f}"]: an int is converted to a float first. *)
Definition format_2f (x : pynum) : string :=
  format_2f_float (to_float x).

(** ** Data model *)

(** A decoded JSON document. *)
#[warnings="-register-all"]
Inductive json :=
| JNull
| JBool (b : bool)
| JNum (z : Z)
| JStr (s : string)
| JArr (items : list json)
| JObj (fields : list (string * json)).

Record Cookie := {
  name : string;
  value : string;
  domain : string;
  path : string
}.

(** [requests.Session]: the cookie jar in the order iteration yields it, and
    the default request headers. *)
Record Session := {
  cookies : list Cookie;
  headers : gmap string string
}.

(** A file holds either a JSON document or text that does not decode. *)
Inductive contents :=
| Garbage (raw : string)
| Json (v : json).

Record file := {
  mode : Z;
  content : contents
}.

Inductive request :=
| GET (url : string)
| POST (url : string) (payload : list (string * string)).

(** An HTTP response: status code, the cookies it sets, and the decoded
    body, whose type [B] is the one the API gives the endpoint. *)
Record response (B : Type) := {
  status_code : Z;
  set_cookies : list Cookie;
  body : B
}.
Arguments status_code {B} r.
Arguments set_cookies {B} r.
Arguments body {B} r.

(** The [data] object of a contest-rank response. *)
Record page (E : Type) := {
  total : option Z;
  results : option (list E)
}.
Arguments total {E} p.
Arguments results {E} p.

(** What the envelope of a paged endpoint holds under [data]: nothing, the
    object with the page, or a value that is no object: JSON [null], or the
    message the judge puts there when it answers with an error of its own
    under the status 200. *)
Inductive paged (E : Type) :=
| NoData
| Page (p : page E)
| NotAnObject.
Arguments NoData {E}.
Arguments Page {E} p.
Arguments NotAnObject {E}.

(** One solved-or-not record of ACM mode. *)
Record attempt := {
  is_ac : option bool;
  error_number : option Z
}.

(** A rank entry; [V] is the type of a [submission_info] value: [attempt] in
    ACM mode, an integer score in OI mode. *)
Record RankEntry (V : Type) := {
  username : string;
  total_score : option Z;
  submission_info : option (gmap string V)
}.
Arguments username {V} _.
Arguments total_score {V} _.
Arguments submission_info {V} _.

(** ** The world and its monad *)

Record world := {
  trace : list request;
  session : Session;
  disk : gmap string file;
  stdout : list (list string)
}.

Definition M (A : Type) : Type := world → world * result A.

Definition ret {A} (a : A) : M A := λ w, (w, Ok a).

Definition raise {A} (e : exn) : M A := λ w, (w, Raise e).

Definition bind {A B} (m : M A) (k : A → M B) : M B :=
  λ w, match m w with
       | (w', Ok a) => k a w'
       | (w', Raise e) => (w', Raise e)
       end.

(** The monad notations [x ← m; k] and [m;; k] are stdpp's. *)
#[global] Instance M_ret : MRet M := @ret.
#[global] Instance M_bind : MBind M := λ A B k m, bind m k.

(** [try: body  except Exception: handler]. *)
Definition try_except {A} (body : M A) (handler : exn → M A) : M A :=
  λ w, match body w with
       | (w', Ok a) => (w', Ok a)
       | (w', Raise e) => handler e w'
       end.

Definition lift {A} (r : result A) : M A := λ w, (w, r).

(** [for x in xs: body(x)]. *)
Fixpoint for_each {A} (xs : list A) (body : A → M unit) : M unit :=
  match xs with
  | [] => ret tt
  | x :: xs' => body x;; for_each xs' body
  end.

Definition set_trace (t : list request) (w : world) : world :=
  {| trace := t; session := session w; disk := disk w; stdout := stdout w |}.

Definition set_session (s : Session) (w : world) : world :=
  {| trace := trace w; session := s; disk := disk w; stdout := stdout w |}.

Definition set_disk (d : gmap string file) (w : world) : world :=
  {| trace := trace w; session := session w; disk := d; stdout := stdout w |}.

Definition set_stdout (o : list (list string)) (w : world) : world :=
  {| trace := trace w; session := session w; disk := disk w; stdout := o |}.

Definition get_session : M Session := λ w, (w, Ok (session w)).

Definition put_session (s : Session) : M unit := λ w, (set_session s w, Ok tt).

(** [csv.writer(sys.stdout).writerow(row)]. *)
Definition writerow (row : list string) : M unit :=
  λ w, (set_stdout (stdout w ++ [row])%list w, Ok tt).

(** ** The program *)

Definition PAGE_LIMIT : Z := 250.

(** [range(start, stop, step)] for a positive step. *)
Definition py_range (start stop step : Z) : list Z :=
  map (λ k, start + Z.of_nat k * step)
      (seq 0 (Z.to_nat ((stop - start + step - 1) / step))).

(** [d[k] = v] on a dict kept in insertion order. *)
Fixpoint dict_set (k : string) (v : json) (d : list (string * json))
  : list (string * json) :=
  match d with
  | [] => [(k, v)]
  | (k', v') :: d' =>
      if String.eqb k k' then (k, v) :: d' else (k', v') :: dict_set k v d'
  end.

(** [requests.utils.dict_from_cookiejar]: cookie name to value. *)
Definition dict_from_cookiejar (jar : list Cookie) : json :=
  JObj (foldl (λ d c, dict_set (name c) (JStr (value c)) d) [] jar).

Definition owner_may_read (f : file) : bool := Z.testbit (mode f) 8.
Definition owner_may_write (f : file) : bool := Z.testbit (mode f) 7.

(** [os.path.exists(path)]. *)
Definition os_path_exists (path : string) : M bool :=
  λ w, (w, Ok (bool_decide (is_Some (disk w !! path)))).

(** [json.load(open(path, 'r', encoding='utf-8'))]. *)
Definition json_load_open (path : string) : M json :=
  λ w, match disk w !! path with
       | None => (w, Raise FileNotFoundError)
       | Some f =>
           if owner_may_read f
           then match content f with
                | Json v => (w, Ok v)
                | Garbage _ => (w, Raise JSONDecodeError)
                end
           else (w, Raise PermissionError)
       end.

(** [with open(path, 'w', encoding='utf-8') as f: json.dump(data, f)]: an
    existing file keeps its mode, a new one gets [0o644]. *)
Definition json_dump_open (data : json) (path : string) : M unit :=
  λ w, match disk w !! path with
       | None =>
           (set_disk (<[path := {| mode := 420; content := Json data |}]> (disk w)) w,
            Ok tt)
       | Some f =>
           if owner_may_write f
           then (set_disk (<[path := {| mode := mode f; content := Json data |}]> (disk w)) w,
                 Ok tt)
           else (w, Raise PermissionError)
       end.

(** [os.chmod(path, m)]. *)
Definition os_chmod (path : string) (m : Z) : M unit :=
  λ w, match disk w !! path with
       | None => (w, Raise FileNotFoundError)
       | Some f =>
           (set_disk (<[path := {| mode := m; content := content f |}]> (disk w)) w,
            Ok tt)
       end.

(** [v is None], where [v] is what [dict.get] gave: the key is absent or
    holds JSON [null]. *)
Definition is_None (v : option json) : bool :=
  match v with
  | None | Some JNull => true
  | Some _ => false
  end.

(** [v == s] for a string literal [s]. *)
Definition py_eq_str (v : option json) (s : string) : bool :=
  match v with
  | Some (JStr t) => String.eqb t s
  | _ => false
  end.

(** [resp.raise_for_status()]: client and server errors raise. *)
Definition raise_for_status {B} (resp : response B) : M unit :=
  if ((400 <=? status_code resp) && (status_code resp <? 600))%Z
  then raise HTTPError
  else ret tt.

Section Program.

(** The environment variable [SITE] and [urlparse(...).hostname]. *)
Variable site : string.
Variable hostname : string → option string.

(** The path of the cookie file next to the program. *)
Variable default_cookie_file : string.

(** [requests.utils.cookiejar_from_dict] on whatever the file decoded to;
    it raises on documents it cannot iterate as a mapping. *)
Variable cookiejar_from_dict : json → result (list Cookie).

(** How the session's jar takes up the cookies a response sets. *)
Variable extract_cookies_to_jar : list Cookie → list Cookie → list Cookie.

(** [session.get] and [session.post]: the request is recorded, the
    server answers as a function of every request so far, and the cookies
    of the answer go into the session's jar. *)
Definition send {B} (api : list request → response B) (req : request)
  : M (response B) :=
  λ w, let t := (trace w ++ [req])%list in
       let resp := api t in
       let s := session w in
       (set_session {| cookies := extract_cookies_to_jar (cookies s) (set_cookies resp);
                       headers := headers s |}
                    (set_trace t w),
        Ok resp).

Definition load_cookies (path : string) : M bool :=
  present ← os_path_exists path;
  returned ←
    (if present : bool then
       try_except
         (data ← json_load_open path;
          jar ← lift (cookiejar_from_dict data);
          s ← get_session;
          put_session {| cookies := jar; headers := headers s |};;
          ret (Some true))
         (λ _, ret None)
     else ret None);
  match returned with
  | Some b => ret b
  | None => ret false
  end.

Definition save_cookies (path : string) : M unit :=
  s ← get_session;
  let data := dict_from_cookiejar (cookies s) in
  json_dump_open data path;;
  os_chmod path 384.

Definition set_csrf_header : M unit :=
  s ← get_session;
  let csrf_cookies := filter (λ c, name c = "csrftoken") (cookies s) in
  match last csrf_cookies with
  | None => raise RuntimeError
  | Some fallback =>
      let site_domain := hostname site in
      let token_cookie :=
        default fallback
          (head (filter (λ c, Some (domain c) = site_domain) csrf_cookies)) in
      put_session {| cookies := cookies s;
                     headers := <["X-CSRFToken" := value token_cookie]> (headers s) |}
  end.

(** The login endpoint answers with an envelope object. *)
Variable login_api : list request → response (gmap string json).

Definition do_login (user password : string) (tfa_code : option string)
  : M bool :=
  let url := site ++ "/api/login" in
  let payload :=
    ([("username", user); ("password", password)] ++
     match tfa_code with
     | Some code => if String.eqb code "" then [] else [("tfa_code", code)]
     | None => []
     end)%list in
  resp ← send login_api (POST url payload);
  raise_for_status resp;;
  let data := body resp in
  let success :=
    is_None (data !! "error") && py_eq_str (data !! "data") "Succeeded" in
  (if success then save_cookies default_cookie_file else ret tt);;
  ret success.

(** The contest-rank endpoint: what the envelope holds under [data], with
    entries of type [E]. *)
Context {E : Type}.
Variable rank_api : list request → response (paged E).

Definition rank_url (offset contest_id : Z) : string :=
  site ++ "/api/contest_rank?offset=" ++ py_str offset ++
  "&limit=" ++ py_str PAGE_LIMIT ++ "&contest_id=" ++ py_str contest_id.

(** [resp.json().get('data', {})], as the [.get] called on it next takes
    it: a [data] that is no object has no [get], and the call raises
    [AttributeError]. *)
Definition data_object {E'} (resp : response (paged E')) : result (page E') :=
  match body resp with
  | NoData => Ok {| total := None; results := None |}
  | Page p => Ok p
  | NotAnObject => Raise AttributeError
  end.

(** [resp.json().get('data', {}).get('results', [])]. *)
Definition page_results {E'} (resp : response (paged E')) : result (list E') :=
  result_bind (data_object resp) (λ data, Ok (default [] (results data))).

(** The loop of [fetch_all_ranks] over the remaining offsets, extending
    [results] page by page. *)
Fixpoint fetch_pages (contest_id : Z) (offsets : list Z) (results : list E)
  : M (list E) :=
  match offsets with
  | [] => ret results
  | offset :: rest =>
      r ← send rank_api (GET (rank_url offset contest_id));
      raise_for_status r;;
      more ← lift (page_results r);
      fetch_pages contest_id rest (results ++ more)%list
  end.

Definition fetch_all_ranks (contest_id : Z) : M (list E) :=
  resp ← send rank_api (GET (rank_url 0 contest_id));
  raise_for_status resp;;
  data ← lift (data_object resp);
  let total :=
    default (Z.of_nat (length (default [] (results data)))) (total data) in
  let results := default [] (results data) in
  fetch_pages contest_id (py_range PAGE_LIMIT total PAGE_LIMIT) results.

End Program.

(** *** Scoring *)

(** [e.get('submission_info', {})]. *)
Definition info_of {V} (e : RankEntry V) : gmap string V :=
  default ∅ (submission_info e).

(** The keys every entry's [submission_info] is iterated over, entry by
    entry. *)
Definition all_keys {V} (results : list (RankEntry V)) : list string :=
  concat (map (λ e, map fst (map_to_list (info_of e))) results).

(** [sorted({int(q) for e in results for q in e.get('submission_info', {})},
    key=int)]. *)
Definition qids {V} (results : list (RankEntry V)) : result (list Z) :=
  result_bind (result_mapM py_int (all_keys results)) (λ ints,
  Ok (merge_sort Z.le (elements (list_to_set ints : gset Z)))).

(** The header row: [Q{idx+1}({qid})] for each question, between the
    user-name column and the total column. *)
Definition header (qs : list Z) (last_column : string) : list string :=
  ("username" ::
   imap (λ idx qid,
           ("Q" ++ py_str (Z.of_nat idx + 1) ++ "(" ++ py_str qid ++ ")")%string) qs ++
   [last_column])%list.

(** [100 / len(qids) if qids else 0]. *)
Definition full_score (qs : list Z) : pynum :=
  match qs with
  | [] => PInt 0
  | _ => py_truediv (PInt 100) (PInt (Z.of_nat (length qs)))
  end.

(** The score of one question for one entry in ACM mode. *)
Definition acm_score (full : pynum) (info : gmap string attempt) (qid : Z)
  : pynum :=
  let qi := default {| is_ac := None; error_number := None |}
                    (info !! py_str qid) in
  if default false (is_ac qi) then
    let atts := default 0 (error_number qi) + 1 in
    if (atts =? 1)%Z then full
    else if (atts =? 2)%Z then py_truediv full (PInt 2)
    else PInt 0
  else PInt 0.

(** The body of the loop over entries in ACM mode: the row and the running
    total grow question by question. *)
Definition acm_row (full : pynum) (qs : list Z) (e : RankEntry attempt)
  : list string :=
  let info := info_of e in
  let '(row, total_score) :=
    foldl (λ '(row, total_score) qid,
             let sc := acm_score full info qid in
             ((row ++ [format_2f sc])%list, py_add total_score sc))
          ([username e], PInt 0) qs in
  (row ++ [format_2f total_score])%list.

Definition results_to_csv_acm (results : list (RankEntry attempt)) : M unit :=
  qs ← lift (qids results);
  let full := full_score qs in
  writerow (header qs "total");;
  for_each results (λ e, writerow (acm_row full qs e)).

(** [sum(info.values())]. *)
Definition py_sum (info : gmap string Z) : Z :=
  foldl Z.add 0 (map snd (map_to_list info)).

Definition oi_row (qs : list Z) (e : RankEntry Z) : list string :=
  let info := info_of e in
  let row :=
    foldl (λ row qid,
             let sc := default 0 (info !! py_str qid) in
             (row ++ [py_str sc])%list)
          [username e] qs in
  (row ++ [py_str (default (py_sum info) (total_score e))])%list.

Definition results_to_csv_oi (results : list (RankEntry Z)) : M unit :=
  qs ← lift (qids results);
  writerow (header qs "total_score");;
  for_each results (λ e, writerow (oi_row qs e)).

(** *** The cookie file, once more *)

(** [os.remove(path)]; the directory of the file is taken to be writable,
    as it is for creating the file. *)
Definition os_remove (path : string) : M unit :=
  λ w, match disk w !! path with
       | None => (w, Raise FileNotFoundError)
       | Some _ => (set_disk (delete path (disk w)) w, Ok tt)
       end.

Definition clear_cookies_file (path : string) : M unit :=
  try_except (os_remove path)
             (λ e, match e with
                   | FileNotFoundError => ret tt
                   | _ => raise e
                   end).

(** ** The terminal *)

(** Around the [world] of the first part: the pieces of text written on
    standard output by [print] and by the prompts of [input] (the CSV rows
    are in the world's [stdout]; the program writes them after all of these),
    the pieces written on standard error, the lines still to be read from
    standard input, and the lines still to be typed at the terminal device,
    from which [getpass] reads. *)
Record terminal := {
  machine : world;
  printed : list string;
  errors : list string;
  stdin : list string;
  keyboard : list string
}.

(** What stops a function of this part: an exception of the first part, or
    the end of the input. *)
Inductive fault :=
| Python (e : exn)
| EOFError.

Inductive outcome (A : Type) :=
| Done (a : A)
| Fault (f : fault).
Arguments Done {A} a.
Arguments Fault {A} f.

Definition T (A : Type) : Type := terminal → terminal * outcome A.

Definition T_unit {A} (a : A) : T A := λ t, (t, Done a).

Definition T_then {A B} (m : T A) (k : A → T B) : T B :=
  λ t, match m t with
       | (t', Done a) => k a t'
       | (t', Fault f) => (t', Fault f)
       end.

#[global] Instance T_ret : MRet T := @T_unit.
#[global] Instance T_bind : MBind T := λ A B k m, T_then m k.

Definition throw {A} (f : fault) : T A := λ t, (t, Fault f).

Definition on_machine (w : world) (t : terminal) : terminal :=
  {| machine := w; printed := printed t; errors := errors t;
     stdin := stdin t; keyboard := keyboard t |}.

Definition write_out (piece : string) (t : terminal) : terminal :=
  {| machine := machine t; printed := (printed t ++ [piece])%list;
     errors := errors t; stdin := stdin t; keyboard := keyboard t |}.

Definition write_err (piece : string) (t : terminal) : terminal :=
  {| machine := machine t; printed := printed t;
     errors := (errors t ++ [piece])%list; stdin := stdin t;
     keyboard := keyboard t |}.

(** An action of the first part, run on the terminal's [machine]. *)
Definition run {A} (m : M A) : T A :=
  λ t, let '(w', r) := m (machine t) in
       (on_machine w' t,
        match r with
        | Ok a => Done a
        | Raise e => Fault (Python e)
        end).

Definition newline : string := String (ascii_of_N 10) "".

(** [print(line)], [print(line, file=sys.stderr)] and
    [print(text, file=sys.stderr, end='')]. *)
Definition print (line : string) : T unit :=
  λ t, (write_out (line ++ newline) t, Done tt).

Definition eprint (line : string) : T unit :=
  λ t, (write_err (line ++ newline) t, Done tt).

Definition eprint_piece (text : string) : T unit :=
  λ t, (write_err text t, Done tt).

(** [input(prompt)] and [input()]: the prompt goes to standard output, the
    next line of standard input is the answer, and at the end of the input
    [EOFError] is raised. *)
Definition input (prompt : option string) : T string :=
  λ t, let t' := match prompt with
                 | Some text => write_out text t
                 | None => t
                 end in
       match stdin t' with
       | [] => (t', Fault EOFError)
       | line :: rest =>
           ({| machine := machine t'; printed := printed t'; errors := errors t';
               stdin := rest; keyboard := keyboard t' |}, Done line)
       end.

(** [getpass.getpass(prompt)] with a terminal device at hand: the prompt is
    shown on the device and the answer is read from it, not from standard
    input. *)
Definition getpass (prompt : string) : T string :=
  λ t, match keyboard t with
       | [] => (t, Fault EOFError)
       | line :: rest =>
           ({| machine := machine t; printed := printed t; errors := errors t;
               stdin := stdin t; keyboard := rest |}, Done line)
       end.

(** *** Text typed by the user *)

(** A line read from the terminal is a Python [str].  On text made of ASCII
    characters the builtins that [main] applies to a line are modelled in
    full.  What they make of text with other characters is a matter of the
    Unicode tables of the interpreter at hand: [str.isdigit] also holds of
    characters that are digits without being decimals (a superscript two),
    on which [int] raises [ValueError]; [\d] and [int] also take the decimal
    digits of other scripts (the full-width digits); and [int] refuses digit
    strings beyond a limit that can be configured, to no less than 640
    digits.  So the interpreter is a parameter of the program: its
    [s.isdigit()] and its [re.fullmatch(r"\d{6}", s)] are used on text with
    a character outside ASCII, and its [int(s)] on such text and on text of
    more than 640 characters. *)
Record Interpreter := {
  interpreter_isdigit : string → bool;
  interpreter_fullmatch_six_digits : string → bool;
  interpreter_int : string → result Z
}.

Fixpoint ascii_text (s : string) : bool :=
  match s with
  | EmptyString => true
  | String c r => (N_of_ascii c <? 128)%N && ascii_text r
  end.

Fixpoint all_digits (s : string) : bool :=
  match s with
  | EmptyString => true
  | String c r =>
      match digit_of c with
      | Some _ => all_digits r
      | None => false
      end
  end.

(** [s.isdigit()]. *)
Definition isdigit (python : Interpreter) (s : string) : bool :=
  if ascii_text s then negb (String.eqb s "") && all_digits s
  else interpreter_isdigit python s.

(** [re.fullmatch(r"\d{6}", s)], as a truth value. *)
Definition fullmatch_six_digits (python : Interpreter) (s : string) : bool :=
  if ascii_text s then (String.length s =? 6)%nat && all_digits s
  else interpreter_fullmatch_six_digits python s.

(** [int(s)] on a line. *)
Definition line_int (python : Interpreter) (s : string) : result Z :=
  if ascii_text s && (String.length s <=? 640)%nat then py_int s
  else interpreter_int python s.

(** [s.upper()] on ASCII text. *)
Definition upper_char (c : ascii) : ascii :=
  let n := N_of_ascii c in
  if ((97 <=? n) && (n <=? 122))%N then ascii_of_N (n - 32) else c.

Fixpoint upper (s : string) : string :=
  match s with
  | EmptyString => EmptyString
  | String c r => String (upper_char c) (upper r)
  end.

(** [d.get(k)] on a decoded JSON object, whose keys are distinct. *)
Fixpoint dict_get (k : string) (d : list (string * json)) : option json :=
  match d with
  | [] => None
  | (k', v) :: d' => if String.eqb k k' then Some v else dict_get k d'
  end.

(** The truth value of a decoded JSON value, as [if v:] takes it. *)
Definition truthy (v : json) : bool :=
  match v with
  | JNull => false
  | JBool b => b
  | JNum z => negb (z =? 0)%Z
  | JStr s => negb (String.eqb s "")
  | JArr items => match items with [] => false | _ => true end
  | JObj fields => match fields with [] => false | _ => true end
  end.

(** [resp.ok]: [raise_for_status] would not raise. *)
Definition ok {B} (resp : response B) : bool :=
  negb ((400 <=? status_code resp) && (status_code resp <? 600))%Z.

(** One contest of the contest list. *)
Record Contest := {
  id_ : Z;
  title : string
}.

(** A rank entry as either scorer reads it. *)
Record Entry := {
  as_acm : RankEntry attempt;
  as_oi : RankEntry Z
}.

(** The parsed command line; the model covers runs without [--verbose]. *)
Record Namespace := {
  args_logout : bool;
  args_mode : option string
}.

Section Account.

Variable python : Interpreter.
Variable site : string.
Variable hostname : string → option string.
Variable default_cookie_file : string.
Variable cookiejar_from_dict : json → result (list Cookie).
Variable extract_cookies_to_jar : list Cookie → list Cookie → list Cookie.

(** [jar.set(name, value, domain=..., path=...)] of [RequestsCookieJar]. *)
Variable cookies_set :
  string → string → option string → string → list Cookie → result (list Cookie).

(** The headers of a new [requests.Session()]. *)
Variable default_headers : gmap string string.

Definition prompt_credentials : T (string * string) :=
  username ← input (Some "Username: ");
  password ← getpass "Password: ";
  mret (username, password).

(** The two-factor endpoint answers with an envelope object. *)
Variable tfa_api : list request → response (gmap string json).

(** The value returned is Python's: [False], or whatever the envelope's
    [data] holds under [result]. *)
Definition check_tfa_required (username : string) : T json :=
  let url := site ++ "/api/tfa_required" in
  resp ← run (send extract_cookies_to_jar tfa_api (POST url [("username", username)]));
  run (raise_for_status resp);;
  let data := body resp in
  if is_None (data !! "error") then
    match default (JObj []) (data !! "data") with
    | JObj fields => mret (default (JBool false) (dict_get "result" fields))
    | _ => throw (Python AttributeError)
    end
  else mret (JBool false).

(** The logout endpoint; its answer's body is not read.  The request has no
    payload. *)
Variable logout_api : list request → response unit.

Definition do_logout : T unit :=
  let url := site ++ "/api/logout" in
  resp ← run (send extract_cookies_to_jar logout_api (POST url []));
  run (raise_for_status resp);;
  run (s ← get_session;
       jar ← lift (cookies_set "sessionid" "" (hostname site) "/" (cookies s));
       put_session {| cookies := jar; headers := headers s |});;
  run (save_cookies default_cookie_file);;
  run (clear_cookies_file default_cookie_file);;
  print "Logged out successfully.".

(** The contest-list endpoint: what the envelope holds under [data]. *)
Variable contests_api : list request → response (paged Contest).

(** The loop of [list_contests] that prints the contests. *)
Fixpoint print_contests (results : list Contest) : T unit :=
  match results with
  | [] => mret tt
  | c :: rest =>
      eprint ("  - " ++ py_str (id_ c) ++ ": " ++ title c);;
      print_contests rest
  end.

Definition list_contests (rule_type : string) : T (list Z) :=
  let url := site ++ "/api/contests?offset=0&limit=100&keyword=&rule_type="
                  ++ rule_type ++ "&status=" in
  resp ← run (send extract_cookies_to_jar contests_api (GET url));
  run (raise_for_status resp);;
  results ← run (lift (page_results resp));
  eprint "Available contests:";;
  print_contests results;;
  mret (map id_ results).

(** The profile endpoint answers with an envelope object, when its body is
    JSON at all. *)
Variable profile_api : list request → response (option (gmap string json)).
Variable login_api : list request → response (gmap string json).
Variable rank_api : list request → response (paged Entry).

(** The loop of [main] that asks for the two-factor code; [lines] are the
    lines left on standard input, which bound the number of rounds: when they
    are used up, the next [input] raises [EOFError]. *)
Fixpoint ask_tfa_code (lines : list string) : T string :=
  c ← input (Some "2FA code: ");
  if fullmatch_six_digits python c then mret c
  else match lines with
       | _ :: rest => ask_tfa_code rest
       | [] => throw EOFError
       end.

(** The loop of [main] that asks for the contest, likewise. *)
Fixpoint select_contest (cids : list Z) (lines : list string) : T Z :=
  eprint_piece "Select contest id: ";;
  ch ← input None;
  accepted ←
    (if isdigit python ch then
       n ← run (lift (line_int python ch));
       mret (if bool_decide (n ∈ cids) then Some n else None)
     else mret None);
  match accepted with
  | Some cid => mret cid
  | None =>
      match lines with
      | _ :: rest => select_contest cids rest
      | [] => throw EOFError
      end
  end.

Definition main (args : Namespace) : T unit :=
  run (put_session {| cookies := [];
                      headers := <["Referer" := site]> default_headers |});;
  if args_logout args then
    run (send extract_cookies_to_jar profile_api (GET (site ++ "/api/profile")));;
    run (set_csrf_header site hostname);;
    do_logout
  else
    run (load_cookies cookiejar_from_dict default_cookie_file);;
    resp ← run (send extract_cookies_to_jar profile_api (GET (site ++ "/api/profile")));
    run (set_csrf_header site hostname);;
    rst ← (if ok resp
           then match body resp with
                | Some envelope => mret envelope
                | None => throw (Python JSONDecodeError)
                end
           else mret ∅);
    logged_in ←
      (if negb (is_None (rst !! "error") && negb (is_None (rst !! "data"))) then
         '(u, p) ← prompt_credentials;
         tc ← check_tfa_required u;
         code ← (if truthy tc
                 then c ← (λ t, ask_tfa_code (stdin t) t); mret (Some c)
                 else mret None);
         success ← run (do_login site default_cookie_file extract_cookies_to_jar
                          login_api u p code);
         if success : bool
         then print "Login successful.";; mret true
         else print "Login failed";; mret false
       else mret true);
    if logged_in : bool then
      match args_mode args with
      | Some m =>
          if String.eqb m "" then print "Authenticated successfully."
          else
            cids ← list_contests m;
            match cids with
            | [] => print "No contests"
            | _ =>
                cid ← (λ t, select_contest cids (stdin t) t);
                ranks ← run (fetch_all_ranks site extract_cookies_to_jar rank_api cid);
                if String.eqb (upper m) "OI"
                then run (results_to_csv_oi (map as_oi ranks))
                else run (results_to_csv_acm (map as_acm ranks))
            end
      | None => print "Authenticated successfully."
      end
    else mret tt.

End Account.

(** ** Vocabulary of the statements *)

Definition is_Ok {A} (r : result A) : bool :=
  match r with
  | Ok _ => true
  | Raise _ => false
  end.

(** Every key of every [submission_info] reads as an integer. *)
Definition integer_keys {V} (results : list (RankEntry V)) : bool :=
  forallb (λ k, is_Ok (py_int k)) (all_keys results).

(** [z] is the integer of a key of some entry's [submission_info]. *)
Definition attempted {V} (results : list (RankEntry V)) (z : Z) : Prop :=
  ∃ e q, e ∈ results ∧ is_Some (info_of e !! q) ∧ py_int q = Ok z.

(** [qs] is the column set the specification asks for: ascending, and
    holding exactly the integers of the keys seen in any entry. *)
Definition sorted_union {V} (results : list (RankEntry V)) (qs : list Z) : Prop :=
  StronglySorted Z.lt qs ∧ ∀ z, z ∈ qs ↔ attempted results z.

(** What "formatted to two decimal places" means for a cell: an optional
    minus sign, at least one digit, a point, and exactly two digits. *)
Definition is_digit (c : ascii) : bool :=
  match digit_of c with
  | Some _ => true
  | None => false
  end.

Fixpoint digits_point_two (s : string) (seen_digit : bool) : bool :=
  match s with
  | String c r =>
      if is_digit c then digits_point_two r true
      else Ascii.eqb c "." && seen_digit &&
           match r with
           | String a (String b EmptyString) => is_digit a && is_digit b
           | _ => false
           end
  | EmptyString => false
  end.

Definition two_decimals (s : string) : bool :=
  match s with
  | String c r =>
      if Ascii.eqb c "-" then digits_point_two r false
      else digits_point_two s false
  | EmptyString => false
  end.

(** The ACM scoring rule in the specification's words, in the arithmetic
    of Python's floats, which is binary64: [full] is 100 divided by the
    number of questions (0 when there are none); a solved question earns
    [full] on the first attempt, half of it on the second, and nothing
    otherwise; a missing [error_number] counts as 0; the total is the scores
    added to 0 one after the other, in column order. *)
Definition spec_full (n_questions : nat) : float :=
  match n_questions with
  | O => 0%float
  | _ => (100 / PrimFloat.of_uint63 (Uint63.of_Z (Z.of_nat n_questions)))%float
  end.

Definition spec_acm_score (n_questions : nat) (record : option attempt) : float :=
  match record with
  | Some {| is_ac := Some true; error_number := en |} =>
      match default 0 en with
      | 0 => spec_full n_questions
      | 1 => (spec_full n_questions / 2)%float
      | _ => 0%float
      end
  | _ => 0%float
  end.

Definition spec_total (scores : list float) : float :=
  foldl PrimFloat.add 0%float scores.

(** A number is zero, or positive and finite with an exponent, that of the
    last bit of its 53-bit mantissa, of at most [a]: so it is below
    [2 ^ (a + 53)]. *)
Definition exponent_at_most (a : Z) (x : spec_float) : bool :=
  match x with
  | S754_zero _ => true
  | S754_finite false _ e => (e <=? a)%Z
  | _ => false
  end.

Definition float_exponent_at_most (a : Z) (f : float) : bool :=
  exponent_at_most a (Prim2SF f).

(** What [acm_score] gives: the int 0, or a float. *)
Definition zero_or_float (x : pynum) : Prop :=
  match x with
  | PInt z => z = 0
  | PFloat _ => True
  end.

(** Sample data: the specification's example of one entry that solves both
    questions, the first at the first attempt and the second at the second;
    and two OI entries, one with a reported total that is not the sum. *)
Definition solved (errors : Z) : attempt :=
  {| is_ac := Some true; error_number := Some errors |}.

Definition empty_world : world :=
  {| trace := []; session := {| cookies := []; headers := ∅ |};
     disk := ∅; stdout := [] |}.

Definition sample_acm : list (RankEntry attempt) :=
  [ {| username := "alice"; total_score := None;
       submission_info := Some (<["1" := solved 0]> (<["2" := solved 1]> ∅)) |} ].

Definition sample_oi : list (RankEntry Z) :=
  [ {| username := "alice"; total_score := Some 999;
       submission_info := Some (<["10" := 30]> (<["2" := 70]> ∅)) |};
    {| username := "bob"; total_score := None;
       submission_info := Some (<["3" := 5]> (<["2" := 70]> ∅)) |} ].

(** Two entries: one whose record of question 1 has no [error_number], and
    one that has no record of question 1 at all. *)
Definition sample_acm_gaps : list (RankEntry attempt) :=
  [ {| username := "carol"; total_score := None;
       submission_info :=
         Some (<["1" := {| is_ac := Some true; error_number := None |}]> ∅) |};
    {| username := "dave"; total_score := None;
       submission_info := Some (<["2" := solved 1]> ∅) |} ].

(** The status codes [raise_for_status] lets through. *)
Definition ok_status {B} (r : response B) : bool :=
  negb ((400 <=? status_code r)%Z && (status_code r <? 600)%Z).

(** An answer that brings a page: it is no HTTP error, and its [data] is an
    object, or missing, which reads as a page without entries; the entries
    and the total such an answer brings. *)
Definition is_page {E} (r : response (paged E)) : bool :=
  ok_status r &&
  match body r with
  | NotAnObject => false
  | _ => true
  end.

Definition entries_of {E} (r : response (paged E)) : list E :=
  match body r with
  | Page p => default [] (results p)
  | _ => []
  end.

Definition total_of {E} (r : response (paged E)) : option Z :=
  match body r with
  | Page p => total p
  | _ => None
  end.

(** The exception an answer that brings no page ends the fetch with:
    [raise_for_status] comes first. *)
Definition refusal {E} (r : response (paged E)) : exn :=
  if ok_status r then AttributeError else HTTPError.

(** The answers a server gives to the requests [reqs], sent one after
    another after the requests [before]. *)
Fixpoint replies {B} (api : list request → response B)
    (before reqs : list request) : list (response B) :=
  match reqs with
  | [] => []
  | r :: rest => api (before ++ [r])%list :: replies api (before ++ [r])%list rest
  end.

(** A judge that holds the entries [db] and serves page after page of at
    most [PAGE_LIMIT] entries, the [n]-th request getting the [n]-th page;
    [with_total] says whether its answers carry the [total] field. *)
Definition paging_judge {E} (db : list E) (with_total : bool)
    (history : list request) : response (paged E) :=
  let offset := (Z.to_nat PAGE_LIMIT * (length history - 1))%nat in
  {| status_code := 200;
     set_cookies := [];
     body := Page {| total := if with_total
                              then Some (Z.of_nat (length db)) else None;
                     results := Some (take (Z.to_nat PAGE_LIMIT) (drop offset db)) |} |}.

(** The jar keeps what it has and takes the new cookies after them. *)
Definition append_cookies (jar new : list Cookie) : list Cookie := (jar ++ new)%list.

Definition sample_db : list Z := seqZ 0 600.

(** Sample cookies: two [csrftoken] cookies of different domains. *)
Definition csrf_other : Cookie :=
  {| name := "csrftoken"; value := "other-token"; domain := "cdn.example";
     path := "/" |}.

Definition csrf_site : Cookie :=
  {| name := "csrftoken"; value := "site-token"; domain := "oj.example";
     path := "/" |}.

Definition session_cookie : Cookie :=
  {| name := "sessionid"; value := "abc"; domain := "oj.example"; path := "/" |}.

Definition world_with_cookies (jar : list Cookie) : world :=
  {| trace := []; session := {| cookies := jar; headers := ∅ |};
     disk := ∅; stdout := [] |}.

Definition sample_hostname (url : string) : option string :=
  if String.eqb url "https://oj.example" then Some "oj.example" else None.

(** The session after [set_csrf_header] picked the cookie [c]. *)
Definition with_csrf_header (c : Cookie) (w : world) : world :=
  set_session {| cookies := cookies (session w);
                 headers := <["X-CSRFToken" := value c]> (headers (session w)) |} w.

(** The file at [path] can be opened for writing: it is absent, or its
    owner may write it. *)
Definition may_write (d : gmap string file) (path : string) : bool :=
  match d !! path with
  | None => true
  | Some f => owner_may_write f
  end.

(** What [save_cookies] leaves at the cookie file's path. *)
Definition saved_cookie_file (jar : list Cookie) : file :=
  {| mode := 384; content := Json (dict_from_cookiejar jar) |}.

(** The session once [load_cookies] has put [jar] in it. *)
Definition with_cookies (jar : list Cookie) (w : world) : world :=
  set_session {| cookies := jar; headers := headers (session w) |} w.

(** A login endpoint that accepts, and one that rejects, setting a session
    cookie when it accepts. *)
Definition accepting_login (history : list request) : response (gmap string json) :=
  {| status_code := 200; set_cookies := [session_cookie];
     body := <["error" := JNull]> (<["data" := JStr "Succeeded"]> ∅) |}.

Definition rejecting_login (history : list request) : response (gmap string json) :=
  {| status_code := 200; set_cookies := [];
     body := <["error" := JStr "error"]>
               (<["data" := JStr "Invalid username or password"]> ∅) |}.

(** A library function that takes a JSON object of strings and raises on
    anything else. *)
Definition strict_cookiejar_from_dict (v : json) : result (list Cookie) :=
  match v with
  | JObj fields =>
      result_mapM (λ '(k, x),
                     match x with
                     | JStr s => Ok {| name := k; value := s; domain := ""; path := "/" |}
                     | _ => Raise LibraryError
                     end) fields
  | _ => Raise LibraryError
  end.

(** The value of the decimal digits [d] read after the value [acc]. *)
Fixpoint uint_value (d : Decimal.uint) (acc : Z) : Z :=
  match d with
  | Decimal.Nil => acc
  | Decimal.D0 d' => uint_value d' (10 * acc)
  | Decimal.D1 d' => uint_value d' (10 * acc + 1)
  | Decimal.D2 d' => uint_value d' (10 * acc + 2)
  | Decimal.D3 d' => uint_value d' (10 * acc + 3)
  | Decimal.D4 d' => uint_value d' (10 * acc + 4)
  | Decimal.D5 d' => uint_value d' (10 * acc + 5)
  | Decimal.D6 d' => uint_value d' (10 * acc + 6)
  | Decimal.D7 d' => uint_value d' (10 * acc + 7)
  | Decimal.D8 d' => uint_value d' (10 * acc + 8)
  | Decimal.D9 d' => uint_value d' (10 * acc + 9)
  end.

(** Sample entries with a key that is no integer, and entries without any
    key; an OI entry whose only score is kept under a zero-padded key. *)
Definition sample_acm_bad_key : list (RankEntry attempt) :=
  [ {| username := "alice"; total_score := None;
       submission_info := Some (<["1" := solved 0]> ∅) |};
    {| username := "bob"; total_score := None;
       submission_info := Some (<["q2" := solved 0]> ∅) |} ].

Definition sample_oi_bad_key : list (RankEntry Z) :=
  [ {| username := "alice"; total_score := None;
       submission_info := Some (<["1.5" := 10]> ∅) |} ].

Definition sample_acm_no_questions : list (RankEntry attempt) :=
  [ {| username := "alice"; total_score := None; submission_info := None |};
    {| username := "bob"; total_score := None; submission_info := Some ∅ |} ].

Definition sample_oi_no_questions : list (RankEntry Z) :=
  [ {| username := "alice"; total_score := Some 40; submission_info := None |};
    {| username := "bob"; total_score := None; submission_info := Some ∅ |} ].

Definition sample_oi_padded : list (RankEntry Z) :=
  [ {| username := "eve"; total_score := None;
       submission_info := Some (<["007" := 40]> ∅) |} ].

(** Three entries: one with records none of which is accepted, whatever
    their [error_number]; one without any record; one that solved a
    question. *)
Definition sample_acm_unsolved : list (RankEntry attempt) :=
  [ {| username := "erin"; total_score := None;
       submission_info :=
         Some (<["1" := {| is_ac := Some false; error_number := Some 0 |}]>
                 (<["2" := {| is_ac := None; error_number := Some 1 |}]> ∅)) |};
    {| username := "finn"; total_score := None; submission_info := None |};
    {| username := "gus"; total_score := None;
       submission_info := Some (<["2" := solved 0]> ∅) |} ].

(** The label of the column at position [j] for the question [qid]. *)
Definition column_label (j : nat) (qid : Z) : string :=
  "Q" ++ py_str (Z.of_nat j + 1) ++ "(" ++ py_str qid ++ ")".

(** The record of a question solved at the first attempt: [is_ac] is true
    and [error_number] is 0 or missing. *)
Definition first_attempt (a : attempt) : bool :=
  default false (is_ac a) && (default 0 (error_number a) =? 0)%Z.

(** The total of an entry that earns the full score on each of [n]
    questions, as the scorer adds it up and writes it. *)
Definition full_marks_total (n : nat) : string :=
  format_2f (foldl py_add (PInt 0)
               (replicate n (py_truediv (PInt 100) (PInt (Z.of_nat n))))).

Definition sample_acm_three : list (RankEntry attempt) :=
  [ {| username := "alice"; total_score := None;
       submission_info :=
         Some (<["1" := solved 0]> (<["2" := solved 0]> (<["3" := solved 0]> ∅))) |} ].

(** A judge like [paging_judge] that is out of service from its second
    answer on. *)
Definition flaky_judge {E} (db : list E) (history : list request)
  : response (paged E) :=
  if (1 <? length history)%nat
  then {| status_code := 503; set_cookies := []; body := NoData |}
  else paging_judge db true history.

(** A judge like [paging_judge] that from its third answer on answers, under
    the status 200, with an error of its own and a message as [data]. *)
Definition refusing_judge {E} (db : list E) (history : list request)
  : response (paged E) :=
  if (2 <? length history)%nat
  then {| status_code := 200; set_cookies := []; body := NotAnObject |}
  else paging_judge db true history.

(** The request is a [GET]. *)
Definition is_GET (r : request) : bool :=
  match r with
  | GET _ => true
  | POST _ _ => false
  end.

(** A world whose cookie file exists and is read-only, and one whose cookie
    file can be written but not read. *)
Definition read_only_world : world :=
  {| trace := []; session := {| cookies := []; headers := ∅ |};
     disk := {[ "cookies.json" := {| mode := 256; content := Garbage "old" |} ]};
     stdout := [] |}.

Definition write_only_world : world :=
  {| trace := []; session := {| cookies := [csrf_other; session_cookie; csrf_site];
                                headers := ∅ |};
     disk := {[ "cookies.json" := {| mode := 128; content := Garbage "old" |} ]};
     stdout := [] |}.

(** The cookies of the jar that are named [n]. *)
Definition named (n : string) (jar : list Cookie) : list Cookie :=
  filter (λ c, name c = n) jar.

Definition is_object (v : json) : bool :=
  match v with
  | JObj _ => true
  | _ => false
  end.

(** A terminal around [w] on which nothing has been written and nothing is
    left to read. *)
Definition terminal_of (w : world) : terminal :=
  {| machine := w; printed := []; errors := []; stdin := []; keyboard := [] |}.

(** The pieces that printing the lines [ls] writes. *)
Definition as_lines (ls : list string) : list string :=
  map (λ l, (l ++ newline)%string) ls.

(** Sample answers of the two-factor endpoint: a user with two-factor
    authentication, and an unknown user, where [data] is a message. *)
Definition tfa_wanted (history : list request) : response (gmap string json) :=
  {| status_code := 200; set_cookies := [];
     body := <["error" := JNull]> (<["data" := JObj [("result", JBool true)]]> ∅) |}.

Definition tfa_unknown_user (history : list request) : response (gmap string json) :=
  {| status_code := 200; set_cookies := [];
     body := <["error" := JStr "error"]> (<["data" := JStr "User does not exist"]> ∅) |}.

Definition tfa_message_only (history : list request) : response (gmap string json) :=
  {| status_code := 200; set_cookies := [];
     body := <["data" := JStr "maintenance"]> ∅ |}.

Definition accepting_logout (history : list request) : response unit :=
  {| status_code := 200; set_cookies := []; body := tt |}.

(** A jar that replaces the cookie of the same name, domain and path, and
    otherwise takes the new cookie last. *)
Definition sample_cookies_set (n v : string) (d : option string) (p : string)
    (jar : list Cookie) : result (list Cookie) :=
  match d with
  | Some dom =>
      Ok (filter (λ c, ¬ (name c = n ∧ domain c = dom ∧ path c = p)) jar ++
          [{| name := n; value := v; domain := dom; path := p |}])%list
  | None => Raise LibraryError
  end.

Definition logged_in_world : world :=
  {| trace := []; session := {| cookies := [csrf_site; session_cookie]; headers := ∅ |};
     disk := {[ "cookies.json" := saved_cookie_file [csrf_site; session_cookie] ]};
     stdout := [] |}.

Definition locked_cookie_world : world :=
  {| trace := []; session := {| cookies := [csrf_site; session_cookie]; headers := ∅ |};
     disk := {[ "cookies.json" :=
                  {| mode := 256;
                     content := Json (dict_from_cookiejar [csrf_site; session_cookie]) |} ]};
     stdout := [] |}.

Definition sample_contests (history : list request)
  : response (paged Contest) :=
  {| status_code := 200; set_cookies := [];
     body := Page {| total := Some 2;
                     results := Some [ {| id_ := 12; title := "Midterm" |};
                                       {| id_ := 7; title := "Final" |} ] |} |}.

(** A contest endpoint that refuses the request: the judge's own error under
    the status 200, with a message as [data]. *)
Definition refusing_contests (history : list request) : response (paged Contest) :=
  {| status_code := 200; set_cookies := []; body := NotAnObject |}.

(** The line [list_contests] prints for a contest. *)
Definition contest_line (c : Contest) : string :=
  ("  - " ++ py_str (id_ c) ++ ": " ++ title c)%string.

(** A login endpoint that is out of service. *)
Definition unavailable_login (history : list request) : response (gmap string json) :=
  {| status_code := 503; set_cookies := []; body := ∅ |}.

(** What the contest loop makes of a line: it passes over the line, or it
    stops at it, with the number [int] reads or with the exception [int]
    raises; at the end of the input it stops with [EOFError]. *)
Definition passes_over (python : Interpreter) (cids : list Z) (line : string) : bool :=
  negb (isdigit python line) ||
  match line_int python line with
  | Ok n => negb (bool_decide (n ∈ cids))
  | Raise _ => false
  end.

Definition selected (python : Interpreter) (line : option string) : outcome Z :=
  match line with
  | Some l =>
      match line_int python l with
      | Ok n => Done n
      | Raise e => Fault (Python e)
      end
  | None => Fault EOFError
  end.

(** The line is the decimal text, leading zeros allowed, of one of the
    ids. *)
Definition names_one_of (cids : list Z) (line : string) : bool :=
  negb (String.eqb line "") && all_digits line &&
  match py_int line with
  | Ok n => bool_decide (n ∈ cids)
  | Raise _ => false
  end.

(** What the two-factor loop gives for the first line it takes, or at the
    end of the input. *)
Definition entered (lines : option string) : outcome string :=
  match lines with
  | Some l => Done l
  | None => Fault EOFError
  end.

(** Sample tables, for the examples.  Besides the ASCII digits they know
    the superscript two (the bytes 194, 178 in UTF-8), a digit that is no
    decimal, and the full-width digits (the bytes 239, 188 and 144 to 153),
    which are decimals; every other character is no digit to them, and their
    [int] reads strings of decimal digits, of any length, and nothing else.
    [Some d] is a decimal digit of value [d], [None] a digit that is no
    decimal. *)
Fixpoint unicode_digits (s : string) : option (list (option Z)) :=
  match s with
  | EmptyString => Some []
  | String c r =>
      match digit_of c with
      | Some d => cons (Some d) <$> unicode_digits r
      | None =>
          match r with
          | String c2 r2 =>
              if (N_of_ascii c =? 194)%N && (N_of_ascii c2 =? 178)%N
              then cons None <$> unicode_digits r2
              else
                match r2 with
                | String c3 r3 =>
                    if (N_of_ascii c =? 239)%N && (N_of_ascii c2 =? 188)%N &&
                       (144 <=? N_of_ascii c3)%N && (N_of_ascii c3 <=? 153)%N
                    then cons (Some (Z.of_N (N_of_ascii c3) - 144)) <$> unicode_digits r3
                    else None
                | EmptyString => None
                end
          | EmptyString => None
          end
      end
  end.

(** The number written by decimal digits, when all the digits are
    decimals. *)
Fixpoint decimal_value (ds : list (option Z)) (acc : Z) : option Z :=
  match ds with
  | [] => Some acc
  | Some d :: rest => decimal_value rest (10 * acc + d)
  | None :: _ => None
  end.

Definition sample_python : Interpreter :=
  {| interpreter_isdigit s :=
       match unicode_digits s with
       | Some (_ :: _) => true
       | _ => false
       end;
     interpreter_fullmatch_six_digits s :=
       match unicode_digits s with
       | Some ds =>
           (length ds =? 6)%nat &&
           match decimal_value ds 0 with Some _ => true | None => false end
       | None => false
       end;
     interpreter_int s :=
       match unicode_digits s with
       | Some (d :: ds) =>
           match decimal_value (d :: ds) 0 with
           | Some n => Ok n
           | None => Raise ValueError
           end
       | _ => Raise ValueError
       end |}.

Definition superscript_two : string :=
  String (ascii_of_N 194) (String (ascii_of_N 178) "").

Definition fullwidth_digit (d : N) : string :=
  String (ascii_of_N 239) (String (ascii_of_N 188) (String (ascii_of_N (144 + d)) "")).

(** The code 123456 in full-width digits. *)
Definition fullwidth_code : string :=
  fullwidth_digit 1 ++ fullwidth_digit 2 ++ fullwidth_digit 3 ++
  fullwidth_digit 4 ++ fullwidth_digit 5 ++ fullwidth_digit 6.

(** The profile answer shows a session that is logged in; and the profile
    answer can be read at all: it is an error answer, or its body is JSON. *)
Definition authenticated (resp : response (option (gmap string json))) : bool :=
  ok resp &&
  match body resp with
  | Some envelope =>
      is_None (envelope !! "error") && negb (is_None (envelope !! "data"))
  | None => false
  end.

Definition readable (resp : response (option (gmap string json))) : bool :=
  negb (ok resp) || match body resp with Some _ => true | None => false end.

(** What [check_tfa_required] returns on the answer [resp]. *)
Definition tfa_result (resp : response (gmap string json)) : outcome json :=
  if is_None (body resp !! "error") then
    match default (JObj []) (body resp !! "data") with
    | JObj fields => Done (default (JBool false) (dict_get "result" fields))
    | _ => Fault (Python AttributeError)
    end
  else Done (JBool false).

(** Sample answers of the profile endpoint, each setting a [csrftoken]
    cookie but the last: for a session that is logged in, and for one that is
    not. *)
Definition profile_logged_in (history : list request)
  : response (option (gmap string json)) :=
  {| status_code := 200; set_cookies := [csrf_site];
     body := Some (<["error" := JNull]>
                     (<["data" := JObj [("username", JStr "alice")]]> ∅)) |}.

Definition profile_anonymous (history : list request)
  : response (option (gmap string json)) :=
  {| status_code := 200; set_cookies := [csrf_site];
     body := Some (<["error" := JNull]> (<["data" := JNull]> ∅)) |}.

Definition profile_without_token (history : list request)
  : response (option (gmap string json)) :=
  {| status_code := 200; set_cookies := [];
     body := Some (<["error" := JNull]> (<["data" := JNull]> ∅)) |}.

Definition tfa_not_wanted (history : list request) : response (gmap string json) :=
  {| status_code := 200; set_cookies := [];
     body := <["error" := JNull]> (<["data" := JObj [("result", JBool false)]]> ∅) |}.

(** A terminal on which [lines] wait on standard input and [keys] at the
    terminal device. *)
Definition typing (lines keys : list string) : terminal :=
  {| machine := empty_world; printed := []; errors := []; stdin := lines;
     keyboard := keys |}.

(** A ranking of two entries, each as either scorer reads it. *)
Definition sample_ranking : list Entry :=
  [ {| as_acm := {| username := "alice"; total_score := None;
                    submission_info :=
                      Some (<["1" := solved 0]> (<["2" := solved 1]> ∅)) |};
       as_oi := {| username := "alice"; total_score := Some 100;
                   submission_info := Some (<["1" := 60]> (<["2" := 40]> ∅)) |} |};
    {| as_acm := {| username := "bob"; total_score := None;
                    submission_info := Some (<["2" := solved 0]> ∅) |};
       as_oi := {| username := "bob"; total_score := None;
                   submission_info := Some (<["2" := 25]> ∅) |} |} ].

(** A judge whose ranking fits in one page. *)
Definition short_ranking (history : list request) : response (paged Entry) :=
  {| status_code := 200; set_cookies := [];
     body := Page {| total := Some (Z.of_nat (length sample_ranking));
                     results := Some sample_ranking |} |}.

(** The program on the sample site. *)
Definition sample_main
    (tfa_api login_api : list request → response (gmap string json))
    (profile_api : list request → response (option (gmap string json)))
  : Namespace → T unit :=
  main sample_python "https://oj.example" sample_hostname "cookies.json"
    strict_cookiejar_from_dict
    append_cookies sample_cookies_set ∅ tfa_api accepting_logout sample_contests
    profile_api login_api short_ranking.

(** ** Properties of the Python runtime model *)

Local Open Scope list_scope.
Local Open Scope Z_scope.

Lemma result_mapM_total {A B} (f : A → result B) (xs : list A) :
  forallb (λ x, is_Ok (f x)) xs = true → ∃ ys, result_mapM f xs = Ok ys.
Proof.
  induction xs as [|x xs IH]; simpl; [by eexists|].
  intros [Hx Hxs]%andb_prop. destruct (IH Hxs) as [ys ->].
  destruct (f x); [|done]. by eexists.
Qed.

Lemma result_mapM_elem_of {A B} (f : A → result B) (xs : list A) (ys : list B) :
  result_mapM f xs = Ok ys → ∀ y, y ∈ ys ↔ ∃ x, x ∈ xs ∧ f x = Ok y.
Proof.
  revert ys. induction xs as [|x xs IH]; simpl; intros ys Hm y.
  - injection Hm as <-. split; [by intros ?%elem_of_nil|].
    by intros (? & ?%elem_of_nil & _).
  - destruct (f x) as [b|] eqn:Hfx; [|done]. simpl in Hm.
    destruct (result_mapM f xs) as [bs|] eqn:Hbs; [|done].
    injection Hm as <-. rewrite elem_of_cons, (IH bs eq_refl y). split.
    + intros [->|(x' & Hin & Hx')].
      * exists x. split; [left|done].
      * exists x'. split; [by right|done].
    + intros (x' & [->|Hin]%elem_of_cons & Hx').
      * left. congruence.
      * right. by exists x'.
Qed.

Lemma result_mapM_raises {A B} (f : A → result B) (xs : list A) :
  forallb (λ x, is_Ok (f x)) xs = false → ∃ e, result_mapM f xs = Raise e.
Proof.
  induction xs as [|x xs IH]; simpl; [done|].
  destruct (f x) as [b|e] eqn:Hfx; simpl; [|by eexists].
  intros Hxs. destruct (IH Hxs) as [e ->]. by eexists.
Qed.

Lemma py_int_raises (s : string) (e : exn) :
  py_int s = Raise e → e = ValueError.
Proof.
  unfold py_int.
  match goal with
  | |- context [let '(_, _) := ?p in _] => destruct p as [neg ds]
  end.
  destruct (parse_digits ds 0 false); congruence.
Qed.

Lemma Sorted_le_NoDup_lt (l : list Z) :
  Sorted Z.le l → NoDup l → StronglySorted Z.lt l.
Proof.
  intros Hs%Sorted_StronglySorted; [|by intros ???; apply Z.le_trans].
  induction Hs as [|x l Hl IH Hx]; intros Hnd; [constructor|].
  apply NoDup_cons in Hnd as [Hnotin Hnd]. constructor; [by apply IH|].
  apply Forall_forall. intros y Hy.
  rewrite Forall_forall in Hx. specialize (Hx y Hy).
  assert (x ≠ y) by (intros ->; by apply Hnotin). lia.
Qed.

(** ** The column set *)

Lemma elem_of_all_keys {V} (results : list (RankEntry V)) (k : string) :
  k ∈ all_keys results ↔ ∃ e, e ∈ results ∧ is_Some (info_of e !! k).
Proof.
  unfold all_keys. rewrite list_elem_of_In, in_concat. split.
  - intros (ks & Hks & Hk). apply in_map_iff in Hks as (e & <- & He).
    exists e. split; [by apply list_elem_of_In|].
    apply list_elem_of_In, list_elem_of_fmap in Hk as ([k' v] & -> & Hkv).
    apply elem_of_map_to_list in Hkv. by exists v.
  - intros (e & He & v & Hv). exists (map fst (map_to_list (info_of e))). split.
    + apply in_map_iff. exists e. split; [done|by apply list_elem_of_In].
    + apply list_elem_of_In, list_elem_of_fmap. exists (k, v).
      split; [done|by apply elem_of_map_to_list].
Qed.

Lemma qids_sorted_union {V} (results : list (RankEntry V)) (qs : list Z) :
  qids results = Ok qs → sorted_union results qs.
Proof.
  unfold qids. destruct (result_mapM py_int (all_keys results)) as [ints|] eqn:Hints;
    simpl; [|done].
  intros [= <-]. split.
  - apply Sorted_le_NoDup_lt.
    + apply Sorted_merge_sort, _.
    + rewrite merge_sort_Permutation. apply NoDup_elements.
  - intros z. rewrite merge_sort_Permutation, elem_of_elements, elem_of_list_to_set.
    rewrite (result_mapM_elem_of _ _ _ Hints). unfold attempted. split.
    + intros (k & (e & He & Hk)%elem_of_all_keys & Hz). by exists e, k.
    + intros (e & k & He & Hk & Hz). exists k. split; [|done].
      apply elem_of_all_keys. by exists e.
Qed.

Lemma qids_total {V} (results : list (RankEntry V)) :
  integer_keys results = true → ∃ qs, qids results = Ok qs.
Proof.
  intros H. destruct (result_mapM_total _ _ H) as [ints Hints].
  unfold qids. rewrite Hints. by eexists.
Qed.

Lemma qids_raises {V} (results : list (RankEntry V)) :
  integer_keys results = false → qids results = Raise ValueError.
Proof.
  intros H. destruct (result_mapM_raises _ _ H) as [e He].
  unfold qids. rewrite He. simpl. f_equal.
  clear H. revert e He. generalize (all_keys results). intros ks.
  induction ks as [|k ks IH]; simpl; [done|]. intros e.
  destruct (py_int k) as [z|e'] eqn:Hk; simpl.
  - destruct (result_mapM py_int ks); [done|]. intros [= <-]. by eapply IH.
  - intros [= <-]. by apply py_int_raises in Hk.
Qed.

(** ** Running the scorers *)

Lemma set_stdout_id (w : world) : set_stdout (stdout w) w = w.
Proof. by destruct w. Qed.

Lemma writerow_run (row : list string) (w : world) :
  writerow row w = (set_stdout (stdout w ++ [row])%list w, Ok tt).
Proof. done. Qed.

Lemma for_each_writerow {A} (f : A → list string) (xs : list A) (w : world) :
  for_each xs (λ x, writerow (f x)) w
  = (set_stdout (stdout w ++ map f xs)%list w, Ok tt).
Proof.
  revert w. induction xs as [|x xs IH]; intros w; simpl.
  - by rewrite app_nil_r, set_stdout_id.
  - unfold mbind, M_bind, bind, writerow. rewrite IH. simpl.
    by rewrite <-app_assoc.
Qed.

Lemma results_to_csv_acm_run (results : list (RankEntry attempt)) (w : world) :
  results_to_csv_acm results w =
  match qids results with
  | Ok qs =>
      (set_stdout (stdout w ++ header qs "total" ::
                     map (acm_row (full_score qs) qs) results)%list w, Ok tt)
  | Raise e => (w, Raise e)
  end.
Proof.
  unfold results_to_csv_acm, mbind, M_bind, bind, lift.
  destruct (qids results) as [qs|e]; [|done].
  rewrite writerow_run, for_each_writerow. simpl.
  by rewrite <-app_assoc.
Qed.

Lemma results_to_csv_oi_run (results : list (RankEntry Z)) (w : world) :
  results_to_csv_oi results w =
  match qids results with
  | Ok qs =>
      (set_stdout (stdout w ++ header qs "total_score" ::
                     map (oi_row qs) results)%list w, Ok tt)
  | Raise e => (w, Raise e)
  end.
Proof.
  unfold results_to_csv_oi, mbind, M_bind, bind, lift.
  destruct (qids results) as [qs|e]; [|done].
  rewrite writerow_run, for_each_writerow. simpl.
  by rewrite <-app_assoc.
Qed.

Lemma acm_row_cells (full : pynum) (qs : list Z) (e : RankEntry attempt) :
  acm_row full qs e =
  (username e :: map (λ qid, format_2f (acm_score full (info_of e) qid)) qs
    ++ [format_2f (foldl py_add (PInt 0) (map (acm_score full (info_of e)) qs))])%list.
Proof.
  unfold acm_row.
  assert (∀ row tot,
    foldl (λ '(row, total_score) qid,
             let sc := acm_score full (info_of e) qid in
             ((row ++ [format_2f sc])%list, py_add total_score sc)) (row, tot) qs
    = ((row ++ map (λ qid, format_2f (acm_score full (info_of e) qid)) qs)%list,
       foldl py_add tot (map (acm_score full (info_of e)) qs))) as ->; [|done].
  induction qs as [|q qs IH]; intros row tot; simpl.
  - by rewrite app_nil_r.
  - rewrite IH. by rewrite <-app_assoc.
Qed.

Lemma oi_row_cells (qs : list Z) (e : RankEntry Z) :
  oi_row qs e =
  (username e :: map (λ qid, py_str (default 0 (info_of e !! py_str qid))) qs
    ++ [py_str (default (py_sum (info_of e)) (total_score e))])%list.
Proof.
  unfold oi_row.
  assert (∀ row,
    foldl (λ row qid,
             let sc := default 0 (info_of e !! py_str qid) in
             (row ++ [py_str sc])%list) row qs
    = (row ++ map (λ qid, py_str (default 0 (info_of e !! py_str qid))) qs)%list) as ->;
    [|done].
  induction qs as [|q qs IH]; intros row; simpl.
  - by rewrite app_nil_r.
  - rewrite IH. by rewrite <-app_assoc.
Qed.

Lemma rows_length_acm (full : pynum) (qs : list Z) (results : list (RankEntry attempt)) :
  Forall (λ row, length row = S (S (length qs))) (map (acm_row full qs) results).
Proof.
  apply Forall_forall. intros row (e & -> & _)%list_elem_of_fmap.
  rewrite acm_row_cells. simpl. rewrite length_app, length_map. simpl. lia.
Qed.

Lemma rows_length_oi (qs : list Z) (results : list (RankEntry Z)) :
  Forall (λ row, length row = S (S (length qs))) (map (oi_row qs) results).
Proof.
  apply Forall_forall. intros row (e & -> & _)%list_elem_of_fmap.
  rewrite oi_row_cells. simpl. rewrite length_app, length_map. simpl. lia.
Qed.

(** C1. For every list of rank entries whose keys read as integers, both
    scorers write a header over one and the same kind of column set: the
    integers of the keys of every entry's [submission_info], in strictly
    ascending order; every row has one cell per column besides the user name
    and the total. *)
Theorem question_id_columns
    (acm : list (RankEntry attempt)) (oi : list (RankEntry Z)) (w : world) :
  integer_keys acm = true →
  integer_keys oi = true →
  ∃ qa qo rows_a rows_o,
    sorted_union acm qa ∧ sorted_union oi qo ∧
    results_to_csv_acm acm w
    = (set_stdout (stdout w ++ header qa "total" :: rows_a)%list w, Ok tt) ∧
    results_to_csv_oi oi w
    = (set_stdout (stdout w ++ header qo "total_score" :: rows_o)%list w, Ok tt) ∧
    Forall (λ row, length row = S (S (length qa))) rows_a ∧
    Forall (λ row, length row = S (S (length qo))) rows_o.
Proof.
  intros [qa Ha]%qids_total [qo Ho]%qids_total.
  exists qa, qo, (map (acm_row (full_score qa) qa) acm), (map (oi_row qo) oi).
  rewrite results_to_csv_acm_run, results_to_csv_oi_run, Ha, Ho.
  split; [by apply qids_sorted_union|].
  split; [by apply qids_sorted_union|].
  split; [done|]. split; [done|].
  split; [apply rows_length_acm|apply rows_length_oi].
Qed.

(** ** The shape of a [.2f] cell *)

Lemma is_digit_digit_char (d : Z) : 0 ≤ d ≤ 9 → is_digit (digit_char d) = true.
Proof.
  intros Hd.
  assert (d = 0 ∨ d = 1 ∨ d = 2 ∨ d = 3 ∨ d = 4 ∨ d = 5 ∨ d = 6 ∨ d = 7 ∨
          d = 8 ∨ d = 9) as Hcases by lia.
  repeat (destruct Hcases as [->|Hcases]; [reflexivity|]). by subst.
Qed.

Lemma digits_point_two_uint (d : Decimal.uint) (r : string) (seen : bool) :
  digits_point_two (DecimalString.NilEmpty.string_of_uint d ++ r)%string seen
  = digits_point_two r (match d with Decimal.Nil => seen | _ => true end).
Proof.
  revert seen. induction d as [|d IH|d IH|d IH|d IH|d IH|d IH|d IH|d IH|d IH|d IH];
    intros seen; [done|..];
    cbn [DecimalString.NilEmpty.string_of_uint String.append];
    (etransitivity; [exact (IH true)|by destruct d]).
Qed.

Lemma digits_point_two_py_str (z : Z) (r : string) (seen : bool) :
  0 ≤ z → digits_point_two (py_str z ++ r)%string seen = digits_point_two r true.
Proof.
  intros Hz. unfold py_str.
  destruct z as [|p|p]; [done| |lia].
  unfold Z.to_int, DecimalString.NilZero.string_of_int,
    DecimalString.NilZero.string_of_uint.
  destruct (Pos.to_uint p) eqn:Hp; [done|..];
    rewrite digits_point_two_uint; done.
Qed.

Lemma py_str_head (z : Z) :
  0 ≤ z → ∃ c s, py_str z = String c s ∧ is_digit c = true.
Proof.
  intros Hz. unfold py_str.
  destruct z as [|p|p]; [by eexists _, _| |lia].
  unfold Z.to_int, DecimalString.NilZero.string_of_int,
    DecimalString.NilZero.string_of_uint.
  destruct (Pos.to_uint p); by eexists _, _.
Qed.

Lemma two_decimals_show_hundredths (h : Z) (sign : bool) :
  0 ≤ h →
  two_decimals ((if sign then "-" else "") ++ show_hundredths h)%string = true.
Proof.
  intros Hh. unfold show_hundredths.
  assert (0 ≤ h / 100) as Hq by (apply Z.div_pos; lia).
  assert (digits_point_two
            (py_str (h / 100) ++ "." ++
             String (digit_char (h / 10 mod 10)) (String (digit_char (h mod 10)) ""))%string
            false = true) as Hbody.
  { rewrite digits_point_two_py_str by done. simpl.
    pose proof (Z.mod_pos_bound (h / 10) 10 eq_refl).
    pose proof (Z.mod_pos_bound h 10 eq_refl).
    rewrite !is_digit_digit_char; [done|lia..]. }
  destruct sign; simpl; [done|].
  destruct (py_str_head _ Hq) as (c & s & Hs & Hc). rewrite Hs in *.
  simpl. destruct (Ascii.eqb_spec c "-") as [->|_]; [done|].
  exact Hbody.
Qed.

Lemma round_half_even_nonneg (n d : Z) : 0 ≤ n → 0 < d → 0 ≤ round_half_even n d.
Proof.
  intros Hn Hd. unfold round_half_even.
  assert (0 ≤ n / d) by (apply Z.div_pos; lia).
  repeat case_match; lia.
Qed.

(** ** Sums of floats stay finite *)

(** Adding two numbers that are zero or positive with exponents of at most
    [a] gives such a number with an exponent of at most [a + 2], by the
    specification of binary64 addition: the exact sum is aligned, shifted to
    53 bits and rounded, and rounding carries into one more bit at most. *)

Lemma fexp_eq (k : Z) : fexp prec emax k = Z.max (k - 53) (-1074).
Proof. reflexivity. Qed.

Lemma digits2_pos_spec (m : positive) :
  2 ^ (Z.pos (digits2_pos m) - 1) ≤ Z.pos m < 2 ^ Z.pos (digits2_pos m).
Proof.
  induction m as [m IH|m IH|]; cbn [digits2_pos]; [| |done].
  - rewrite Pos2Z.inj_succ, Z.pow_succ_r by lia.
    replace (Z.succ (Z.pos (digits2_pos m)) - 1) with (Z.succ (Z.pos (digits2_pos m) - 1))
      by lia.
    rewrite Z.pow_succ_r by lia. lia.
  - rewrite Pos2Z.inj_succ, Z.pow_succ_r by lia.
    replace (Z.succ (Z.pos (digits2_pos m)) - 1) with (Z.succ (Z.pos (digits2_pos m) - 1))
      by lia.
    rewrite Z.pow_succ_r by lia. lia.
Qed.

Lemma digits2_pos_le (m : positive) (k : Z) :
  Z.pos m < 2 ^ k → Z.pos (digits2_pos m) ≤ k.
Proof.
  intros Hm. destruct (Z.le_gt_cases (Z.pos (digits2_pos m)) k) as [|Hgt]; [done|].
  pose proof (digits2_pos_spec m) as [Hlow _].
  destruct (Z.le_gt_cases 0 k) as [Hk|Hk].
  - assert (2 ^ k ≤ 2 ^ (Z.pos (digits2_pos m) - 1)) by (apply Z.pow_le_mono_r; lia).
    lia.
  - rewrite Z.pow_neg_r in Hm by lia. lia.
Qed.

Lemma shr_1_m (mrs : shr_record) :
  0 ≤ shr_m mrs → shr_m (shr_1 mrs) = shr_m mrs / 2.
Proof.
  destruct mrs as [[|[p|p|]|p] r s]; cbn [shr_m shr_1]; intros Hm; try done.
  - by rewrite Pos2Z.inj_xI, (Z.mul_comm 2), Z.div_add_l.
  - by rewrite Pos2Z.inj_xO, (Z.mul_comm 2), Z.div_mul.
Qed.

Lemma iter_pos_shr_1_m (n : positive) (mrs : shr_record) :
  0 ≤ shr_m mrs →
  shr_m (SpecFloat.iter_pos shr_1 n mrs) = shr_m mrs / 2 ^ Z.pos n.
Proof.
  revert mrs. induction n as [n IH|n IH|]; intros mrs Hm; cbn [SpecFloat.iter_pos].
  - assert (0 ≤ shr_m (shr_1 mrs)) as H1 by (rewrite shr_1_m by done; apply Z.div_pos; lia).
    assert (0 ≤ shr_m (SpecFloat.iter_pos shr_1 n (shr_1 mrs))) as H2.
    { rewrite IH by done. apply Z.div_pos; [done|]. apply Z.pow_pos_nonneg; lia. }
    rewrite IH, IH, shr_1_m by done.
    rewrite !Z.div_div by (try apply Z.pow_pos_nonneg; lia).
    f_equal. change (Z.pos n~1) with (2 * Z.pos n + 1).
    replace (2 * Z.pos n + 1) with (1 + Z.pos n + Z.pos n) by lia.
    rewrite !Z.pow_add_r by lia. lia.
  - assert (0 ≤ shr_m (SpecFloat.iter_pos shr_1 n mrs)) as H2.
    { rewrite IH by done. apply Z.div_pos; [done|]. apply Z.pow_pos_nonneg; lia. }
    rewrite IH, IH by done.
    rewrite !Z.div_div by (try apply Z.pow_pos_nonneg; lia).
    f_equal. change (Z.pos n~0) with (2 * Z.pos n).
    replace (2 * Z.pos n) with (Z.pos n + Z.pos n) by lia.
    rewrite !Z.pow_add_r by lia. lia.
  - by rewrite shr_1_m.
Qed.

Lemma round_nearest_even_bounds (m : Z) (l : location) :
  m ≤ round_nearest_even m l ≤ m + 1.
Proof.
  destruct l as [|[]]; cbn [round_nearest_even]; try lia.
  destruct (Z.even m); lia.
Qed.

Lemma binary_round_aux_exponent (mz : positive) (ez a : Z) :
  -1074 ≤ a → a + 2 ≤ 971 →
  ez ≤ fexp prec emax (Z.pos (digits2_pos mz) + ez) →
  fexp prec emax (Z.pos (digits2_pos mz) + ez) ≤ a + 1 →
  exponent_at_most (a + 2) (binary_round_aux prec emax false (Z.pos mz) ez loc_Exact)
  = true.
Proof.
  intros Ha Hmax Hez Ht. rewrite fexp_eq in Hez, Ht.
  pose proof (digits2_pos_spec mz) as [_ Hmz].
  unfold binary_round_aux, shr_fexp at 1. cbn [Zdigits2 shr_record_of_loc].
  rewrite fexp_eq.
  set (t := Z.max (Z.pos (digits2_pos mz) + ez - 53) (-1074)) in *.
  assert (∀ m2 : Z, 0 ≤ m2 ≤ 2 ^ 53 →
            exponent_at_most (a + 2)
              (let '(mrs'', e'') := shr_fexp prec emax m2 t loc_Exact in
               match shr_m mrs'' with
               | 0 => S754_zero false
               | Z.pos m => if e'' <=? emax - prec then S754_finite false m e''
                            else S754_infinity false
               | Z.neg _ => S754_nan
               end) = true) as Hsecond.
  { intros m2 Hm2. unfold shr_fexp. cbn [shr_record_of_loc]. rewrite fexp_eq.
    destruct m2 as [|q|q]; [| |lia].
    - cbn [Zdigits2]. unfold shr.
      destruct (Z.max (0 + t - 53) (-1074) - t) as [|p|p] eqn:Hn; [done|lia|done].
    - cbn [Zdigits2].
      assert (Z.pos (digits2_pos q) ≤ 54) as Hd2.
      { apply digits2_pos_le. assert (2 ^ 53 < 2 ^ 54) by done. lia. }
      unfold shr.
      destruct (Z.max (Z.pos (digits2_pos q) + t - 53) (-1074) - t) as [|p|p] eqn:Hn.
      + cbn [shr_m]. change (emax - prec) with 971.
        destruct (Z.leb_spec t 971) as [_|?]; [|lia]. cbn [exponent_at_most].
        apply Z.leb_le. lia.
      + assert (p = 1%positive) as -> by lia.
        cbn [SpecFloat.iter_pos]. change (emax - prec) with 971.
        destruct q as [q|q|]; cbn [shr_1 shr_m].
        * destruct (Z.leb_spec (t + 1) 971) as [_|?]; [|lia]. cbn [exponent_at_most].
          apply Z.leb_le. lia.
        * destruct (Z.leb_spec (t + 1) 971) as [_|?]; [|lia]. cbn [exponent_at_most].
          apply Z.leb_le. lia.
        * cbn in Hn. lia.
      + cbn [shr_m]. change (emax - prec) with 971.
        destruct (Z.leb_spec t 971) as [_|?]; [|lia]. cbn [exponent_at_most].
        apply Z.leb_le. lia. }
  unfold shr.
  destruct (t - ez) as [|p|p] eqn:Hn.
  - replace ez with t by lia. cbn [shr_m loc_of_shr_record round_nearest_even].
    apply Hsecond. split; [lia|].
    assert (Z.pos (digits2_pos mz) ≤ 53) by lia.
    assert (2 ^ Z.pos (digits2_pos mz) ≤ 2 ^ 53) by (apply Z.pow_le_mono_r; lia). lia.
  - replace (ez + Z.pos p) with t by lia.
    apply Hsecond.
    set (mrs := SpecFloat.iter_pos shr_1 p _).
    assert (shr_m mrs = Z.pos mz / 2 ^ Z.pos p) as Hm1
      by (subst mrs; by rewrite iter_pos_shr_1_m).
    pose proof (round_nearest_even_bounds (shr_m mrs) (loc_of_shr_record mrs)) as Hr.
    assert (0 ≤ shr_m mrs < 2 ^ 53) as Hb.
    { rewrite Hm1. split; [apply Z.div_pos; [lia|apply Z.pow_pos_nonneg; lia]|].
      apply Z.div_lt_upper_bound; [apply Z.pow_pos_nonneg; lia|].
      rewrite <-Z.pow_add_r by lia.
      assert (2 ^ Z.pos (digits2_pos mz) ≤ 2 ^ (Z.pos p + 53))
        by (apply Z.pow_le_mono_r; lia). lia. }
    lia.
  - lia.
Qed.

Lemma iter_xO_spec (m d : positive) :
  Z.pos (Pos.iter xO m d) = Z.pos m * 2 ^ Z.pos d ∧
  Z.pos (digits2_pos (Pos.iter xO m d)) = Z.pos (digits2_pos m) + Z.pos d.
Proof.
  induction d as [|d IH] using Pos.peano_ind.
  - cbn [Pos.iter digits2_pos]. split; lia.
  - rewrite Pos.iter_succ. cbn [digits2_pos]. destruct IH as [IH1 IH2].
    rewrite Pos2Z.inj_xO, IH1, !Pos2Z.inj_succ, IH2, Z.pow_succ_r by lia. lia.
Qed.

Lemma shl_align_spec (m : positive) (e e' : Z) :
  (shl_align m e e').2 = Z.min e e' ∧
  Z.pos (shl_align m e e').1 = Z.pos m * 2 ^ (e - Z.min e e') ∧
  Z.pos (digits2_pos (shl_align m e e').1) + (shl_align m e e').2
  = Z.pos (digits2_pos m) + e.
Proof.
  unfold shl_align. destruct (e' - e) as [|d|d] eqn:Hd; cbn [fst snd].
  - replace (Z.min e e') with e by lia. rewrite Z.sub_diag. lia.
  - replace (Z.min e e') with e by lia. rewrite Z.sub_diag. lia.
  - replace (Z.min e e') with e' by lia.
    destruct (iter_xO_spec m d) as [-> ->].
    replace (e - e') with (Z.pos d) by lia. lia.
Qed.

Lemma binary_round_exponent (m : positive) (e a : Z) :
  -1074 ≤ a → a + 2 ≤ 971 → e ≤ a →
  Z.pos (digits2_pos m) + e ≤ a + 54 →
  exponent_at_most (a + 2) (binary_round prec emax false m e) = true.
Proof.
  intros Ha Hmax He Hd. unfold binary_round.
  pose proof (shl_align_spec m e (fexp prec emax (Z.pos (digits2_pos m) + e)))
    as (Hez & _ & Hdz).
  destruct (shl_align m e _) as [mz ez]. cbn [fst snd] in Hez, Hdz.
  apply binary_round_aux_exponent; [done|done|rewrite Hdz; lia|].
  rewrite Hdz, fexp_eq. lia.
Qed.

Lemma valid_binary_digits (s : bool) (m : positive) (e : Z) :
  FloatAxioms.valid_binary (S754_finite s m e) = true → Z.pos (digits2_pos m) ≤ 53.
Proof.
  cbn [SpecFloat.valid_binary]. unfold bounded, canonical_mantissa.
  intros [Hc%Z.eqb_eq _]%andb_prop. rewrite fexp_eq in Hc. lia.
Qed.

Lemma SF64add_exponent (a : Z) (x y : spec_float) :
  -1074 ≤ a → a + 2 ≤ 971 →
  FloatAxioms.valid_binary x = true → FloatAxioms.valid_binary y = true →
  exponent_at_most a x = true → exponent_at_most a y = true →
  exponent_at_most (a + 2) (FloatAxioms.SF64add x y) = true.
Proof.
  intros Ha Hmax Hvx Hvy Hx Hy.
  destruct x as [sx|sx| |[] mx ex]; try done;
    destruct y as [sy|sy| |[] my ey]; try done; cbn [exponent_at_most] in Hx, Hy.
  - by destruct sx, sy.
  - cbn. apply Z.leb_le. apply Z.leb_le in Hy. lia.
  - cbn. apply Z.leb_le. apply Z.leb_le in Hx. lia.
  - apply Z.leb_le in Hx, Hy.
    apply valid_binary_digits in Hvx, Hvy.
    unfold FloatAxioms.SF64add, SFadd. cbn [cond_Zopp].
    pose proof (shl_align_spec mx ex (Z.min ex ey)) as (_ & Hpx & _).
    pose proof (shl_align_spec my ey (Z.min ex ey)) as (_ & Hpy & _).
    set (px := (shl_align mx ex (Z.min ex ey)).1) in *.
    set (py := (shl_align my ey (Z.min ex ey)).1) in *.
    change (Z.pos px + Z.pos py) with (Z.pos (px + py)).
    cbn [binary_normalize].
    apply binary_round_exponent; [done|done|lia|].
    set (ez := Z.min ex ey) in *.
    assert (Z.pos (digits2_pos (px + py)) ≤ a + 54 - ez); [|lia].
    apply digits2_pos_le. rewrite Pos2Z.inj_add, Hpx, Hpy.
    replace (Z.min ex ez) with ez by lia. replace (Z.min ey ez) with ez by lia.
    pose proof (digits2_pos_spec mx) as [_ Hmx].
    pose proof (digits2_pos_spec my) as [_ Hmy].
    assert (2 ^ Z.pos (digits2_pos mx) ≤ 2 ^ 53) by (apply Z.pow_le_mono_r; lia).
    assert (2 ^ Z.pos (digits2_pos my) ≤ 2 ^ 53) by (apply Z.pow_le_mono_r; lia).
    assert (2 ^ (ex - ez) ≤ 2 ^ (a - ez)) by (apply Z.pow_le_mono_r; lia).
    assert (2 ^ (ey - ez) ≤ 2 ^ (a - ez)) by (apply Z.pow_le_mono_r; lia).
    assert (0 < 2 ^ (ex - ez)) by (apply Z.pow_pos_nonneg; lia).
    assert (0 < 2 ^ (ey - ez)) by (apply Z.pow_pos_nonneg; lia).
    replace (a + 54 - ez) with (1 + 53 + (a - ez)) by lia.
    rewrite !Z.pow_add_r by lia. change (2 ^ 1) with 2.
    assert (0 < 2 ^ (a - ez)) by (apply Z.pow_pos_nonneg; lia).
    nia.
Qed.

Lemma add_exponent (a : Z) (x y : float) :
  -1074 ≤ a → a + 2 ≤ 971 →
  float_exponent_at_most a x = true → float_exponent_at_most a y = true →
  float_exponent_at_most (a + 2) (x + y)%float = true.
Proof.
  intros Ha Hmax Hx Hy. unfold float_exponent_at_most. rewrite FloatAxioms.add_spec.
  apply SF64add_exponent; try done; apply FloatAxioms.Prim2SF_valid.
Qed.

Lemma exponent_at_most_mono (a b : Z) (x : spec_float) :
  a ≤ b → exponent_at_most a x = true → exponent_at_most b x = true.
Proof.
  intros Hab. destruct x as [| | |[] m e]; try done. cbn.
  intros He%Z.leb_le. apply Z.leb_le. lia.
Qed.

Lemma foldl_add_exponent (a b : Z) (scores : list float) (acc : float) :
  -1074 ≤ a → a ≤ b → b + 2 * Z.of_nat (length scores) ≤ 971 →
  float_exponent_at_most b acc = true →
  Forall (λ f, float_exponent_at_most a f = true) scores →
  float_exponent_at_most (b + 2 * Z.of_nat (length scores))
    (foldl PrimFloat.add acc scores) = true.
Proof.
  intros Ha. revert b acc. induction scores as [|s scores IH]; intros b acc Hab Hmax Hacc Hs.
  - cbn. by rewrite Z.add_0_r.
  - apply Forall_cons in Hs as [Hs Hrest]. cbn [foldl length] in *.
    replace (b + 2 * Z.of_nat (S (length scores)))
      with (b + 2 + 2 * Z.of_nat (length scores)) by lia.
    apply IH; [lia|lia| |done].
    apply add_exponent; [lia|lia|done|].
    by apply (exponent_at_most_mono a b).
Qed.

Lemma two_decimals_small_float (a : Z) (f : float) :
  float_exponent_at_most a f = true → two_decimals (format_2f_float f) = true.
Proof.
  unfold float_exponent_at_most, format_2f_float.
  destruct (Prim2SF f) as [[]| | |[] m e]; try done. intros _.
  apply (two_decimals_show_hundredths _ false).
  destruct (0 <=? e)%Z eqn:He.
  - apply Z.leb_le in He. apply Z.mul_nonneg_nonneg; [lia|].
    by apply Z.pow_nonneg.
  - apply round_half_even_nonneg; [lia|].
    apply Z.pow_pos_nonneg; [lia|]. apply Z.leb_gt in He. lia.
Qed.

(** ** ACM mode *)

Lemma to_float_acm_score (qs : list Z) (info : gmap string attempt) (qid : Z) :
  to_float (acm_score (full_score qs) info qid)
  = spec_acm_score (length qs) (info !! py_str qid) ∧
  zero_or_float (acm_score (full_score qs) info qid).
Proof.
  assert (to_float (full_score qs) = spec_full (length qs) ∧
          zero_or_float (full_score qs)) as [Hfull Hzf].
  { destruct qs as [|q qs]; [done|]. split; [|done].
    unfold full_score, py_truediv, to_float, float_of_Z, spec_full.
    by destruct (Z.ltb_spec (Z.of_nat (length (q :: qs))) 0) as [?|_]; [lia|]. }
  unfold acm_score, spec_acm_score.
  destruct (info !! py_str qid) as [[[[]|] en]|]; simpl; try done.
  destruct (Z.eqb_spec (default 0 en + 1) 1), (Z.eqb_spec (default 0 en + 1) 2);
    destruct (default 0 en) as [|[]|]; try lia; try done.
  split; [|done]. unfold py_truediv. cbn [to_float]. by rewrite Hfull.
Qed.

Lemma to_float_py_add (a b : pynum) :
  zero_or_float a → zero_or_float b →
  to_float (py_add a b) = (to_float a + to_float b)%float ∧
  zero_or_float (py_add a b).
Proof. destruct a as [x|x], b as [y|y]; simpl; try done. by intros -> ->. Qed.

Lemma to_float_total (scores : list pynum) (acc : pynum) :
  zero_or_float acc → Forall zero_or_float scores →
  to_float (foldl py_add acc scores)
  = foldl PrimFloat.add (to_float acc) (map to_float scores).
Proof.
  revert acc. induction scores as [|sc scores IH]; intros acc Hacc Hs; [done|].
  apply Forall_cons in Hs as [Hsc Hs]. cbn [foldl map].
  destruct (to_float_py_add acc sc Hacc Hsc) as [<- Hzf]. by apply IH.
Qed.

Lemma acm_row_spec (qs : list Z) (e : RankEntry attempt) :
  let scores :=
    map (λ qid, spec_acm_score (length qs) (info_of e !! py_str qid)) qs in
  acm_row (full_score qs) qs e
  = username e :: map format_2f_float scores ++ [format_2f_float (spec_total scores)].
Proof.
  intros scores. rewrite acm_row_cells. subst scores.
  rewrite map_map. f_equal. f_equal.
  - apply map_ext. intros qid. unfold format_2f.
    by destruct (to_float_acm_score qs (info_of e) qid) as [-> _].
  - do 2 f_equal. unfold format_2f, spec_total. f_equal.
    rewrite to_float_total.
    + rewrite map_map. f_equal. apply map_ext. intros qid.
      by destruct (to_float_acm_score qs (info_of e) qid) as [-> _].
    + done.
    + apply Forall_forall. intros sc (qid & -> & _)%list_elem_of_fmap.
      by destruct (to_float_acm_score qs (info_of e) qid) as [_ ?].
Qed.

Lemma spec_acm_score_small (n : nat) (record : option attempt) :
  (n ≤ 500)%nat → float_exponent_at_most (-46) (spec_acm_score n record) = true.
Proof.
  intros Hn.
  assert (forallb (λ k, float_exponent_at_most (-46) (spec_full k) &&
                        float_exponent_at_most (-46) (spec_full k / 2))
                  (seq 0 501) = true) as Hall by (vm_compute; reflexivity).
  rewrite forallb_forall in Hall.
  pose proof (Hall n ltac:(apply in_seq; lia)) as [Hfull Hhalf]%andb_prop.
  unfold spec_acm_score.
  destruct record as [[[[]|] en]|]; try done.
  by destruct (default 0 en) as [|[]|].
Qed.

Lemma spec_total_small (scores : list float) :
  (length scores ≤ 500)%nat →
  Forall (λ f, float_exponent_at_most (-46) f = true) scores →
  float_exponent_at_most (-46 + 2 * Z.of_nat (length scores)) (spec_total scores) = true.
Proof.
  intros Hn Hs. apply (foldl_add_exponent (-46)); [lia|lia|lia|done|done].
Qed.

(** C2. In ACM mode, with [full] = 100 / (number of distinct questions) (0
    when there are none), the row of every entry holds, for each question in
    column order, the [.2f] rendering of: [full] if the question's record has
    [is_ac] true and [error_number] (0 when absent) equal to 0, [full / 2] if
    it has [is_ac] true and [error_number] equal to 1, and 0 otherwise, also
    when the entry has no record of the question; the last cell renders the
    sum of these scores, added to 0 one after the other as binary64 floats;
    and in a table of at most 500 questions every one of these cells is an
    optional sign, digits, a point and exactly two digits. *)
Theorem acm_scoring (results : list (RankEntry attempt)) (w : world) :
  integer_keys results = true →
  ∃ qs rows,
    qids results = Ok qs ∧
    results_to_csv_acm results w
    = (set_stdout (stdout w ++ header qs "total" :: rows) w, Ok tt) ∧
    length rows = length results ∧
    ∀ i e, results !! i = Some e →
      let scores :=
        map (λ qid, spec_acm_score (length qs) (info_of e !! py_str qid)) qs in
      let cells := map format_2f_float scores ++ [format_2f_float (spec_total scores)] in
      rows !! i = Some (username e :: cells) ∧
      ((length qs ≤ 500)%nat → Forall (λ cell, two_decimals cell = true) cells).
Proof.
  intros [qs Hqs]%qids_total.
  exists qs, (map (acm_row (full_score qs) qs) results).
  rewrite results_to_csv_acm_run, Hqs.
  split; [done|]. split; [done|]. split; [by rewrite length_map|].
  intros i e He scores cells. split.
  - rewrite list_lookup_fmap, He. simpl. by rewrite acm_row_spec.
  - intros Hn.
    assert (Forall (λ f, float_exponent_at_most (-46) f = true) scores) as Hscores.
    { apply Forall_forall. intros f (qid & -> & _)%list_elem_of_fmap.
      by apply spec_acm_score_small. }
    apply Forall_app. split.
    + apply Forall_forall. intros cell (f & -> & Hf)%list_elem_of_fmap.
      rewrite Forall_forall in Hscores.
      by apply (two_decimals_small_float (-46)), Hscores.
    + apply Forall_singleton.
      apply (two_decimals_small_float (-46 + 2 * Z.of_nat (length scores))).
      apply spec_total_small; [|done]. subst scores. by rewrite length_map.
Qed.

(** C2, witness: the specification's example. *)
Lemma acm_scoring_witness :
  integer_keys sample_acm = true ∧
  ∃ qs rows,
    qids sample_acm = Ok qs ∧
    results_to_csv_acm sample_acm empty_world
    = (set_stdout (stdout empty_world ++ header qs "total" :: rows) empty_world,
       Ok tt) ∧
    (length qs ≤ 500)%nat ∧
    rows = [["alice"; "50.00"; "25.00"; "75.00"]]%string ∧
    Forall (Forall (λ cell, two_decimals cell = true)) (tail <$> rows).
Proof.
  split; [vm_compute; reflexivity|].
  destruct (acm_scoring sample_acm empty_world)
    as (qs & rows & Hqs & Hrun & Hlen & Hrows); [vm_compute; reflexivity|].
  exists qs, rows. split; [exact Hqs|]. split; [exact Hrun|].
  assert (qs = [1; 2]) as -> by (vm_compute in Hqs; by injection Hqs).
  split; [cbn; lia|].
  destruct (Hrows 0%nat _ eq_refl) as [Hrow Hshape].
  destruct rows as [|row [|row' rows]]; [done| |done].
  cbn in Hrow. injection Hrow as ->. split.
  - vm_compute. reflexivity.
  - constructor; [|constructor]. apply Hshape. cbn. lia.
Defined.

(** The specification's example: 50.00, 25.00 and a total of 75.00. *)
Example acm_two_of_two :
  results_to_csv_acm sample_acm empty_world
  = (set_stdout [["username"; "Q1(1)"; "Q2(2)"; "total"];
                 ["alice"; "50.00"; "25.00"; "75.00"]] empty_world, Ok tt).
Proof. vm_compute. reflexivity. Qed.

(** C1, witness. *)
Lemma question_id_columns_witness :
  integer_keys sample_acm = true ∧
  integer_keys sample_oi = true ∧
  ∃ qa qo rows_a rows_o,
    sorted_union sample_acm qa ∧ sorted_union sample_oi qo ∧
    results_to_csv_acm sample_acm empty_world
    = (set_stdout (stdout empty_world ++ header qa "total" :: rows_a) empty_world,
       Ok tt) ∧
    results_to_csv_oi sample_oi empty_world
    = (set_stdout (stdout empty_world ++ header qo "total_score" :: rows_o)
                  empty_world, Ok tt) ∧
    Forall (λ row, length row = S (S (length qa))) rows_a ∧
    Forall (λ row, length row = S (S (length qo))) rows_o.
Proof.
  split; [vm_compute; reflexivity|]. split; [vm_compute; reflexivity|].
  apply (question_id_columns sample_acm sample_oi empty_world);
    vm_compute; reflexivity.
Defined.

Example oi_columns :
  qids sample_oi = Ok [2; 3; 10].
Proof. vm_compute. reflexivity. Qed.

(** ** OI mode *)

Lemma foldl_Zadd (a : Z) (l : list Z) : foldl Z.add a l = a + foldr Z.add 0 l.
Proof.
  revert a. induction l as [|x l IH]; intros a; simpl; [lia|].
  rewrite IH. lia.
Qed.

Lemma py_sum_empty : py_sum ∅ = 0.
Proof. unfold py_sum. by rewrite map_to_list_empty. Qed.

Lemma py_sum_insert (info : gmap string Z) (q : string) (score : Z) :
  info !! q = None → py_sum (<[q := score]> info) = score + py_sum info.
Proof.
  intros Hq. unfold py_sum. rewrite !foldl_Zadd.
  assert (∀ l1 l2 : list Z, l1 ≡ₚ l2 → foldr Z.add 0 l1 = foldr Z.add 0 l2) as Hperm.
  { induction 1; simpl; lia. }
  rewrite (Hperm _ (score :: map snd (map_to_list info))); [simpl; lia|].
  change (score :: map snd (map_to_list info))
    with (map snd ((q, score) :: map_to_list info)).
  apply fmap_Permutation. by apply map_to_list_insert.
Qed.

(** C3. In OI mode the row of every entry ends with the entry's reported
    [total_score] when the entry has one, written as it is whatever the
    per-question scores add up to, and otherwise with the sum of the scores
    of the entry's [submission_info]: the number that is 0 for an empty
    [submission_info] and that a further question raises by its score.
    Before the total come the user name and the entry's raw score for each
    column (0 where it has none). *)
Theorem oi_row_total (results : list (RankEntry Z)) (w : world) :
  integer_keys results = true →
  ∃ (score_sum : gmap string Z → Z) qs rows,
    score_sum ∅ = 0 ∧
    (∀ info q score,
       info !! q = None → score_sum (<[q := score]> info) = score + score_sum info) ∧
    qids results = Ok qs ∧
    results_to_csv_oi results w
    = (set_stdout (stdout w ++ header qs "total_score" :: rows) w, Ok tt) ∧
    length rows = length results ∧
    ∀ i e, results !! i = Some e →
      let cells := map (λ qid, py_str (default 0 (info_of e !! py_str qid))) qs in
      let total :=
        match total_score e with
        | Some reported => reported
        | None => score_sum (info_of e)
        end in
      rows !! i = Some (username e :: cells ++ [py_str total]).
Proof.
  intros [qs Hqs]%qids_total.
  exists py_sum, qs, (map (oi_row qs) results).
  rewrite results_to_csv_oi_run, Hqs.
  split; [apply py_sum_empty|]. split; [apply py_sum_insert|].
  split; [done|]. split; [done|]. split; [by rewrite length_map|].
  intros i e He cells total.
  rewrite list_lookup_fmap, He. simpl. rewrite oi_row_cells.
  subst cells total. by destruct (total_score e).
Qed.

(** C3, witness. *)
Lemma oi_row_total_witness :
  integer_keys sample_oi = true ∧
  ∃ (score_sum : gmap string Z → Z) qs rows,
    score_sum ∅ = 0 ∧
    (∀ info q score,
       info !! q = None → score_sum (<[q := score]> info) = score + score_sum info) ∧
    qids sample_oi = Ok qs ∧
    results_to_csv_oi sample_oi empty_world
    = (set_stdout (stdout empty_world ++ header qs "total_score" :: rows)
                  empty_world, Ok tt) ∧
    length rows = length sample_oi ∧
    ∀ i e, sample_oi !! i = Some e →
      let cells := map (λ qid, py_str (default 0 (info_of e !! py_str qid))) qs in
      let total :=
        match total_score e with
        | Some reported => reported
        | None => score_sum (info_of e)
        end in
      rows !! i = Some (username e :: cells ++ [py_str total]).
Proof.
  split; [vm_compute; reflexivity|].
  apply (oi_row_total sample_oi empty_world). vm_compute; reflexivity.
Defined.

(** A reported total of 999 is written although the scores add up to 100;
    without a reported total the sum is written. *)
Example oi_reported_total_verbatim :
  results_to_csv_oi sample_oi empty_world
  = (set_stdout [["username"; "Q1(2)"; "Q2(3)"; "Q3(10)"; "total_score"];
                 ["alice"; "70"; "0"; "30"; "999"];
                 ["bob"; "70"; "5"; "0"; "75"]] empty_world, Ok tt).
Proof. vm_compute. reflexivity. Qed.

(** ** ACM mode: questions without a record, records without a count *)

Lemma row_cell (name : string) (cells : list string) (last : string) (j : nat)
    (cell : string) :
  cells !! j = Some cell → (name :: cells ++ [last]) !! S j = Some cell.
Proof. intros H. simpl. by apply lookup_app_l_Some. Qed.

(** C10. In ACM mode, where an entry's record of a question has [is_ac]
    true and no [error_number], the entry's cell in that question's column is
    the rendering of the full per-question score, 100 / (number of
    questions): the missing count is read as 0, a solve at the first
    attempt. *)
Theorem missing_error_number_scores_full
    (results : list (RankEntry attempt)) (w : world) :
  integer_keys results = true →
  ∃ qs rows,
    qids results = Ok qs ∧
    results_to_csv_acm results w
    = (set_stdout (stdout w ++ header qs "total" :: rows) w, Ok tt) ∧
    ∀ i j e qid,
      results !! i = Some e → qs !! j = Some qid →
      info_of e !! py_str qid
      = Some {| is_ac := Some true; error_number := None |} →
      acm_score (full_score qs) (info_of e) qid
      = py_truediv (PInt 100) (PInt (Z.of_nat (length qs))) ∧
      acm_score (full_score qs) (info_of e) qid
      = acm_score (full_score qs) (<[py_str qid := solved 0]> (info_of e)) qid ∧
      ∃ row, rows !! i = Some row ∧
             row !! S j
             = Some (format_2f (py_truediv (PInt 100) (PInt (Z.of_nat (length qs))))).
Proof.
  intros [qs Hqs]%qids_total.
  exists qs, (map (acm_row (full_score qs) qs) results).
  rewrite results_to_csv_acm_run, Hqs.
  split; [done|]. split; [done|].
  intros i j e qid He Hq Hrec.
  assert (acm_score (full_score qs) (info_of e) qid
          = py_truediv (PInt 100) (PInt (Z.of_nat (length qs)))) as Hsc.
  { unfold acm_score. rewrite Hrec. simpl.
    destruct qs; [by rewrite lookup_nil in Hq|done]. }
  split; [done|]. split.
  { rewrite Hsc. unfold acm_score. rewrite lookup_insert_eq. simpl.
    destruct qs; [by rewrite lookup_nil in Hq|done]. }
  exists (acm_row (full_score qs) qs e). split.
  - by rewrite list_lookup_fmap, He.
  - rewrite acm_row_cells. apply row_cell.
    by rewrite list_lookup_fmap, Hq, <-Hsc.
Qed.

(** C10, witness. *)
Lemma missing_error_number_scores_full_witness :
  integer_keys sample_acm_gaps = true ∧
  ∃ qs rows,
    qids sample_acm_gaps = Ok qs ∧
    results_to_csv_acm sample_acm_gaps empty_world
    = (set_stdout (stdout empty_world ++ header qs "total" :: rows) empty_world,
       Ok tt) ∧
    ∀ i j e qid,
      sample_acm_gaps !! i = Some e → qs !! j = Some qid →
      info_of e !! py_str qid
      = Some {| is_ac := Some true; error_number := None |} →
      acm_score (full_score qs) (info_of e) qid
      = py_truediv (PInt 100) (PInt (Z.of_nat (length qs))) ∧
      acm_score (full_score qs) (info_of e) qid
      = acm_score (full_score qs) (<[py_str qid := solved 0]> (info_of e)) qid ∧
      ∃ row, rows !! i = Some row ∧
             row !! S j
             = Some (format_2f (py_truediv (PInt 100) (PInt (Z.of_nat (length qs))))).
Proof.
  split; [vm_compute; reflexivity|].
  apply (missing_error_number_scores_full sample_acm_gaps empty_world).
  vm_compute; reflexivity.
Defined.

Example acm_gaps_table :
  results_to_csv_acm sample_acm_gaps empty_world
  = (set_stdout [["username"; "Q1(1)"; "Q2(2)"; "total"];
                 ["carol"; "50.00"; "0.00"; "50.00"];
                 ["dave"; "0.00"; "25.00"; "25.00"]] empty_world, Ok tt).
Proof. vm_compute. reflexivity. Qed.

(** C5 as written fails: question 3 appears in no [submission_info] of the
    specification's example, and the table written for it has columns for
    questions 1 and 2 only, none for question 3. *)
Lemma unattempted_question_has_no_column :
  ¬ attempted sample_acm 3 ∧
  qids sample_acm = Ok [1; 2] ∧
  results_to_csv_acm sample_acm empty_world
  = (set_stdout [["username"; "Q1(1)"; "Q2(2)"; "total"];
                 ["alice"; "50.00"; "25.00"; "75.00"]] empty_world, Ok tt).
Proof.
  assert (qids sample_acm = Ok [1; 2]) as Hq by (vm_compute; reflexivity).
  split; [|split; [done|vm_compute; reflexivity]].
  intros H. apply (qids_sorted_union _ _ Hq) in H.
  by repeat (apply elem_of_cons in H as [H|H]; [discriminate H|]);
    apply elem_of_nil in H.
Qed.

(** C5, amended. In ACM mode every column belongs to a question that appears
    in some entry's [submission_info], so a question that appears in none
    contributes no column; and in the column of a question an entry that has
    no record under the question's id scores 0.00. *)
Theorem unrecorded_question_scores_zero
    (results : list (RankEntry attempt)) (w : world) :
  integer_keys results = true →
  ∃ qs rows,
    qids results = Ok qs ∧
    results_to_csv_acm results w
    = (set_stdout (stdout w ++ header qs "total" :: rows) w, Ok tt) ∧
    (∀ q, ¬ attempted results q → q ∉ qs) ∧
    ∀ i j e qid,
      results !! i = Some e → qs !! j = Some qid →
      info_of e !! py_str qid = None →
      ∃ row, rows !! i = Some row ∧ row !! S j = Some "0.00"%string.
Proof.
  intros [qs Hqs]%qids_total.
  exists qs, (map (acm_row (full_score qs) qs) results).
  rewrite results_to_csv_acm_run, Hqs.
  split; [done|]. split; [done|]. split.
  { intros q Hq Hin. by apply Hq, (qids_sorted_union _ _ Hqs). }
  intros i j e qid He Hq Hrec.
  exists (acm_row (full_score qs) qs e). split.
  - by rewrite list_lookup_fmap, He.
  - rewrite acm_row_cells. apply row_cell.
    rewrite list_lookup_fmap, Hq. simpl. unfold acm_score. by rewrite Hrec.
Qed.

(** C5 amended, witness. *)
Lemma unrecorded_question_scores_zero_witness :
  integer_keys sample_acm_gaps = true ∧
  ∃ qs rows,
    qids sample_acm_gaps = Ok qs ∧
    results_to_csv_acm sample_acm_gaps empty_world
    = (set_stdout (stdout empty_world ++ header qs "total" :: rows) empty_world,
       Ok tt) ∧
    (∀ q, ¬ attempted sample_acm_gaps q → q ∉ qs) ∧
    ∀ i j e qid,
      sample_acm_gaps !! i = Some e → qs !! j = Some qid →
      info_of e !! py_str qid = None →
      ∃ row, rows !! i = Some row ∧ row !! S j = Some "0.00"%string.
Proof.
  split; [vm_compute; reflexivity|].
  apply (unrecorded_question_scores_zero sample_acm_gaps empty_world).
  vm_compute; reflexivity.
Defined.

(** ** Fetching the ranks *)

Lemma elem_of_py_range (start stop step o : Z) :
  0 < step →
  o ∈ py_range start stop step ↔ ∃ k, 0 ≤ k ∧ o = start + k * step ∧ o < stop.
Proof.
  intros Hstep. unfold py_range. rewrite list_elem_of_fmap.
  set (n := (stop - start + step - 1) / step).
  assert (∀ k, 0 ≤ k → (k < n ↔ start + k * step < stop)) as Hn.
  { intros k Hk. subst n. split.
    - intros Hlt.
      assert (k + 1 ≤ (stop - start + step - 1) / step) as Hle by lia.
      pose proof (Z.mul_div_le (stop - start + step - 1) step Hstep). nia.
    - intros Hlt.
      assert (k + 1 ≤ (stop - start + step - 1) / step); [|lia].
      apply Z.div_le_lower_bound; [done|]. nia. }
  split.
  - intros (k & -> & Hk%elem_of_seq). exists (Z.of_nat k).
    split; [lia|]. split; [done|]. apply Hn; lia.
  - intros (k & Hk & -> & Hlt). exists (Z.to_nat k). split; [by rewrite Z2Nat.id|].
    apply elem_of_seq. apply Hn in Hlt; lia.
Qed.

Lemma py_range_ascending (start stop step : Z) :
  0 < step → StronglySorted Z.lt (py_range start stop step).
Proof.
  intros Hstep. unfold py_range. generalize (Z.to_nat ((stop - start + step - 1) / step)).
  intros n. generalize 0%nat. induction n as [|n IH]; intros s; simpl; constructor.
  - apply IH.
  - apply Forall_forall. intros o (k & -> & Hk%elem_of_seq)%list_elem_of_fmap. nia.
Qed.

Lemma raise_for_status_ok {B} (r : response B) (w : world) :
  ok_status r = true → raise_for_status r w = (w, Ok tt).
Proof.
  unfold ok_status, raise_for_status. by intros ->%negb_true_iff.
Qed.

Lemma raise_for_status_error {B} (r : response B) (w : world) :
  ok_status r = false → raise_for_status r w = (w, Raise HTTPError).
Proof.
  unfold ok_status, raise_for_status. by intros ->%negb_false_iff.
Qed.

Section RankFetcher.

Variable site : string.
Variable extract_cookies_to_jar : list Cookie → list Cookie → list Cookie.
Context {E : Type}.
Variable rank_api : list request → response (paged E).
Variable contest_id : Z.

Let page_request (offset : Z) : request := GET (rank_url site offset contest_id).

Lemma send_run {B} (api : list request → response B) (req : request) (w : world) :
  ∃ w', send extract_cookies_to_jar api req w = (w', Ok (api (trace w ++ [req]))) ∧
        trace w' = trace w ++ [req] ∧ disk w' = disk w ∧ stdout w' = stdout w ∧
        session w' = {| cookies := extract_cookies_to_jar (cookies (session w))
                                     (set_cookies (api (trace w ++ [req])));
                        headers := headers (session w) |}.
Proof. by eexists. Qed.

Lemma is_page_inv (r : response (paged E)) :
  is_page r = true →
  ok_status r = true ∧
  data_object r
  = Ok {| total := total_of r;
          results := match body r with Page p => results p | _ => None end |} ∧
  page_results r = Ok (entries_of r).
Proof.
  unfold is_page, data_object, page_results, entries_of, total_of, data_object.
  intros [Hok Hbody]%andb_prop. split; [done|].
  by destruct (body r) as [|[tot res]|].
Qed.

Lemma fetch_pages_run (offsets : list Z) (acc : list E) (w : world) :
  let pages := replies rank_api (trace w) (map page_request offsets) in
  forallb is_page pages = true →
  ∃ w', fetch_pages site extract_cookies_to_jar rank_api contest_id offsets acc w
        = (w', Ok (acc ++ concat (map entries_of pages))) ∧
        trace w' = trace w ++ map page_request offsets.
Proof.
  revert acc w. induction offsets as [|o rest IH]; intros acc w; simpl.
  - intros _. exists w. by rewrite !app_nil_r.
  - intros [(Hok & _ & Hres)%is_page_inv Hrest]%andb_prop.
    destruct (send_run rank_api (page_request o) w) as (w1 & Hsend & Htr & _).
    unfold mbind, M_bind, bind. fold (page_request o). rewrite Hsend.
    rewrite raise_for_status_ok by done. unfold lift. rewrite Hres.
    rewrite <-Htr in Hrest.
    destruct (IH (acc ++ entries_of (rank_api (trace w ++ [page_request o]))) w1 Hrest)
      as (w' & Hrun & Htr').
    exists w'. rewrite Hrun. split.
    + by rewrite Htr, <-app_assoc.
    + by rewrite Htr', Htr, <-app_assoc.
Qed.

Lemma fetch_all_ranks_run (w : world) :
  let first := rank_api (trace w ++ [page_request 0]) in
  let total := default (Z.of_nat (length (entries_of first))) (total_of first) in
  let requests := map page_request (0 :: py_range PAGE_LIMIT total PAGE_LIMIT) in
  let pages := replies rank_api (trace w) requests in
  forallb is_page pages = true →
  ∃ w', fetch_all_ranks site extract_cookies_to_jar rank_api contest_id w
        = (w', Ok (concat (map entries_of pages))) ∧
        trace w' = trace w ++ requests.
Proof.
  intros first total requests pages Hok.
  subst pages requests. simpl in *. apply andb_prop in Hok as [Hfirst Hrest].
  pose proof Hfirst as (Hok & Hdata & _)%is_page_inv.
  destruct (send_run rank_api (page_request 0) w) as (w1 & Hsend & Htr & _).
  unfold fetch_all_ranks, mbind, M_bind, bind. fold (page_request 0).
  rewrite Hsend. rewrite raise_for_status_ok by done.
  unfold lift. rewrite Hdata. cbn [total results]. fold first.
  assert (default [] (match body first with Page p => results p | _ => None end)
          = entries_of first) as -> by (unfold entries_of; by destruct (body first)).
  fold total.
  rewrite <-Htr in Hrest.
  destruct (fetch_pages_run _ (entries_of first) w1 Hrest) as (w' & Hrun & Htr').
  exists w'. split; [rewrite Htr in Hrun; exact Hrun|].
  by rewrite Htr', Htr, <-app_assoc.
Qed.

(** C4. Every request asks for an offset with limit 250; the first asks
    for offset 0, and the further requests ask, in ascending order, for
    exactly the multiples [k * 250], [k >= 1], that are strictly below the
    [total] of the first answer; when every answer brings a page, the result
    is the pages' entries in request order.  For a total of 600 there are
    exactly three requests, at offsets 0, 250 and 500, and the result is the
    three pages one after another. *)
Theorem fetch_all_ranks_pagination (w : world) :
  let first := rank_api (trace w ++ [page_request 0]) in
  let total := default (Z.of_nat (length (entries_of first))) (total_of first) in
  let further := py_range PAGE_LIMIT total PAGE_LIMIT in
  let requests := map page_request (0 :: further) in
  let pages := replies rank_api (trace w) requests in
  forallb is_page pages = true →
  (∀ offset,
     page_request offset
     = GET (site ++ "/api/contest_rank?offset=" ++ py_str offset
              ++ "&limit=250&contest_id=" ++ py_str contest_id)%string) ∧
  StronglySorted Z.lt further ∧
  (∀ o, o ∈ further ↔ ∃ k, 1 ≤ k ∧ o = k * PAGE_LIMIT ∧ o < total) ∧
  (∃ w', fetch_all_ranks site extract_cookies_to_jar rank_api contest_id w
         = (w', Ok (concat (map entries_of pages))) ∧
         trace w' = trace w ++ requests) ∧
  (total = 600 →
   requests = [page_request 0; page_request 250; page_request 500] ∧
   ∃ p0 p1 p2,
     pages = [p0; p1; p2] ∧
     concat (map entries_of pages)
     = entries_of p0 ++ entries_of p1 ++ entries_of p2).
Proof.
  intros first total further requests pages Hok.
  split; [done|]. split; [by apply py_range_ascending|]. split.
  { intros o. subst further. rewrite elem_of_py_range by done. unfold PAGE_LIMIT.
    split.
    - intros (k & Hk & -> & Hlt). exists (k + 1). lia.
    - intros (k & Hk & -> & Hlt). exists (k - 1). lia. }
  split; [by apply fetch_all_ranks_run|].
  intros Htotal. subst pages requests further. rewrite Htotal.
  split; [done|]. simpl. do 3 eexists. split; [done|].
  by rewrite app_nil_r.
Qed.


End RankFetcher.

(** C4, witness: a judge that holds 600 entries and reports the total. *)
Lemma fetch_all_ranks_pagination_witness :
  let requests :=
    [GET "https://oj.example/api/contest_rank?offset=0&limit=250&contest_id=7";
     GET "https://oj.example/api/contest_rank?offset=250&limit=250&contest_id=7";
     GET "https://oj.example/api/contest_rank?offset=500&limit=250&contest_id=7"] in
  forallb is_page (replies (paging_judge sample_db true) (trace empty_world) requests)
  = true ∧
  ∃ w', fetch_all_ranks "https://oj.example" append_cookies
          (paging_judge sample_db true) 7 empty_world
        = (w', Ok sample_db) ∧
        trace w' = requests.
Proof.
  split; [vm_compute; reflexivity|].
  destruct (fetch_all_ranks_pagination "https://oj.example" append_cookies
              (paging_judge sample_db true) 7 empty_world)
    as (_ & _ & _ & (w' & Hrun & Htr) & _); [vm_compute; reflexivity|].
  exists w'. split.
  - vm_compute in Hrun |- *. exact Hrun.
  - vm_compute in Htr |- *. exact Htr.
Defined.


Example rank_url_first_page :
  rank_url "https://oj.example" 0 7
  = "https://oj.example/api/contest_rank?offset=0&limit=250&contest_id=7".
Proof. vm_compute. reflexivity. Qed.

(** The bound on the first page is what a judge that honours the limit
    gives; the fallback total itself is the page's length whatever it is, so a
    first page of 600 entries would be followed by two further requests. *)
Example oversized_first_page :
  let judge := λ _ : list request,
    {| status_code := 200; set_cookies := [];
       body := Page {| total := None; results := Some sample_db |} |} in
  (let '(w', r) :=
     fetch_all_ranks "https://oj.example" append_cookies judge 7 empty_world in
   (trace w', r))
  = (map (λ o, GET (rank_url "https://oj.example" o 7)) [0; 250; 500],
     Ok (sample_db ++ sample_db ++ sample_db)).
Proof. vm_compute. reflexivity. Qed.

(** ** The CSRF header *)

Section SessionClient.

Variable site : string.
Variable hostname : string → option string.

(** C6. [set_csrf_header] raises, and then a [RuntimeError], exactly when
    the jar has no cookie named [csrftoken]; otherwise it sets [X-CSRFToken]
    to the value of the first [csrftoken] cookie whose domain is the site's
    host name when there is one, and to the value of the last [csrftoken]
    cookie of the jar when there is none. *)
Theorem set_csrf_header_selection (w : world) :
  let csrf := filter (λ c, name c = "csrftoken"%string) (cookies (session w)) in
  let of_site := filter (λ c, Some (domain c) = hostname site) csrf in
  ((∃ e w', set_csrf_header site hostname w = (w', Raise e))
   ↔ ∀ c, c ∈ cookies (session w) → name c ≠ "csrftoken"%string) ∧
  ((∀ c, c ∈ cookies (session w) → name c ≠ "csrftoken"%string) →
   set_csrf_header site hostname w = (w, Raise RuntimeError)) ∧
  (∀ c, head of_site = Some c →
        set_csrf_header site hostname w = (with_csrf_header c w, Ok tt)) ∧
  (∀ c, of_site = [] → last csrf = Some c →
        set_csrf_header site hostname w = (with_csrf_header c w, Ok tt)).
Proof.
  intros csrf of_site.
  assert (csrf = [] ↔ ∀ c, c ∈ cookies (session w) → name c ≠ "csrftoken"%string)
    as Hnone.
  { split.
    - intros Hnil c Hc Hname.
      assert (c ∈ csrf) as Hin by (by apply list_elem_of_filter).
      rewrite Hnil in Hin. by apply elem_of_nil in Hin.
    - intros Hno. apply elem_of_nil_inv. intros c [Hname Hc]%list_elem_of_filter.
      by apply (Hno c). }
  assert (set_csrf_header site hostname w =
          match last csrf with
          | None => (w, Raise RuntimeError)
          | Some fallback => (with_csrf_header (default fallback (head of_site)) w, Ok tt)
          end) as Hrun.
  { unfold set_csrf_header, mbind, M_bind, bind, get_session. fold csrf.
    by destruct (last csrf). }
  split; [|split; [|split]].
  - rewrite <-Hnone, Hrun. split.
    + intros (e & w' & He). destruct (last csrf) eqn:Hlast; [done|].
      by apply last_None.
    + intros ->. by exists RuntimeError, w.
  - intros ->%Hnone. by rewrite Hrun.
  - intros c Hc. rewrite Hrun, Hc. destruct (last csrf) eqn:Hlast; [done|].
    apply last_None in Hlast. subst of_site. by rewrite Hlast in Hc.
  - intros c Hnil Hlast. by rewrite Hrun, Hlast, Hnil.
Qed.

End SessionClient.

(** Of two [csrftoken] cookies the one of the site's domain is taken, in
    whichever order the jar yields them. *)
Example csrf_prefers_site_domain :
  set_csrf_header "https://oj.example" sample_hostname
    (world_with_cookies [csrf_site; session_cookie; csrf_other])
  = (with_csrf_header csrf_site
       (world_with_cookies [csrf_site; session_cookie; csrf_other]), Ok tt) ∧
  set_csrf_header "https://oj.example" sample_hostname
    (world_with_cookies [csrf_other; session_cookie; csrf_site])
  = (with_csrf_header csrf_site
       (world_with_cookies [csrf_other; session_cookie; csrf_site]), Ok tt).
Proof. split; vm_compute; reflexivity. Qed.

Example csrf_falls_back_to_last :
  set_csrf_header "https://elsewhere.example" sample_hostname
    (world_with_cookies [csrf_site; session_cookie; csrf_other])
  = (with_csrf_header csrf_other
       (world_with_cookies [csrf_site; session_cookie; csrf_other]), Ok tt).
Proof. vm_compute. reflexivity. Qed.

Example csrf_missing :
  set_csrf_header "https://oj.example" sample_hostname
    (world_with_cookies [session_cookie])
  = (world_with_cookies [session_cookie], Raise RuntimeError).
Proof. vm_compute. reflexivity. Qed.

(** ** The cookie store *)

Section CookieStore.

Variable cookiejar_from_dict : json → result (list Cookie).

Lemma load_cookies_run (path : string) (w : world) :
  load_cookies cookiejar_from_dict path w =
  match disk w !! path with
  | Some {| mode := m; content := Json v |} =>
      if owner_may_read {| mode := m; content := Json v |}
      then match cookiejar_from_dict v with
           | Ok jar => (with_cookies jar w, Ok true)
           | Raise _ => (w, Ok false)
           end
      else (w, Ok false)
  | _ => (w, Ok false)
  end.
Proof.
  unfold load_cookies, mbind, M_bind, bind, os_path_exists, try_except,
    json_load_open, lift, get_session, put_session, ret.
  destruct (disk w !! path) as [[m [raw|v]]|] eqn:Hfile; simpl; rewrite ?Hfile.
  - by destruct (owner_may_read _).
  - destruct (owner_may_read _); [|done].
    cbn. by destruct (cookiejar_from_dict v).
  - done.
Qed.

(** C8. [load_cookies] always returns a boolean and never raises: [False]
    with the session untouched when the file is missing, when it cannot be
    read, when it does not decode as JSON and when the decoded document is
    rejected by the cookie-jar constructor; [True], with the jar put in the
    session, when all of that succeeds. *)
Theorem load_cookies_never_raises (path : string) (w : world) :
  (∃ b w', load_cookies cookiejar_from_dict path w = (w', Ok b)) ∧
  (disk w !! path = None →
   load_cookies cookiejar_from_dict path w = (w, Ok false)) ∧
  (∀ f, disk w !! path = Some f → owner_may_read f = false →
        load_cookies cookiejar_from_dict path w = (w, Ok false)) ∧
  (∀ f raw, disk w !! path = Some f → content f = Garbage raw →
            load_cookies cookiejar_from_dict path w = (w, Ok false)) ∧
  (∀ f v e, disk w !! path = Some f → content f = Json v →
            cookiejar_from_dict v = Raise e →
            load_cookies cookiejar_from_dict path w = (w, Ok false)) ∧
  (∀ f v jar, disk w !! path = Some f → owner_may_read f = true →
              content f = Json v → cookiejar_from_dict v = Ok jar →
              load_cookies cookiejar_from_dict path w = (with_cookies jar w, Ok true)).
Proof.
  rewrite load_cookies_run. repeat split.
  - destruct (disk w !! path) as [[m [raw|v]]|]; [by eexists _, _| |by eexists _, _].
    destruct (owner_may_read _); [|by eexists _, _].
    destruct (cookiejar_from_dict v); by eexists _, _.
  - by intros ->.
  - intros [m c] -> Hread. destruct c; [done|]. by rewrite Hread.
  - intros [m c] raw -> Hc. simpl in Hc. by subst c.
  - intros [m c] v e -> Hc Hraise. simpl in Hc. subst c. rewrite Hraise.
    by destruct (owner_may_read _).
  - intros [m c] v jar -> Hread Hc Hjar. simpl in Hc. subst c.
    by rewrite Hread, Hjar.
Qed.

End CookieStore.

Example load_cookies_garbage :
  let w := set_disk {[ "cookies.json" := {| mode := 384; content := Garbage "{oops" |} ]}
                    empty_world in
  load_cookies strict_cookiejar_from_dict "cookies.json" w = (w, Ok false).
Proof. vm_compute. reflexivity. Qed.

Example load_cookies_not_a_mapping :
  let w := set_disk {[ "cookies.json" := {| mode := 384; content := Json (JNum 5) |} ]}
                    empty_world in
  load_cookies strict_cookiejar_from_dict "cookies.json" w = (w, Ok false).
Proof. vm_compute. reflexivity. Qed.

Example load_cookies_saved_jar :
  let w := set_disk {[ "cookies.json" := saved_cookie_file [session_cookie] ]}
                    empty_world in
  load_cookies strict_cookiejar_from_dict "cookies.json" w
  = (with_cookies [ {| name := "sessionid"; value := "abc"; domain := "";
                       path := "/" |} ] w, Ok true).
Proof. vm_compute. reflexivity. Qed.

(** ** Logging in *)

Lemma save_cookies_run (path : string) (w : world) :
  may_write (disk w) path = true →
  save_cookies path w
  = (set_disk (<[path := saved_cookie_file (cookies (session w))]> (disk w)) w, Ok tt).
Proof.
  unfold may_write, save_cookies, mbind, M_bind, bind, get_session, json_dump_open,
    os_chmod, saved_cookie_file.
  destruct (disk w !! path) as [f|] eqn:Hfile.
  - intros ->. simpl. rewrite lookup_insert_eq. simpl.
    by rewrite insert_insert_eq.
  - intros _. simpl. rewrite lookup_insert_eq. simpl.
    by rewrite insert_insert_eq.
Qed.

Lemma save_cookies_denied (path : string) (w : world) :
  may_write (disk w) path = false →
  save_cookies path w = (w, Raise PermissionError).
Proof.
  unfold may_write, save_cookies, mbind, M_bind, bind, get_session, json_dump_open.
  destruct (disk w !! path) as [f|]; [|done]. by intros ->.
Qed.

Lemma is_None_spec (v : option json) :
  is_None v = true ↔ v = None ∨ v = Some JNull.
Proof.
  destruct v as [[]|]; simpl; split; try done; try (intros [?|?]; done); auto.
Qed.

Lemma py_eq_str_spec (v : option json) (s : string) :
  py_eq_str v s = true ↔ v = Some (JStr s).
Proof.
  destruct v as [[| | |t| |]|]; simpl; try (split; done).
  destruct (String.eqb_spec t s) as [->|Hne]; split; try done.
  intros [= ?]. done.
Qed.

Lemma dict_get_set (n k : string) (v : json) (d : list (string * json)) :
  dict_get n (dict_set k v d) = if String.eqb n k then Some v else dict_get n d.
Proof.
  induction d as [|[k' v'] d IH]; simpl.
  - done.
  - destruct (String.eqb_spec k k') as [->|Hk]; simpl.
    + by destruct (String.eqb n k').
    + rewrite IH. destruct (String.eqb_spec n k') as [->|Hn]; [|done].
      destruct (String.eqb_spec k' k) as [->|]; done.
Qed.

Lemma dict_set_keys (k : string) (v : json) (d : list (string * json)) :
  map fst (dict_set k v d)
  = if bool_decide (k ∈ map fst d) then map fst d else map fst d ++ [k].
Proof.
  induction d as [|[k' v'] d IH]; simpl; [done|].
  destruct (String.eqb_spec k k') as [->|Hk]; simpl.
  - rewrite bool_decide_eq_true_2; [done|left].
  - rewrite IH. destruct (decide (k ∈ map fst d)) as [Hin|Hin].
    + rewrite !bool_decide_eq_true_2; [done|by right|done].
    + rewrite !bool_decide_eq_false_2; [done| |done].
      by intros [?|?]%elem_of_cons.
Qed.

Lemma dict_set_NoDup (k : string) (v : json) (d : list (string * json)) :
  NoDup (map fst d) → NoDup (map fst (dict_set k v d)).
Proof.
  intros Hd. rewrite dict_set_keys. case_bool_decide as Hin; [done|].
  apply NoDup_app. split; [done|]. split; [|apply NoDup_singleton].
  by intros x Hx ->%list_elem_of_singleton.
Qed.

Lemma cookie_dict_NoDup (jar : list Cookie) (d : list (string * json)) :
  NoDup (map fst d) →
  NoDup (map fst (foldl (λ d c, dict_set (name c) (JStr (value c)) d) d jar)).
Proof.
  revert d. induction jar as [|c jar IH]; intros d Hd; simpl; [done|].
  by apply IH, dict_set_NoDup.
Qed.

Lemma cookie_dict_get (n : string) (jar : list Cookie) (d : list (string * json)) :
  dict_get n (foldl (λ d c, dict_set (name c) (JStr (value c)) d) d jar)
  = match last (named n jar) with
    | Some c => Some (JStr (value c))
    | None => dict_get n d
    end.
Proof.
  revert d. induction jar as [|c jar IH]; intros d; simpl; [done|].
  rewrite IH, dict_get_set. unfold named. rewrite filter_cons.
  destruct (decide (name c = n)) as [<-|Hn].
  - rewrite String.eqb_refl.
    change (filter (λ c0, name c0 = name c) jar) with (named (name c) jar).
    destruct (named (name c) jar) as [|c' l] eqn:Hl; [done|].
    change (last (c :: c' :: l)) with (last (c' :: l)).
    destruct (last (c' :: l)) eqn:Hlast; [done|]. by apply last_None in Hlast.
  - destruct (String.eqb_spec n (name c)) as [Heq|]; [congruence|done].
Qed.

Section Authenticator.

Variable site : string.
Variable default_cookie_file : string.
Variable extract_cookies_to_jar : list Cookie → list Cookie → list Cookie.
Variable login_api : list request → response (gmap string json).

Let login := do_login site default_cookie_file extract_cookies_to_jar login_api.

Let login_request (user password : string) (tfa_code : option string) : request :=
  POST (site ++ "/api/login")%string
       ([("username", user); ("password", password)] ++
        match tfa_code with
        | Some code => if String.eqb code "" then [] else [("tfa_code", code)]
        | None => []
        end)%list.

(** C9. When the login request is answered without an HTTP error and the
    cookie file can be written, [do_login] returns [True] exactly when the
    answer's [error] is null (or absent) and its [data] is the string
    [Succeeded]; it then leaves the session's cookies, as they are after the
    answer, in the cookie file, with mode 0600: a JSON object that has, for
    each cookie name of the jar, the value of the last cookie of that name.
    When it returns [False] it leaves the disk as it was. *)
Theorem do_login_success_and_persistence
    (user password : string) (tfa_code : option string) (w : world) :
  let answer := login_api (trace w ++ [login_request user password tfa_code]) in
  let jar := extract_cookies_to_jar (cookies (session w)) (set_cookies answer) in
  ok_status answer = true →
  may_write (disk w) default_cookie_file = true →
  ∃ success w' fields,
    login user password tfa_code w = (w', Ok success) ∧
    (success = true ↔
       (body answer !! "error"%string = None ∨
        body answer !! "error"%string = Some JNull) ∧
       body answer !! "data"%string = Some (JStr "Succeeded")) ∧
    cookies (session w') = jar ∧
    disk w'
    = (if success
       then <[default_cookie_file := {| mode := 384; content := Json (JObj fields) |}]>
              (disk w)
       else disk w) ∧
    NoDup (map fst fields) ∧
    ∀ n, dict_get n fields = (λ c, JStr (value c)) <$> last (named n jar).
Proof.
  intros answer jar Hok Hwrite.
  set (success := is_None (body answer !! "error"%string) &&
                  py_eq_str (body answer !! "data"%string) "Succeeded").
  assert (success = true ↔
            (body answer !! "error"%string = None ∨
             body answer !! "error"%string = Some JNull) ∧
            body answer !! "data"%string = Some (JStr "Succeeded")) as Hiff.
  { subst success. by rewrite andb_true_iff, is_None_spec, py_eq_str_spec. }
  assert (NoDup (map fst (foldl (λ d c, dict_set (name c) (JStr (value c)) d) [] jar)))
    as Hnodup by (apply cookie_dict_NoDup; constructor).
  assert (∀ n, dict_get n (foldl (λ d c, dict_set (name c) (JStr (value c)) d) [] jar)
               = (λ c, JStr (value c)) <$> last (named n jar)) as Hget.
  { intros n. rewrite cookie_dict_get. by destruct (last _). }
  unfold login, do_login, mbind, M_bind, bind, send.
  fold (login_request user password tfa_code). fold answer.
  rewrite raise_for_status_ok by done. fold success.
  destruct success eqn:Hs.
  - rewrite save_cookies_run by done. simpl. fold jar.
    eexists true, _, _. split; [done|]. split; [apply Hiff|].
    split; [done|]. split; [reflexivity|]. by split.
  - simpl. eexists false, _, _. split; [done|]. split; [apply Hiff|].
    split; [done|]. split; [reflexivity|]. by split.
Qed.

(** A rejected status aborts before anything is saved. *)
Lemma do_login_http_error
    (user password : string) (tfa_code : option string) (w : world) :
  let answer := login_api (trace w ++ [login_request user password tfa_code]) in
  ok_status answer = false →
  ∃ w', login user password tfa_code w = (w', Raise HTTPError) ∧ disk w' = disk w.
Proof.
  intros answer Hbad. unfold login, do_login, mbind, M_bind, bind, send.
  fold (login_request user password tfa_code). fold answer.
  rewrite raise_for_status_error by done. by eexists.
Qed.

End Authenticator.

(** C9, witness: an accepted login on a disk without a cookie file. *)
Lemma do_login_success_and_persistence_witness :
  ok_status (accepting_login [POST "https://oj.example/api/login"
                                [("username", "alice"); ("password", "secret")]])
  = true ∧
  may_write (disk empty_world) "cookies.json" = true ∧
  ∃ w', do_login "https://oj.example" "cookies.json" append_cookies accepting_login
          "alice" "secret" None empty_world = (w', Ok true) ∧
        disk w'
        = {[ "cookies.json" :=
               {| mode := 384;
                  content := Json (JObj [("sessionid", JStr "abc")]) |} ]}.
Proof.
  split; [vm_compute; reflexivity|]. split; [vm_compute; reflexivity|].
  destruct (do_login_success_and_persistence "https://oj.example" "cookies.json"
              append_cookies accepting_login "alice" "secret" None empty_world)
    as (success & w' & fields & Hrun & _ & _ & Hdisk & _);
    [vm_compute; reflexivity|vm_compute; reflexivity|].
  exists w'. vm_compute in Hrun. injection Hrun as <- <-. split; reflexivity.
Defined.

Example do_login_rejected :
  do_login "https://oj.example" "cookies.json" append_cookies rejecting_login
    "alice" "wrong" (Some "123456") empty_world
  = (set_trace [POST "https://oj.example/api/login"
                  [("username", "alice"); ("password", "wrong");
                   ("tfa_code", "123456")]] empty_world, Ok false).
Proof. vm_compute. reflexivity. Qed.

(** * Further properties of the program *)

(** ** [int] reads back what [str] writes *)

Lemma parse_digits_uint (d : Decimal.uint) (acc : Z) (after : bool) :
  d ≠ Decimal.Nil ∨ after = true →
  parse_digits (DecimalString.NilEmpty.string_of_uint d) acc after
  = Some (uint_value d acc).
Proof.
  revert acc after. induction d as [|d IH|d IH|d IH|d IH|d IH|d IH|d IH|d IH|d IH|d IH];
    intros acc after Hd; simpl.
  1: { destruct Hd as [?| ->]; done. }
  all: rewrite IH by (by right); f_equal; f_equal; lia.
Qed.

Lemma uint_value_acc (d : Decimal.uint) (acc : positive) :
  uint_value d (Z.pos acc) = Z.pos (Pos.of_uint_acc d acc).
Proof.
  revert acc. induction d; intros acc; simpl; [done|..];
    rewrite <-IHd; f_equal; lia.
Qed.

Lemma uint_value_of_uint (d : Decimal.uint) :
  uint_value d 0 = Z.of_N (Pos.of_uint d).
Proof.
  induction d; simpl; [done|done|..]; by rewrite <-uint_value_acc.
Qed.

Lemma lstrip_uint (d : Decimal.uint) :
  lstrip (DecimalString.NilEmpty.string_of_uint d)
  = DecimalString.NilEmpty.string_of_uint d.
Proof. by destruct d. Qed.

Lemma rstrip_uint (d : Decimal.uint) :
  rstrip (DecimalString.NilEmpty.string_of_uint d)
  = DecimalString.NilEmpty.string_of_uint d.
Proof.
  induction d; simpl; [done|..]; rewrite IHd;
    by destruct (DecimalString.NilEmpty.string_of_uint d).
Qed.

Lemma to_uint_not_Nil (p : positive) : Pos.to_uint p ≠ Decimal.Nil.
Proof.
  intros H. pose proof (DecimalPos.Unsigned.of_to p) as Hp.
  by rewrite H in Hp.
Qed.

Lemma py_int_uint (d : Decimal.uint) :
  d ≠ Decimal.Nil →
  py_int (DecimalString.NilEmpty.string_of_uint d) = Ok (Z.of_N (Pos.of_uint d)) ∧
  py_int (String "-" (DecimalString.NilEmpty.string_of_uint d))
  = Ok (- Z.of_N (Pos.of_uint d)).
Proof.
  intros Hd. split.
  - unfold py_int. rewrite lstrip_uint, rstrip_uint.
    assert (∀ s, s = DecimalString.NilEmpty.string_of_uint d →
       (let '(neg, ds) := match s with
                          | String "-" r => (true, r)
                          | String "+" r => (false, r)
                          | _ => (false, s)
                          end in
        match parse_digits ds 0 false with
        | Some n => Ok (if neg : bool then - n else n)
        | None => Raise ValueError
        end) = Ok (Z.of_N (Pos.of_uint d))) as H; [|by apply H].
    intros s ->.
    pose proof (parse_digits_uint d 0 false (or_introl Hd)) as Hp.
    rewrite uint_value_of_uint in Hp.
    destruct d; try done; cbn -[parse_digits Pos.of_uint] in Hp |- *; by rewrite Hp.
  - unfold py_int.
    assert (∀ s, lstrip (String "-" s) = String "-" s) as -> by done.
    assert (rstrip (String "-" (DecimalString.NilEmpty.string_of_uint d))
            = String "-" (DecimalString.NilEmpty.string_of_uint d)) as ->.
    { simpl. rewrite rstrip_uint. by destruct d. }
    rewrite (parse_digits_uint _ 0 false) by (by left).
    by rewrite uint_value_of_uint.
Qed.

Lemma py_int_py_str (z : Z) : py_int (py_str z) = Ok z.
Proof.
  unfold py_str. destruct z as [|p|p]; [done|..]; simpl.
  - unfold DecimalString.NilZero.string_of_uint.
    pose proof (to_uint_not_Nil p) as Hp.
    destruct (py_int_uint _ Hp) as [H _].
    rewrite DecimalPos.Unsigned.of_to in H.
    destruct (Pos.to_uint p); done.
  - unfold DecimalString.NilZero.string_of_uint.
    pose proof (to_uint_not_Nil p) as Hp.
    destruct (py_int_uint _ Hp) as [_ H].
    rewrite DecimalPos.Unsigned.of_to in H.
    destruct (Pos.to_uint p); done.
Qed.

(** ** The scorers at their edges *)

(** X1. When some key of some entry's [submission_info] is not the text of
    an integer, either scorer raises [ValueError] before it writes anything:
    not even the header or the rows of the entries whose keys are fine. *)
Theorem non_integer_key_aborts_scoring
    (acm : list (RankEntry attempt)) (oi : list (RankEntry Z)) (w : world) :
  integer_keys acm = false →
  integer_keys oi = false →
  results_to_csv_acm acm w = (w, Raise ValueError) ∧
  results_to_csv_oi oi w = (w, Raise ValueError).
Proof.
  intros Ha Ho.
  by rewrite results_to_csv_acm_run, results_to_csv_oi_run, !qids_raises.
Qed.

Lemma non_integer_key_aborts_scoring_witness :
  integer_keys sample_acm_bad_key = false ∧
  integer_keys sample_oi_bad_key = false ∧
  results_to_csv_acm sample_acm_bad_key empty_world = (empty_world, Raise ValueError) ∧
  results_to_csv_oi sample_oi_bad_key empty_world = (empty_world, Raise ValueError).
Proof.
  split; [vm_compute; reflexivity|]. split; [vm_compute; reflexivity|].
  apply (non_integer_key_aborts_scoring sample_acm_bad_key sample_oi_bad_key empty_world);
    vm_compute; reflexivity.
Defined.

Lemma all_keys_nil {V} (results : list (RankEntry V)) :
  all_keys results = [] → Forall (λ e, info_of e = ∅) results.
Proof.
  unfold all_keys. induction results as [|e results IH]; simpl; [by constructor|].
  intros [He Hrest]%app_eq_nil. constructor; [|by apply IH].
  apply map_to_list_empty_iff. by apply fmap_nil_inv in He.
Qed.

Lemma qids_no_keys {V} (results : list (RankEntry V)) :
  all_keys results = [] → qids results = Ok [].
Proof. unfold qids. by intros ->. Qed.

(** X2. When no entry has any key in its [submission_info] (none at all, or
    an empty one), and so also for an empty list of entries, there is no
    question column and nothing is divided: the ACM scorer writes the header
    [username,total] and the row [name,0.00] for every entry, the OI scorer
    the header [username,total_score] and for every entry its name and its
    reported total, or 0 without one. *)
Theorem scoring_without_questions
    (acm : list (RankEntry attempt)) (oi : list (RankEntry Z)) (w : world) :
  all_keys acm = [] →
  all_keys oi = [] →
  results_to_csv_acm acm w
  = (set_stdout (stdout w ++ ["username"; "total"]%string ::
                   map (λ e, [username e; "0.00"%string]) acm) w, Ok tt) ∧
  results_to_csv_oi oi w
  = (set_stdout (stdout w ++ ["username"; "total_score"]%string ::
                   map (λ e, [username e; py_str (default 0 (total_score e))]) oi) w,
     Ok tt).
Proof.
  intros Ha Ho.
  rewrite results_to_csv_acm_run, results_to_csv_oi_run, !qids_no_keys by done.
  split; [done|].
  assert (map (oi_row []) oi
          = map (λ e, [username e; py_str (default 0 (total_score e))]) oi) as ->;
    [|done].
  apply all_keys_nil in Ho. induction Ho as [|e oi He Hoi IH]; simpl; [done|].
  rewrite IH. f_equal. rewrite oi_row_cells. simpl.
  by rewrite He, py_sum_empty.
Qed.

Lemma scoring_without_questions_witness :
  all_keys sample_acm_no_questions = [] ∧
  all_keys sample_oi_no_questions = [] ∧
  results_to_csv_acm sample_acm_no_questions empty_world
  = (set_stdout [["username"; "total"]; ["alice"; "0.00"]; ["bob"; "0.00"]]%string
                empty_world, Ok tt) ∧
  results_to_csv_oi sample_oi_no_questions empty_world
  = (set_stdout [["username"; "total_score"]; ["alice"; "40"]; ["bob"; "0"]]%string
                empty_world, Ok tt).
Proof.
  split; [vm_compute; reflexivity|]. split; [vm_compute; reflexivity|].
  apply (scoring_without_questions sample_acm_no_questions sample_oi_no_questions
           empty_world); vm_compute; reflexivity.
Defined.

Lemma canonical_key_column {V} (results : list (RankEntry V)) (qs : list Z)
    (e : RankEntry V) (qid : Z) :
  qids results = Ok qs → e ∈ results → is_Some (info_of e !! py_str qid) →
  ∃ j, qs !! j = Some qid.
Proof.
  intros Hqs He Hrec. apply list_elem_of_lookup.
  apply (qids_sorted_union _ _ Hqs). exists e, (py_str qid).
  split; [done|]. split; [done|]. apply py_int_py_str.
Qed.

Lemma header_label (qs : list Z) (last_column : string) (j : nat) (qid : Z) :
  qs !! j = Some qid →
  header qs last_column !! S j = Some (column_label j qid).
Proof.
  intros Hq. unfold header. simpl. apply lookup_app_l_Some.
  by rewrite list_lookup_imap, Hq.
Qed.

(** X3. In OI mode no score kept under the decimal text of a question id is
    lost: the question has a column, headed [Q<position>(<id>)], and the
    entry's cell in that column is that score. *)
Theorem oi_recorded_score_is_shown (results : list (RankEntry Z)) (w : world) :
  integer_keys results = true →
  ∃ qs rows,
    results_to_csv_oi results w
    = (set_stdout (stdout w ++ header qs "total_score" :: rows) w, Ok tt) ∧
    ∀ i e qid score,
      results !! i = Some e →
      info_of e !! py_str qid = Some score →
      ∃ j row,
        qs !! j = Some qid ∧
        header qs "total_score" !! S j = Some (column_label j qid) ∧
        rows !! i = Some row ∧
        row !! S j = Some (py_str score).
Proof.
  intros [qs Hqs]%qids_total.
  exists qs, (map (oi_row qs) results).
  rewrite results_to_csv_oi_run, Hqs. split; [done|].
  intros i e qid score He Hrec.
  destruct (canonical_key_column results qs e qid Hqs) as [j Hj];
    [by eapply list_elem_of_lookup_2|by rewrite Hrec|].
  exists j, (oi_row qs e). split; [done|]. split; [by apply header_label|].
  split; [by rewrite list_lookup_fmap, He|].
  rewrite oi_row_cells. apply row_cell.
  by rewrite list_lookup_fmap, Hj; simpl; rewrite Hrec.
Qed.

Lemma oi_recorded_score_is_shown_witness :
  integer_keys sample_oi = true ∧
  ∃ qs rows,
    results_to_csv_oi sample_oi empty_world
    = (set_stdout (stdout empty_world ++ header qs "total_score" :: rows) empty_world,
       Ok tt) ∧
    ∀ i e qid score,
      sample_oi !! i = Some e →
      info_of e !! py_str qid = Some score →
      ∃ j row,
        qs !! j = Some qid ∧
        header qs "total_score" !! S j = Some (column_label j qid) ∧
        rows !! i = Some row ∧
        row !! S j = Some (py_str score).
Proof.
  split; [vm_compute; reflexivity|].
  apply (oi_recorded_score_is_shown sample_oi empty_world). vm_compute; reflexivity.
Defined.

(** X4. Keys are turned into integers for the columns and the columns
    back into text for the look-up.  So a score kept under a key that reads as
    the integer [z] while the entry has nothing under the decimal text of [z]
    (the key is a zero-padded id, say) gives [z] a column, and the entry's cell
    in that column is 0: the score kept under the key is not shown. *)
Theorem oi_score_under_other_spelling (results : list (RankEntry Z)) (w : world) :
  integer_keys results = true →
  ∃ qs rows,
    results_to_csv_oi results w
    = (set_stdout (stdout w ++ header qs "total_score" :: rows) w, Ok tt) ∧
    ∀ i e key z score,
      results !! i = Some e →
      info_of e !! key = Some score →
      py_int key = Ok z →
      info_of e !! py_str z = None →
      ∃ j row,
        qs !! j = Some z ∧
        rows !! i = Some row ∧
        row !! S j = Some "0"%string.
Proof.
  intros [qs Hqs]%qids_total.
  exists qs, (map (oi_row qs) results).
  rewrite results_to_csv_oi_run, Hqs. split; [done|].
  intros i e key z score He Hrec Hz Hnone.
  assert (z ∈ qs) as [j Hj]%list_elem_of_lookup.
  { apply (qids_sorted_union _ _ Hqs). exists e, key.
    split; [by eapply list_elem_of_lookup_2|]. by rewrite Hrec. }
  exists j, (oi_row qs e). split; [done|].
  split; [by rewrite list_lookup_fmap, He|].
  rewrite oi_row_cells. apply row_cell.
  by rewrite list_lookup_fmap, Hj; simpl; rewrite Hnone.
Qed.

Lemma oi_score_under_other_spelling_witness :
  integer_keys sample_oi_padded = true ∧
  ∃ qs rows,
    results_to_csv_oi sample_oi_padded empty_world
    = (set_stdout (stdout empty_world ++ header qs "total_score" :: rows) empty_world,
       Ok tt) ∧
    ∀ i e key z score,
      sample_oi_padded !! i = Some e →
      info_of e !! key = Some score →
      py_int key = Ok z →
      info_of e !! py_str z = None →
      ∃ j row,
        qs !! j = Some z ∧
        rows !! i = Some row ∧
        row !! S j = Some "0"%string.
Proof.
  split; [vm_compute; reflexivity|].
  apply (oi_score_under_other_spelling sample_oi_padded empty_world).
  vm_compute; reflexivity.
Defined.

(** The score of 40 kept under [007] is shown as 0 in the column of
    question 7, and still counted in the total. *)
Example oi_padded_key_table :
  results_to_csv_oi sample_oi_padded empty_world
  = (set_stdout [["username"; "Q1(7)"; "total_score"]; ["eve"; "0"; "40"]]%string
                empty_world, Ok tt).
Proof. vm_compute. reflexivity. Qed.

Lemma foldl_py_add_zeros (n : nat) :
  foldl py_add (PInt 0) (replicate n (PInt 0)) = PInt 0.
Proof. induction n as [|n IH]; simpl; [done|]. exact IH. Qed.

Lemma map_const_replicate {A B} (f : A → B) (b : B) (l : list A) :
  (∀ x, x ∈ l → f x = b) → map f l = replicate (length l) b.
Proof.
  induction l as [|x l IH]; intros H; simpl; [done|].
  rewrite H by left. f_equal. apply IH. intros y Hy. apply H. by right.
Qed.

(** X5. In ACM mode an entry none of whose records is accepted ([is_ac]
    missing, null or false), whatever their [error_number], and also an entry
    without any record, has 0.00 in every question column and 0.00 as its
    total. *)
Theorem acm_nothing_accepted_scores_zero
    (results : list (RankEntry attempt)) (w : world) :
  integer_keys results = true →
  ∃ qs rows,
    results_to_csv_acm results w
    = (set_stdout (stdout w ++ header qs "total" :: rows) w, Ok tt) ∧
    ∀ i e,
      results !! i = Some e →
      (∀ key a, info_of e !! key = Some a → default false (is_ac a) = false) →
      rows !! i
      = Some (username e :: replicate (length qs) "0.00"%string ++ ["0.00"%string]).
Proof.
  intros [qs Hqs]%qids_total.
  exists qs, (map (acm_row (full_score qs) qs) results).
  rewrite results_to_csv_acm_run, Hqs. split; [done|].
  intros i e He Hnone. rewrite list_lookup_fmap, He. simpl.
  rewrite acm_row_cells.
  assert (∀ qid, acm_score (full_score qs) (info_of e) qid = PInt 0) as Hzero.
  { intros qid. unfold acm_score.
    destruct (info_of e !! py_str qid) as [a|] eqn:Ha; simpl; [|done].
    by rewrite (Hnone _ _ Ha). }
  rewrite (map_const_replicate _ "0.00"%string) by (by intros; rewrite Hzero).
  rewrite (map_const_replicate _ (PInt 0)) by (by intros; rewrite Hzero).
  by rewrite foldl_py_add_zeros.
Qed.

Lemma acm_nothing_accepted_scores_zero_witness :
  integer_keys sample_acm_unsolved = true ∧
  ∃ qs rows,
    results_to_csv_acm sample_acm_unsolved empty_world
    = (set_stdout (stdout empty_world ++ header qs "total" :: rows) empty_world,
       Ok tt) ∧
    rows !! 0%nat
    = Some ("erin"%string :: replicate (length qs) "0.00"%string ++ ["0.00"%string]) ∧
    rows !! 1%nat
    = Some ("finn"%string :: replicate (length qs) "0.00"%string ++ ["0.00"%string]).
Proof.
  split; [vm_compute; reflexivity|].
  destruct (acm_nothing_accepted_scores_zero sample_acm_unsolved empty_world)
    as (qs & rows & Hrun & Hrows); [vm_compute; reflexivity|].
  exists qs, rows. split; [exact Hrun|]. split.
  - apply (Hrows 0%nat _ eq_refl). intros key a.
    cbn [info_of submission_info from_option id].
    intros [[_ <-]|[_ [[_ <-]|[_ H]]%lookup_insert_Some]]%lookup_insert_Some;
      [done|done|by rewrite lookup_empty in H].
  - apply (Hrows 1%nat _ eq_refl). intros key a.
    cbn [info_of submission_info from_option id].
    by rewrite lookup_empty.
Defined.

(** The rows of the two entries without an accepted record, next to the
    row of an entry that solved a question. *)
Example acm_unsolved_table :
  results_to_csv_acm sample_acm_unsolved empty_world
  = (set_stdout [["username"; "Q1(1)"; "Q2(2)"; "total"];
                 ["erin"; "0.00"; "0.00"; "0.00"];
                 ["finn"; "0.00"; "0.00"; "0.00"];
                 ["gus"; "0.00"; "50.00"; "50.00"]]%string empty_world, Ok tt).
Proof. vm_compute. reflexivity. Qed.

Lemma full_marks_total_100 (n : nat) :
  (1 ≤ n ≤ 100)%nat → full_marks_total n = "100.00"%string.
Proof.
  intros Hn.
  assert (forallb (λ k, String.eqb (full_marks_total k) "100.00") (seq 1 100) = true)
    as Hall by (vm_compute; reflexivity).
  rewrite forallb_forall in Hall.
  apply String.eqb_eq, Hall, in_seq. lia.
Qed.

(** X6. In ACM mode, in a table of at most 100 questions, an entry that
    solved every question at the first attempt has the total 100.00: adding
    up the binary floating-point shares [100 / n] does not show in the two
    decimals written. *)
Theorem acm_all_first_attempt_total
    (results : list (RankEntry attempt)) (w : world) :
  integer_keys results = true →
  ∃ qs rows,
    results_to_csv_acm results w
    = (set_stdout (stdout w ++ header qs "total" :: rows) w, Ok tt) ∧
    ∀ i e,
      results !! i = Some e →
      (1 ≤ length qs ≤ 100)%nat →
      (∀ qid, qid ∈ qs →
         ∃ a, info_of e !! py_str qid = Some a ∧ first_attempt a = true) →
      ∃ row, rows !! i = Some row ∧ last row = Some "100.00"%string.
Proof.
  intros [qs Hqs]%qids_total.
  exists qs, (map (acm_row (full_score qs) qs) results).
  rewrite results_to_csv_acm_run, Hqs. split; [done|].
  intros i e He Hn Hall. exists (acm_row (full_score qs) qs e).
  split; [by rewrite list_lookup_fmap, He|].
  rewrite acm_row_cells.
  rewrite (map_const_replicate (acm_score (full_score qs) (info_of e))
             (py_truediv (PInt 100) (PInt (Z.of_nat (length qs))))).
  - change (username e :: ?l ++ [?x]) with ((username e :: l) ++ [x]).
    rewrite last_snoc. f_equal. by apply full_marks_total_100.
  - intros qid (a & Ha & Hfirst)%Hall. unfold acm_score. rewrite Ha. simpl.
    unfold first_attempt in Hfirst. apply andb_prop in Hfirst as [-> ->%Z.eqb_eq].
    simpl. destruct qs; [simpl in Hn; lia|done].
Qed.

Lemma acm_all_first_attempt_total_witness :
  integer_keys sample_acm_three = true ∧
  ∃ qs rows,
    results_to_csv_acm sample_acm_three empty_world
    = (set_stdout (stdout empty_world ++ header qs "total" :: rows) empty_world,
       Ok tt) ∧
    ∀ i e,
      sample_acm_three !! i = Some e →
      (1 ≤ length qs ≤ 100)%nat →
      (∀ qid, qid ∈ qs →
         ∃ a, info_of e !! py_str qid = Some a ∧ first_attempt a = true) →
      ∃ row, rows !! i = Some row ∧ last row = Some "100.00"%string.
Proof.
  split; [vm_compute; reflexivity|].
  apply (acm_all_first_attempt_total sample_acm_three empty_world).
  vm_compute; reflexivity.
Defined.

(** Three shares of 33.33 and a total of 100.00. *)
Example acm_three_of_three :
  results_to_csv_acm sample_acm_three empty_world
  = (set_stdout [["username"; "Q1(1)"; "Q2(2)"; "Q3(3)"; "total"];
                 ["alice"; "33.33"; "33.33"; "33.33"; "100.00"]]%string
                empty_world, Ok tt).
Proof. vm_compute. reflexivity. Qed.

(** ** Fetching the ranks: errors, counts, completeness *)

Lemma length_py_range (start stop step : Z) :
  length (py_range start stop step) = Z.to_nat ((stop - start + step - 1) / step).
Proof. unfold py_range. by rewrite length_map, length_seq. Qed.

Lemma concat_slices {A} (n : nat) (db : list A) (m : nat) :
  (length db ≤ m * n)%nat →
  concat (map (λ k, take n (drop (k * n) db)) (seq 0 m)) = db.
Proof.
  revert db. induction m as [|m IH]; intros db Hlen; simpl.
  - destruct db; [done|simpl in Hlen; lia].
  - transitivity (take n db ++ drop n db); [|apply take_drop].
    f_equal.
    rewrite <-fmap_S_seq, <-list_fmap_compose.
    rewrite <-(IH (drop n db)) at 1 by (rewrite length_drop; lia).
    f_equal. apply list_fmap_ext. intros _ k _. simpl.
    by rewrite drop_drop, (Nat.add_comm n).
Qed.

Lemma offsets_as_multiples (stop : Z) :
  0 :: py_range PAGE_LIMIT stop PAGE_LIMIT
  = map (λ k, Z.of_nat (k * Z.to_nat PAGE_LIMIT))
        (seq 0 (S (Z.to_nat ((stop - 1) / PAGE_LIMIT)))).
Proof.
  unfold py_range, PAGE_LIMIT.
  replace ((stop - 250 + 250 - 1) / 250) with ((stop - 1) / 250) by (f_equal; lia).
  simpl. f_equal. rewrite <-fmap_S_seq, <-list_fmap_compose.
  apply list_fmap_ext. intros _ k _. simpl. lia.
Qed.

Section RankPages.

Variable site : string.
Variable extract_cookies_to_jar : list Cookie → list Cookie → list Cookie.
Context {E : Type}.
Variable rank_api : list request → response (paged E).
Variable contest_id : Z.

Let page_request (offset : Z) : request := GET (rank_url site offset contest_id).

Let fetch := fetch_all_ranks site extract_cookies_to_jar rank_api contest_id.

Lemma not_page_inv (r : response (paged E)) :
  is_page r = false →
  (ok_status r = false ∧ refusal r = HTTPError) ∨
  (ok_status r = true ∧ refusal r = AttributeError ∧
   data_object r = Raise AttributeError ∧ page_results r = Raise AttributeError).
Proof.
  unfold is_page, refusal, page_results, data_object.
  destruct (ok_status r); [|by left]. right.
  by destruct (body r).
Qed.

Lemma fetch_pages_stops (offsets : list Z) (acc : list E) (w : world) (i : nat)
    (r : response (paged E)) :
  let requests := map page_request offsets in
  let pages := replies rank_api (trace w) requests in
  forallb is_page (take i pages) = true →
  pages !! i = Some r → is_page r = false →
  ∃ w', fetch_pages site extract_cookies_to_jar rank_api contest_id offsets acc w
        = (w', Raise (refusal r)) ∧
        trace w' = trace w ++ take (S i) requests.
Proof.
  revert acc w i. induction offsets as [|o rest IH]; intros acc w i; simpl; [done|].
  destruct (send_run extract_cookies_to_jar rank_api (page_request o) w)
    as (w1 & Hsend & Htr & _).
  unfold mbind, M_bind, bind. fold (page_request o). rewrite Hsend.
  destruct i as [|i]; simpl.
  - intros _ [= <-] [[Hbad ->]|(Hok & -> & _ & Hres)]%not_page_inv.
    + rewrite raise_for_status_error by done.
      exists w1. split; [done|]. by rewrite take_0.
    + rewrite raise_for_status_ok by done. unfold lift. rewrite Hres.
      exists w1. split; [done|]. by rewrite take_0.
  - intros [(Hok & _ & Hres)%is_page_inv Hrest]%andb_prop Hr Hbad.
    rewrite raise_for_status_ok by done. unfold lift. rewrite Hres.
    rewrite <-Htr in Hrest, Hr.
    destruct (IH (acc ++ entries_of (rank_api (trace w ++ [page_request o]))) w1 i
                Hrest Hr Hbad) as (w' & Hrun & Htr').
    exists w'. split; [done|]. by rewrite Htr', Htr, <-app_assoc.
Qed.

Lemma fetch_all_ranks_stops (w : world) (i : nat) (r : response (paged E)) :
  let first := rank_api (trace w ++ [page_request 0]) in
  let total := default (Z.of_nat (length (entries_of first))) (total_of first) in
  let requests := map page_request (0 :: py_range PAGE_LIMIT total PAGE_LIMIT) in
  let pages := replies rank_api (trace w) requests in
  forallb is_page (take i pages) = true →
  pages !! i = Some r → is_page r = false →
  ∃ w', fetch w = (w', Raise (refusal r)) ∧
        trace w' = trace w ++ take (S i) requests.
Proof.
  intros first total requests pages. subst pages requests. simpl.
  destruct (send_run extract_cookies_to_jar rank_api (page_request 0) w)
    as (w1 & Hsend & Htr & _).
  unfold fetch, fetch_all_ranks, mbind, M_bind, bind. fold (page_request 0).
  rewrite Hsend.
  destruct i as [|i]; simpl.
  - intros _ [= <-] [[Hbad ->]|(Hok & -> & Hdata & _)]%not_page_inv.
    + rewrite raise_for_status_error by done.
      exists w1. split; [done|]. by rewrite take_0.
    + rewrite raise_for_status_ok by done. unfold lift. rewrite Hdata.
      exists w1. split; [done|]. by rewrite take_0.
  - intros [Hfirst Hrest]%andb_prop Hr Hbad.
    pose proof Hfirst as (Hok & Hdata & _)%(is_page_inv (E:=E)).
    rewrite raise_for_status_ok by done. unfold lift. rewrite Hdata.
    cbn [total results]. fold first.
    assert (default [] (match body first with Page p => results p | _ => None end)
            = entries_of first) as -> by (unfold entries_of; by destruct (body first)).
    fold total.
    rewrite <-Htr in Hrest, Hr.
    destruct (fetch_pages_stops (py_range PAGE_LIMIT total PAGE_LIMIT)
                (entries_of first) w1 i r Hrest Hr Hbad) as (w' & Hrun & Htr').
    exists w'. split; [done|]. by rewrite Htr', Htr, <-app_assoc.
Qed.

(** X7. When an answer is an HTTP error, and the answers before it
    brought pages, [fetch_all_ranks] raises [HTTPError] at that answer: the
    requests up to and including the one answered with the error have been
    sent, no later one is, and the pages received before are not returned. *)
Theorem fetch_all_ranks_stops_at_http_error (w : world) (i : nat) :
  let first := rank_api (trace w ++ [page_request 0]) in
  let total := default (Z.of_nat (length (entries_of first))) (total_of first) in
  let requests := map page_request (0 :: py_range PAGE_LIMIT total PAGE_LIMIT) in
  let pages := replies rank_api (trace w) requests in
  forallb is_page (take i pages) = true →
  ok_status <$> pages !! i = Some false →
  ∃ w', fetch w = (w', Raise HTTPError) ∧
        trace w' = trace w ++ take (S i) requests.
Proof.
  intros first total requests pages Hbefore Hbad.
  destruct (pages !! i) as [r|] eqn:Hr; [|done]. injection Hbad as Hbad.
  destruct (fetch_all_ranks_stops w i r Hbefore Hr) as (w' & Hrun & Htr).
  { unfold is_page. by rewrite Hbad. }
  exists w'. split; [|done]. rewrite Hrun. unfold refusal. by rewrite Hbad.
Qed.

(** X8. When every answer brings a page, the number of requests
    [fetch_all_ranks] sends is the number of pages of [PAGE_LIMIT] entries
    that [total] entries fill, and one when [total] is zero or negative. *)
Theorem fetch_all_ranks_request_count (w : world) :
  let first := rank_api (trace w ++ [page_request 0]) in
  let total := default (Z.of_nat (length (entries_of first))) (total_of first) in
  let requests := map page_request (0 :: py_range PAGE_LIMIT total PAGE_LIMIT) in
  forallb is_page (replies rank_api (trace w) requests) = true →
  ∃ w' ranks,
    fetch w = (w', Ok ranks) ∧
    Z.of_nat (length (trace w'))
    = Z.of_nat (length (trace w)) + Z.max 1 ((total + PAGE_LIMIT - 1) / PAGE_LIMIT).
Proof.
  intros first total requests Hok.
  destruct (fetch_all_ranks_run site extract_cookies_to_jar rank_api contest_id w Hok)
    as (w' & Hrun & Htr).
  exists w'. eexists. split; [exact Hrun|].
  change (trace w' = trace w ++ requests) in Htr.
  rewrite Htr. subst requests. rewrite length_app, length_map. cbn [length].
  rewrite length_py_range. clear Hrun Htr Hok. clearbody total.
  unfold PAGE_LIMIT.
  replace ((total - 250 + 250 - 1) / 250) with ((total - 1) / 250) by (f_equal; lia).
  replace (total + 250 - 1) with (total - 1 + 1 * 250) by lia.
  rewrite Z.div_add by done.
  destruct (Z.le_gt_cases 1 total) as [Hpos|Hneg].
  - assert (0 ≤ (total - 1) / 250) by (apply Z.div_pos; lia). lia.
  - assert ((total - 1) / 250 < 0) by (apply Z.div_lt_upper_bound; lia). lia.
Qed.

(** X9. Against a judge that reports as [total] the number of entries it
    holds and answers every request with the slice of at most [PAGE_LIMIT]
    entries at the offset asked for, [fetch_all_ranks] returns the judge's
    entries: all of them, each once, in the judge's order. *)
Theorem fetch_all_ranks_returns_whole_ranking (db : list E) (w : world) :
  let first := rank_api (trace w ++ [page_request 0]) in
  let offsets := 0 :: py_range PAGE_LIMIT (Z.of_nat (length db)) PAGE_LIMIT in
  let pages := replies rank_api (trace w) (map page_request offsets) in
  total_of first = Some (Z.of_nat (length db)) →
  forallb is_page pages = true →
  map entries_of pages
  = map (λ o, take (Z.to_nat PAGE_LIMIT) (drop (Z.to_nat o) db)) offsets →
  ∃ w', fetch w = (w', Ok db).
Proof.
  intros first offsets pages Htotal Hok Hslices.
  pose proof (fetch_all_ranks_run site extract_cookies_to_jar rank_api contest_id w)
    as Hrun. simpl in Hrun. fold (page_request 0) in Hrun. fold first in Hrun.
  rewrite Htotal in Hrun. simpl in Hrun.
  destruct (Hrun Hok) as (w' & Hfetch & _). exists w'.
  unfold fetch. rewrite Hfetch. do 2 f_equal.
  change (concat (map entries_of pages) = db). rewrite Hslices.
  subst offsets. rewrite offsets_as_multiples, <-list_fmap_compose.
  rewrite <-(concat_slices (Z.to_nat PAGE_LIMIT) db
               (S (Z.to_nat ((Z.of_nat (length db) - 1) / PAGE_LIMIT)))) at 2.
  - f_equal. apply list_fmap_ext. intros _ k _. simpl. by rewrite Nat2Z.id.
  - unfold PAGE_LIMIT.
    destruct (Z.le_gt_cases 1 (Z.of_nat (length db))) as [Hpos|Hneg].
    + pose proof (Z.mul_succ_div_gt (Z.of_nat (length db) - 1) 250).
      assert (0 ≤ (Z.of_nat (length db) - 1) / 250) by (apply Z.div_pos; lia).
      lia.
    + lia.
Qed.

Lemma fetch_pages_frame (offsets : list Z) (acc : list E) (w : world) :
  let w' := (fetch_pages site extract_cookies_to_jar rank_api contest_id offsets acc w).1 in
  disk w' = disk w ∧ stdout w' = stdout w ∧
  headers (session w') = headers (session w) ∧
  ∃ more, trace w' = trace w ++ more ∧ forallb is_GET more = true.
Proof.
  revert acc w. induction offsets as [|o rest IH]; intros acc w; simpl.
  - repeat split; try done. exists []. by rewrite app_nil_r.
  - destruct (send_run extract_cookies_to_jar rank_api (page_request o) w)
      as (w1 & Hsend & Htr & Hdisk & Hout & Hsess).
    unfold mbind, M_bind, bind. fold (page_request o). rewrite Hsend.
    destruct (ok_status (rank_api (trace w ++ [page_request o]))) eqn:Hok.
    + rewrite raise_for_status_ok by done. unfold lift.
      destruct (page_results (rank_api (trace w ++ [page_request o]))) as [page|e].
      * destruct (IH (acc ++ page) w1) as (Hd & Ho & Hh & more & Ht & Hget).
        split; [congruence|]. split; [congruence|].
        split; [by rewrite Hh, Hsess|].
        exists (page_request o :: more). split; [|done].
        by rewrite Ht, Htr, <-app_assoc.
      * simpl. split; [done|]. split; [done|]. split; [by rewrite Hsess|].
        by exists [page_request o].
    + rewrite raise_for_status_error by done. simpl.
      split; [done|]. split; [done|]. split; [by rewrite Hsess|].
      by exists [page_request o].
Qed.

Lemma fetch_all_ranks_frame (w : world) :
  let w' := (fetch w).1 in
  disk w' = disk w ∧ stdout w' = stdout w ∧
  headers (session w') = headers (session w) ∧
  ∃ more, trace w' = trace w ++ page_request 0 :: more ∧ forallb is_GET more = true.
Proof.
  destruct (send_run extract_cookies_to_jar rank_api (page_request 0) w)
    as (w1 & Hsend & Htr & Hdisk & Hout & Hsess).
  unfold fetch, fetch_all_ranks, mbind, M_bind, bind. fold (page_request 0).
  rewrite Hsend.
  destruct (ok_status (rank_api (trace w ++ [page_request 0]))) eqn:Hok.
  - rewrite raise_for_status_ok by done. unfold lift.
    destruct (data_object (rank_api (trace w ++ [page_request 0]))) as [data|e].
    + match goal with
      | |- context [fetch_pages _ _ _ _ ?offs ?acc w1] =>
          destruct (fetch_pages_frame offs acc w1) as (Hd & Ho & Hh & more & Ht & Hget)
      end.
      split; [congruence|]. split; [congruence|].
      split; [by rewrite Hh, Hsess|].
      exists more. split; [|done]. by rewrite Ht, Htr, <-app_assoc.
    + simpl. split; [done|]. split; [done|]. split; [by rewrite Hsess|].
      by exists [].
  - rewrite raise_for_status_error by done. simpl.
    split; [done|]. split; [done|]. split; [by rewrite Hsess|].
    by exists [].
Qed.

(** X10. Whatever the judge answers, and whether it returns or raises,
    [fetch_all_ranks] leaves the disk, what was written on standard output
    and the session's headers as they were, and adds to the requests sent so
    far only [GET] requests, the first of them for offset 0. *)
Theorem fetch_all_ranks_only_sends_gets (w : world) :
  let w' := (fetch w).1 in
  disk w' = disk w ∧ stdout w' = stdout w ∧
  headers (session w') = headers (session w) ∧
  ∃ more, trace w' = trace w ++ page_request 0 :: more ∧ forallb is_GET more = true.
Proof. apply fetch_all_ranks_frame. Qed.

(** X28. The judge answers a request it refuses with the status 200 and
    a message in place of the [data] object; [raise_for_status] lets such an
    answer through.  When the answers before it brought pages,
    [fetch_all_ranks] raises [AttributeError] at that answer, be it the first
    or a later one: the requests up to and including that one have been sent,
    and the pages received before are not returned. *)
Theorem fetch_all_ranks_stops_at_refusal (w : world) (i : nat)
    (r : response (paged E)) :
  let first := rank_api (trace w ++ [page_request 0]) in
  let total := default (Z.of_nat (length (entries_of first))) (total_of first) in
  let requests := map page_request (0 :: py_range PAGE_LIMIT total PAGE_LIMIT) in
  let pages := replies rank_api (trace w) requests in
  forallb is_page (take i pages) = true →
  pages !! i = Some r →
  ok_status r = true →
  body r = NotAnObject →
  ∃ w', fetch w = (w', Raise AttributeError) ∧
        trace w' = trace w ++ take (S i) requests.
Proof.
  intros first total requests pages Hbefore Hr Hok Hbody.
  destruct (fetch_all_ranks_stops w i r Hbefore Hr) as (w' & Hrun & Htr).
  { unfold is_page. by rewrite Hok, Hbody. }
  exists w'. split; [|done]. rewrite Hrun. unfold refusal. by rewrite Hok.
Qed.

End RankPages.

Lemma fetch_all_ranks_stops_at_http_error_witness :
  let requests := map (λ o, GET (rank_url "https://oj.example" o 7)) [0; 250; 500] in
  let pages := replies (flaky_judge sample_db) [] requests in
  forallb is_page (take 1 pages) = true ∧
  ok_status <$> pages !! 1%nat = Some false ∧
  ∃ w', fetch_all_ranks "https://oj.example" append_cookies (flaky_judge sample_db) 7
          empty_world = (w', Raise HTTPError) ∧
        trace w' = take 2 requests.
Proof.
  split; [vm_compute; reflexivity|]. split; [vm_compute; reflexivity|].
  destruct (fetch_all_ranks_stops_at_http_error "https://oj.example" append_cookies
              (flaky_judge sample_db) 7 empty_world 1)
    as (w' & Hrun & Htr); [vm_compute; reflexivity|vm_compute; reflexivity|].
  exists w'. split; [exact Hrun|].
  vm_compute in Htr |- *. exact Htr.
Defined.

Lemma fetch_all_ranks_request_count_witness :
  forallb is_page
    (replies (paging_judge sample_db true) []
       (map (λ o, GET (rank_url "https://oj.example" o 7)) [0; 250; 500])) = true ∧
  ∃ w' ranks,
    fetch_all_ranks "https://oj.example" append_cookies (paging_judge sample_db true) 7
      empty_world = (w', Ok ranks) ∧
    Z.of_nat (length (trace w')) = 3.
Proof.
  split; [vm_compute; reflexivity|].
  destruct (fetch_all_ranks_request_count "https://oj.example" append_cookies
              (paging_judge sample_db true) 7 empty_world)
    as (w' & ranks & Hrun & Hcount); [vm_compute; reflexivity|].
  exists w', ranks. split; [exact Hrun|]. rewrite Hcount. vm_compute. reflexivity.
Defined.

Lemma fetch_all_ranks_returns_whole_ranking_witness :
  let offsets := [0; 250; 500] in
  let pages :=
    replies (paging_judge sample_db true) []
      (map (λ o, GET (rank_url "https://oj.example" o 7)) offsets) in
  forallb is_page pages = true ∧
  map entries_of pages = map (λ o, take 250 (drop (Z.to_nat o) sample_db)) offsets ∧
  ∃ w', fetch_all_ranks "https://oj.example" append_cookies (paging_judge sample_db true)
          7 empty_world = (w', Ok sample_db).
Proof.
  split; [vm_compute; reflexivity|]. split; [vm_compute; reflexivity|].
  apply (fetch_all_ranks_returns_whole_ranking "https://oj.example" append_cookies
           (paging_judge sample_db true) 7 sample_db empty_world);
    vm_compute; reflexivity.
Defined.

Lemma fetch_all_ranks_stops_at_refusal_witness :
  let requests := map (λ o, GET (rank_url "https://oj.example" o 7)) [0; 250; 500] in
  let pages := replies (refusing_judge sample_db) [] requests in
  forallb is_page (take 2 pages) = true ∧
  ∃ w', fetch_all_ranks "https://oj.example" append_cookies (refusing_judge sample_db) 7
          empty_world = (w', Raise AttributeError) ∧
        trace w' = requests.
Proof.
  split; [vm_compute; reflexivity|].
  destruct (fetch_all_ranks_stops_at_refusal "https://oj.example" append_cookies
              (refusing_judge sample_db) 7 empty_world 2
              {| status_code := 200; set_cookies := []; body := NotAnObject |})
    as (w' & Hrun & Htr);
    [vm_compute; reflexivity|vm_compute; reflexivity|reflexivity|reflexivity|].
  exists w'. split; [exact Hrun|].
  vm_compute in Htr |- *. exact Htr.
Defined.

(** ** The cookie file: what is saved, and what comes back *)

(** X11. What [save_cookies] leaves in the cookie file is a JSON object
    with one field for each distinct cookie name of the jar: where the jar has
    several cookies of one name (a [csrftoken] for each of two domains, say),
    the field holds the value of the last of them, and domains and paths are
    not saved. *)
Theorem save_cookies_keeps_last_value_per_name (path : string) (w : world) :
  may_write (disk w) path = true →
  ∃ fields w',
    save_cookies path w = (w', Ok tt) ∧
    disk w' !! path = Some {| mode := 384; content := Json (JObj fields) |} ∧
    NoDup (map fst fields) ∧
    ∀ n, dict_get n fields
         = (λ c, JStr (value c)) <$> last (named n (cookies (session w))).
Proof.
  intros Hw. rewrite save_cookies_run by done.
  eexists _, _. split; [done|]. split.
  { simpl. by rewrite lookup_insert_eq. }
  split.
  - apply cookie_dict_NoDup. constructor.
  - intros n. rewrite cookie_dict_get. by destruct (last _).
Qed.

Lemma save_cookies_keeps_last_value_per_name_witness :
  may_write (disk write_only_world) "cookies.json" = true ∧
  ∃ fields w',
    save_cookies "cookies.json" write_only_world = (w', Ok tt) ∧
    disk w' !! "cookies.json"%string
    = Some {| mode := 384; content := Json (JObj fields) |} ∧
    NoDup (map fst fields) ∧
    ∀ n, dict_get n fields
         = (λ c, JStr (value c)) <$> last (named n (cookies (session write_only_world))).
Proof.
  split; [vm_compute; reflexivity|].
  apply (save_cookies_keeps_last_value_per_name "cookies.json" write_only_world).
  vm_compute; reflexivity.
Defined.

(** Of the two [csrftoken] cookies the file keeps the value of the later
    one. *)
Example save_cookies_two_csrf_tokens :
  (save_cookies "cookies.json" write_only_world).1
  = set_disk {[ "cookies.json" :=
                  {| mode := 384;
                     content := Json (JObj [("csrftoken", JStr "site-token");
                                            ("sessionid", JStr "abc")]) |} ]}
             write_only_world.
Proof. vm_compute. reflexivity. Qed.

(** X12. A cookie file written by [save_cookies] is read back by
    [load_cookies], also when the file could not be read before (it is given
    the mode 0600): the jar the session gets is the one the library builds
    from the saved names and values, and when the library raises on them the
    answer is [False] and the session is left as it is. *)
Theorem load_cookies_after_save_cookies
    (cookiejar_from_dict : json → result (list Cookie)) (path : string) (w : world) :
  may_write (disk w) path = true →
  ∃ w1,
    save_cookies path w = (w1, Ok tt) ∧
    load_cookies cookiejar_from_dict path w1
    = match cookiejar_from_dict (dict_from_cookiejar (cookies (session w))) with
      | Ok jar => (with_cookies jar w1, Ok true)
      | Raise _ => (w1, Ok false)
      end.
Proof.
  intros Hw. rewrite save_cookies_run by done. eexists. split; [done|].
  rewrite load_cookies_run. simpl. by rewrite lookup_insert_eq.
Qed.

Lemma load_cookies_after_save_cookies_witness :
  may_write (disk write_only_world) "cookies.json" = true ∧
  ∃ w1,
    save_cookies "cookies.json" write_only_world = (w1, Ok tt) ∧
    load_cookies strict_cookiejar_from_dict "cookies.json" w1
    = (with_cookies [ {| name := "csrftoken"; value := "site-token"; domain := "";
                         path := "/" |};
                      {| name := "sessionid"; value := "abc"; domain := "";
                         path := "/" |} ] w1, Ok true).
Proof.
  split; [vm_compute; reflexivity|].
  destruct (load_cookies_after_save_cookies strict_cookiejar_from_dict "cookies.json"
              write_only_world) as (w1 & Hsave & Hload); [vm_compute; reflexivity|].
  exists w1. split; [exact Hsave|]. rewrite Hload. reflexivity.
Defined.

Lemma clear_cookies_file_run (path : string) (w : world) :
  clear_cookies_file path w = (set_disk (delete path (disk w)) w, Ok tt).
Proof.
  unfold clear_cookies_file, try_except, os_remove.
  destruct (disk w !! path) as [f|] eqn:Hfile; [done|].
  simpl. rewrite delete_id by done. by destruct w.
Qed.

(** X13. [clear_cookies_file] returns normally also when there is no
    cookie file; it removes that file and no other, and touches nothing
    else; after it [load_cookies] answers [False] and leaves the session as it
    is; and clearing once more changes nothing. *)
Theorem clear_cookies_file_forgets
    (cookiejar_from_dict : json → result (list Cookie)) (path : string) (w : world) :
  ∃ w',
    clear_cookies_file path w = (w', Ok tt) ∧
    disk w' !! path = None ∧
    (∀ other, other ≠ path → disk w' !! other = disk w !! other) ∧
    trace w' = trace w ∧ session w' = session w ∧ stdout w' = stdout w ∧
    load_cookies cookiejar_from_dict path w' = (w', Ok false) ∧
    clear_cookies_file path w' = (w', Ok tt).
Proof.
  rewrite clear_cookies_file_run. eexists. split; [done|].
  split; [apply lookup_delete_eq|].
  split; [by intros other Hother; apply lookup_delete_ne|].
  do 3 (split; [done|]). split.
  - rewrite load_cookies_run. simpl. by rewrite lookup_delete_eq.
  - rewrite clear_cookies_file_run. simpl. by rewrite delete_delete_eq.
Qed.

(** ** Logging in and out, the two-factor check, the contest list *)

Lemma run_eq {A} (m : M A) (t : terminal) (w' : world) (r : result A) :
  m (machine t) = (w', r) →
  run m t = (on_machine w' t,
             match r with
             | Ok a => Done a
             | Raise e => Fault (Python e)
             end).
Proof. unfold run. by intros ->. Qed.

Section AccountTheory.

Variable site : string.
Variable hostname : string → option string.
Variable default_cookie_file : string.
Variable extract_cookies_to_jar : list Cookie → list Cookie → list Cookie.
Variable cookies_set :
  string → string → option string → string → list Cookie → result (list Cookie).
Variable login_api : list request → response (gmap string json).
Variable tfa_api : list request → response (gmap string json).
Variable logout_api : list request → response unit.
Variable contests_api : list request → response (paged Contest).

(** X14. When the server accepts a login but the cookie file cannot be
    written, [do_login] does not return [True]: it raises [PermissionError],
    with the session holding the cookies of the accepted login and the cookie
    file left as it was. *)
Theorem do_login_accepted_but_not_saved
    (user password : string) (tfa_code : option string) (w : world) :
  let payload :=
    [("username", user); ("password", password)] ++
    match tfa_code with
    | Some code => if String.eqb code "" then [] else [("tfa_code", code)]
    | None => []
    end in
  let answer := login_api (trace w ++ [POST (site ++ "/api/login")%string payload]) in
  ok_status answer = true →
  is_None (body answer !! "error"%string) = true →
  body answer !! "data"%string = Some (JStr "Succeeded") →
  may_write (disk w) default_cookie_file = false →
  ∃ w',
    do_login site default_cookie_file extract_cookies_to_jar login_api
      user password tfa_code w = (w', Raise PermissionError) ∧
    disk w' = disk w ∧
    cookies (session w')
    = extract_cookies_to_jar (cookies (session w)) (set_cookies answer).
Proof.
  intros payload answer Hok Herr Hdata Hlocked.
  unfold do_login, mbind, M_bind, bind, send. fold payload. fold answer.
  rewrite raise_for_status_ok by done. rewrite Herr, Hdata. simpl.
  rewrite save_cookies_denied by done. by eexists.
Qed.

(** X15. When the login request is answered with an HTTP error status,
    [do_login] raises [HTTPError] instead of returning [False]: the request
    has been sent, and nothing is saved. *)
Theorem do_login_http_error_saves_nothing
    (user password : string) (tfa_code : option string) (w : world) :
  let payload :=
    [("username", user); ("password", password)] ++
    match tfa_code with
    | Some code => if String.eqb code "" then [] else [("tfa_code", code)]
    | None => []
    end in
  let request := POST (site ++ "/api/login")%string payload in
  ok_status (login_api (trace w ++ [request])) = false →
  ∃ w',
    do_login site default_cookie_file extract_cookies_to_jar login_api
      user password tfa_code w = (w', Raise HTTPError) ∧
    trace w' = trace w ++ [request] ∧
    disk w' = disk w.
Proof.
  intros payload request Hbad.
  unfold do_login, mbind, M_bind, bind, send. fold payload. fold request.
  rewrite raise_for_status_error by done. by eexists.
Qed.

Let tfa_request (username : string) : request :=
  POST (site ++ "/api/tfa_required")%string [("username", username)].

(** X16. When the two-factor endpoint answers without an HTTP error,
    [check_tfa_required] sends that one request, prints nothing and leaves the
    disk alone; what it returns is true in a condition exactly when the
    answer's [error] is null or absent and its [data] is an object whose
    [result] is true in a condition; it raises [AttributeError] exactly when
    [error] is null or absent and [data] is present without being an object.
    So an answer with an [error] never raises, whatever its [data] is. *)
Theorem check_tfa_required_answer (username : string) (t : terminal) :
  let answer := tfa_api (trace (machine t) ++ [tfa_request username]) in
  let error := body answer !! "error"%string in
  let data := body answer !! "data"%string in
  ok_status answer = true →
  ∃ t' r,
    check_tfa_required site extract_cookies_to_jar tfa_api username t = (t', r) ∧
    trace (machine t') = trace (machine t) ++ [tfa_request username] ∧
    disk (machine t') = disk (machine t) ∧
    printed t' = printed t ∧ errors t' = errors t ∧
    ((∃ v, r = Done v ∧ truthy v = true) ↔
     is_None error = true ∧
     ∃ fields v, data = Some (JObj fields) ∧ dict_get "result" fields = Some v ∧
                 truthy v = true) ∧
    (r = Fault (Python AttributeError) ↔
     is_None error = true ∧ ∃ v, data = Some v ∧ is_object v = false) ∧
    (is_None error = false → r = Done (JBool false)).
Proof.
  intros answer error data Hok.
  unfold check_tfa_required, mbind, T_bind, T_then.
  fold (tfa_request username).
  rewrite (run_eq _ t _ _ eq_refl). simpl.
  unfold run at 1. simpl. fold answer. rewrite raise_for_status_ok by done.
  fold error data. simpl.
  destruct (is_None error) eqn:Herr.
  - destruct data as [v|] eqn:Hdata; simpl.
    + destruct v as [| | | | |fields]; simpl;
        try (eexists _, _; split; [done|]; do 4 (split; [done|]);
             split; [|split; [|done]];
             [split; [intros (? & [=] & _)|intros (_ & ? & ? & [=] & _)]
             |split; [by eauto|done]]).
      eexists _, _. split; [done|]. do 4 (split; [done|]).
      split; [|split; [|done]].
      * split.
        -- intros (v & [= <-] & Hv). split; [done|].
           destruct (dict_get "result" fields) as [v'|] eqn:Hres; [|done].
           by exists fields, v'.
        -- intros (_ & fields' & v & [= <-] & -> & Hv). by eexists.
      * split; [done|]. by intros (_ & v & [= <-] & [=]).
    + eexists _, _. split; [done|]. do 4 (split; [done|]).
      split; [|split; [|done]].
      * split; [by intros (? & [= <-] & ?)|by intros (_ & ? & ? & [=] & _)].
      * split; [done|by intros (_ & ? & [=] & _)].
  - eexists _, _. split; [done|]. do 4 (split; [done|]).
    split; [|split; [|done]].
    + split; [by intros (? & [= <-] & ?)|by intros ([=] & _)].
    + split; [done|by intros ([=] & _)].
Qed.

Let logout_request : request := POST (site ++ "/api/logout")%string [].

Let logout := do_logout site hostname default_cookie_file extract_cookies_to_jar
                cookies_set logout_api.

Lemma run_cookies_set (t : terminal) :
  run (s ← get_session;
       jar ← lift (cookies_set "sessionid" "" (hostname site) "/" (cookies s));
       put_session {| cookies := jar; headers := headers s |}) t
  = match cookies_set "sessionid" "" (hostname site) "/" (cookies (session (machine t))) with
    | Ok jar =>
        (on_machine (set_session {| cookies := jar;
                                    headers := headers (session (machine t)) |}
                                 (machine t)) t, Done tt)
    | Raise e => (on_machine (machine t) t, Fault (Python e))
    end.
Proof.
  unfold run, mbind, M_bind, bind, get_session, lift, put_session.
  by destruct (cookies_set _ _ _ _ _).
Qed.

Lemma do_logout_run (t : terminal) :
  let answer := logout_api (trace (machine t) ++ [logout_request]) in
  let w1 :=
    set_session {| cookies := extract_cookies_to_jar (cookies (session (machine t)))
                                (set_cookies answer);
                   headers := headers (session (machine t)) |}
                (set_trace (trace (machine t) ++ [logout_request]) (machine t)) in
  logout t =
  if ok_status answer then
    match cookies_set "sessionid" "" (hostname site) "/" (cookies (session w1)) with
    | Ok jar =>
        let w2 := set_session {| cookies := jar; headers := headers (session w1) |} w1 in
        if may_write (disk w2) default_cookie_file then
          (write_out ("Logged out successfully." ++ newline)%string
             (on_machine (set_disk (delete default_cookie_file (disk w2)) w2) t),
           Done tt)
        else (on_machine w2 t, Fault (Python PermissionError))
    | Raise e => (on_machine w1 t, Fault (Python e))
    end
  else (on_machine w1 t, Fault (Python HTTPError)).
Proof.
  intros answer w1.
  unfold logout, do_logout, mbind at 1 2 3 4 5, T_bind, T_then. fold logout_request.
  rewrite (run_eq (send extract_cookies_to_jar logout_api logout_request) t w1
             (Ok answer) eq_refl).
  destruct (ok_status answer) eqn:Hok.
  - rewrite (run_eq (raise_for_status answer) (on_machine w1 t) _ _
               (raise_for_status_ok _ _ Hok)).
    rewrite run_cookies_set. cbn [machine on_machine].
    destruct (cookies_set _ _ _ _ _) as [jar|e]; [|done].
    set (w2 := set_session _ w1). cbv zeta.
    destruct (may_write (disk w2) default_cookie_file) eqn:Hw.
    + rewrite (run_eq (save_cookies default_cookie_file) (on_machine w2 _) _ _
                 (save_cookies_run _ _ Hw)).
      rewrite (run_eq (clear_cookies_file default_cookie_file) (on_machine _ _) _ _
                 (clear_cookies_file_run _ _)).
      unfold print, write_out, on_machine.
      cbn [machine printed errors stdin keyboard disk set_disk].
      by rewrite delete_insert_eq.
    + by rewrite (run_eq (save_cookies default_cookie_file) (on_machine w2 _) _ _
                    (save_cookies_denied _ _ Hw)).
  - by rewrite (run_eq (raise_for_status answer) (on_machine w1 t) _ _
                  (raise_for_status_error _ _ Hok)).
Qed.

(** X17. After a logout that goes through there is no cookie file: the
    cookies are saved and the file is removed right away, other files are not
    touched; the session's jar is the one the library gives once [sessionid]
    is set to the empty string; one line is printed on standard output. *)
Theorem do_logout_removes_cookie_file (jar : list Cookie) (t : terminal) :
  let answer := logout_api (trace (machine t) ++ [logout_request]) in
  let received :=
    extract_cookies_to_jar (cookies (session (machine t))) (set_cookies answer) in
  ok_status answer = true →
  cookies_set "sessionid" "" (hostname site) "/" received = Ok jar →
  may_write (disk (machine t)) default_cookie_file = true →
  ∃ t',
    logout t = (t', Done tt) ∧
    disk (machine t') = delete default_cookie_file (disk (machine t)) ∧
    cookies (session (machine t')) = jar ∧
    trace (machine t') = trace (machine t) ++ [logout_request] ∧
    printed t' = printed t ++ as_lines ["Logged out successfully."%string] ∧
    errors t' = errors t.
Proof.
  intros answer received Hok Hjar Hw.
  rewrite do_logout_run. fold answer. rewrite Hok. simpl. fold received.
  rewrite Hjar. simpl. rewrite Hw. by eexists.
Qed.

(** X18. A logout that fails prints nothing and leaves the disk as it
    was, cookie file included: with [HTTPError] when the server answers with
    an error status, with the library's exception when the jar refuses the
    cookie, and with [PermissionError] when the cookie file cannot be written,
    in which case the server has already accepted the logout. *)
Theorem do_logout_failure_keeps_cookie_file (t : terminal) :
  let answer := logout_api (trace (machine t) ++ [logout_request]) in
  let received :=
    extract_cookies_to_jar (cookies (session (machine t))) (set_cookies answer) in
  let set := cookies_set "sessionid" "" (hostname site) "/" received in
  ok_status answer && is_Ok set && may_write (disk (machine t)) default_cookie_file
  = false →
  ∃ t',
    logout t
    = (t', Fault (Python (if ok_status answer
                          then match set with
                               | Ok _ => PermissionError
                               | Raise e => e
                               end
                          else HTTPError))) ∧
    disk (machine t') = disk (machine t) ∧
    trace (machine t') = trace (machine t) ++ [logout_request] ∧
    printed t' = printed t ∧ errors t' = errors t.
Proof.
  intros answer received set Hfail.
  rewrite do_logout_run. fold answer. simpl. fold received. fold set.
  destruct (ok_status answer); [|by eexists].
  destruct set as [jar|e]; [|by eexists]. simpl in *.
  rewrite Hfail. by eexists.
Qed.

Let contests_request (rule_type : string) : request :=
  GET (site ++ "/api/contests?offset=0&limit=100&keyword=&rule_type="
            ++ rule_type ++ "&status=")%string.

Lemma print_contests_run (results : list Contest) (t : terminal) :
  print_contests results t
  = ({| machine := machine t; printed := printed t;
        errors := errors t ++ as_lines (map contest_line results);
        stdin := stdin t; keyboard := keyboard t |}, Done tt).
Proof.
  revert t. induction results as [|c rest IH]; intros t; simpl.
  - rewrite app_nil_r. by destruct t.
  - unfold mbind, T_bind, T_then, eprint. rewrite IH. simpl.
    by rewrite <-app_assoc.
Qed.

Lemma list_contests_run (rule_type : string) (t : terminal) :
  let answer := contests_api (trace (machine t) ++ [contests_request rule_type]) in
  let contests := entries_of answer in
  let t1 :=
    on_machine
      (set_session {| cookies := extract_cookies_to_jar
                                   (cookies (session (machine t)))
                                   (set_cookies answer);
                      headers := headers (session (machine t)) |}
                   (set_trace (trace (machine t) ++ [contests_request rule_type])
                              (machine t))) t in
  ok_status answer = true →
  list_contests site extract_cookies_to_jar contests_api rule_type t
  = if is_page answer
    then ({| machine := machine t1;
             printed := printed t;
             errors := errors t
                       ++ as_lines ("Available contests:"%string
                                      :: map contest_line contests);
             stdin := stdin t;
             keyboard := keyboard t |},
          Done (map id_ contests))
    else (t1, Fault (Python AttributeError)).
Proof.
  intros answer contests t1 Hok.
  unfold list_contests, mbind, T_bind, T_then. fold (contests_request rule_type).
  rewrite (run_eq (send extract_cookies_to_jar contests_api (contests_request rule_type))
             t _ (Ok answer) eq_refl).
  rewrite (run_eq (raise_for_status answer) (on_machine _ t) _ _
             (raise_for_status_ok _ _ Hok)).
  unfold is_page. rewrite Hok. cbn [andb].
  rewrite (run_eq (lift (page_results answer)) (on_machine _ (on_machine _ t)) _ _
             eq_refl).
  subst contests t1. unfold page_results, data_object, entries_of.
  destruct (body answer) as [|p|]; cbn [result_bind results from_option id].
  - done.
  - unfold eprint at 1. rewrite print_contests_run.
    cbn [machine printed errors stdin keyboard write_err on_machine as_lines map app].
    by rewrite <-app_assoc.
  - done.
Qed.

(** X19. When the contest endpoint answers without an HTTP error and
    with a [data] that is an object, or without [data], [list_contests]
    returns the ids of the contests of the answer in the answer's order, none
    when the answer has no [data] or no [results]; it prints the heading and
    one line per contest, in the same order, on standard error.  When the
    answer's [data] is no object, as in the answers by which the judge
    refuses a request, it raises [AttributeError] before it prints anything.
    Either way nothing is written on standard output, and that one [GET] is
    sent, with the rule type put into the URL as it is given. *)
Theorem list_contests_answer (rule_type : string) (t : terminal) :
  let answer := contests_api (trace (machine t) ++ [contests_request rule_type]) in
  let contests := entries_of answer in
  ok_status answer = true →
  ∃ t',
    list_contests site extract_cookies_to_jar contests_api rule_type t
    = (t', if is_page answer
           then Done (map id_ contests)
           else Fault (Python AttributeError)) ∧
    errors t'
    = errors t
      ++ (if is_page answer
          then as_lines ("Available contests:"%string :: map contest_line contests)
          else []) ∧
    printed t' = printed t ∧
    stdout (machine t') = stdout (machine t) ∧
    disk (machine t') = disk (machine t) ∧
    trace (machine t') = trace (machine t) ++ [contests_request rule_type].
Proof.
  intros answer contests Hok. rewrite list_contests_run by done.
  fold answer. destruct (is_page answer).
  - eexists. split; [done|]. by repeat split.
  - eexists. split; [done|]. cbn. rewrite app_nil_r. by repeat split.
Qed.

End AccountTheory.

Lemma do_login_accepted_but_not_saved_witness :
  ok_status (accepting_login [POST "https://oj.example/api/login"
                                [("username", "alice"); ("password", "secret")]])
  = true ∧
  may_write (disk read_only_world) "cookies.json" = false ∧
  ∃ w',
    do_login "https://oj.example" "cookies.json" append_cookies accepting_login
      "alice" "secret" None read_only_world = (w', Raise PermissionError) ∧
    disk w' = disk read_only_world ∧
    cookies (session w') = [session_cookie].
Proof.
  split; [vm_compute; reflexivity|]. split; [vm_compute; reflexivity|].
  apply (do_login_accepted_but_not_saved "https://oj.example" "cookies.json"
           append_cookies accepting_login "alice" "secret" None read_only_world);
    vm_compute; reflexivity.
Defined.

Lemma do_login_http_error_saves_nothing_witness :
  ok_status (unavailable_login [POST "https://oj.example/api/login"
                                  [("username", "alice"); ("password", "secret");
                                   ("tfa_code", "123456")]]) = false ∧
  ∃ w',
    do_login "https://oj.example" "cookies.json" append_cookies unavailable_login
      "alice" "secret" (Some "123456") empty_world = (w', Raise HTTPError) ∧
    trace w' = [POST "https://oj.example/api/login"
                  [("username", "alice"); ("password", "secret");
                   ("tfa_code", "123456")]] ∧
    disk w' = ∅.
Proof.
  split; [vm_compute; reflexivity|].
  apply (do_login_http_error_saves_nothing "https://oj.example" "cookies.json"
           append_cookies unavailable_login "alice" "secret" (Some "123456")
           empty_world).
  vm_compute; reflexivity.
Defined.

Lemma check_tfa_required_answer_witness :
  ok_status (tfa_wanted [POST "https://oj.example/api/tfa_required"
                           [("username", "alice")]]) = true ∧
  ∃ t' r,
    check_tfa_required "https://oj.example" append_cookies tfa_wanted "alice"
      (terminal_of empty_world) = (t', r) ∧
    r = Done (JBool true) ∧
    errors t' = [] ∧ printed t' = [].
Proof.
  split; [vm_compute; reflexivity|].
  destruct (check_tfa_required_answer "https://oj.example" append_cookies tfa_wanted
              "alice" (terminal_of empty_world))
    as (t' & r & Hrun & _ & _ & Hout & Herr & _); [vm_compute; reflexivity|].
  exists t', r. split; [exact Hrun|].
  split; [|by split].
  vm_compute in Hrun. by injection Hrun as _ <-.
Defined.

(** An unknown user: the answer has an [error] and a message as [data], and
    no code is asked for; a message as [data] without an [error] makes the
    check fail on the message. *)
Example check_tfa_required_on_error_answer :
  (check_tfa_required "https://oj.example" append_cookies tfa_unknown_user "nobody"
     (terminal_of empty_world)).2 = Done (JBool false) ∧
  (check_tfa_required "https://oj.example" append_cookies tfa_message_only "alice"
     (terminal_of empty_world)).2 = Fault (Python AttributeError).
Proof. split; vm_compute; reflexivity. Qed.

Lemma do_logout_removes_cookie_file_witness :
  ok_status (accepting_logout [POST "https://oj.example/api/logout" []]) = true ∧
  may_write (disk logged_in_world) "cookies.json" = true ∧
  ∃ t',
    do_logout "https://oj.example" sample_hostname "cookies.json" append_cookies
      sample_cookies_set accepting_logout (terminal_of logged_in_world)
    = (t', Done tt) ∧
    disk (machine t') = ∅ ∧
    cookies (session (machine t'))
    = [csrf_site;
       {| name := "sessionid"; value := ""; domain := "oj.example"; path := "/" |}] ∧
    printed t' = as_lines ["Logged out successfully."%string].
Proof.
  split; [vm_compute; reflexivity|]. split; [vm_compute; reflexivity|].
  destruct (do_logout_removes_cookie_file "https://oj.example" sample_hostname
              "cookies.json" append_cookies sample_cookies_set accepting_logout
              [csrf_site;
               {| name := "sessionid"; value := ""; domain := "oj.example";
                  path := "/" |}]
              (terminal_of logged_in_world))
    as (t' & Hrun & Hdisk & Hjar & _ & Hout & _);
    [vm_compute; reflexivity..|].
  exists t'. split; [exact Hrun|]. split; [|by split].
  rewrite Hdisk. vm_compute. reflexivity.
Defined.

Lemma do_logout_failure_keeps_cookie_file_witness :
  may_write (disk locked_cookie_world) "cookies.json" = false ∧
  ∃ t',
    do_logout "https://oj.example" sample_hostname "cookies.json" append_cookies
      sample_cookies_set accepting_logout (terminal_of locked_cookie_world)
    = (t', Fault (Python PermissionError)) ∧
    disk (machine t') = disk locked_cookie_world ∧
    trace (machine t') = [POST "https://oj.example/api/logout" []] ∧
    printed t' = [].
Proof.
  split; [vm_compute; reflexivity|].
  destruct (do_logout_failure_keeps_cookie_file "https://oj.example" sample_hostname
              "cookies.json" append_cookies sample_cookies_set accepting_logout
              (terminal_of locked_cookie_world))
    as (t' & Hrun & Hdisk & Htrace & Hout & _); [vm_compute; reflexivity|].
  exists t'. split; [exact Hrun|]. by repeat split.
Defined.

Lemma list_contests_answer_witness :
  ok_status (sample_contests
               [GET "https://oj.example/api/contests?offset=0&limit=100&keyword=&rule_type=ACM&status="])
  = true ∧
  ∃ t',
    list_contests "https://oj.example" append_cookies sample_contests "ACM"
      (terminal_of empty_world) = (t', Done [12; 7]) ∧
    errors t'
    = as_lines ["Available contests:"; "  - 12: Midterm"; "  - 7: Final"]%string ∧
    printed t' = [] ∧
    stdout (machine t') = [].
Proof.
  split; [vm_compute; reflexivity|].
  destruct (list_contests_answer "https://oj.example" append_cookies sample_contests
              "ACM" (terminal_of empty_world))
    as (t' & Hrun & Herr & Hout & Hcsv & _); [vm_compute; reflexivity|].
  exists t'. split; [exact Hrun|]. by repeat split.
Defined.

(** A rule type the judge refuses: the answer has the status 200, an
    [error] and a message as [data]; the list is not printed. *)
Example list_contests_refused :
  list_contests "https://oj.example" append_cookies refusing_contests "XYZ"
    (terminal_of empty_world)
  = (terminal_of
       (set_trace
          [GET "https://oj.example/api/contests?offset=0&limit=100&keyword=&rule_type=XYZ&status="]
          empty_world),
     Fault (Python AttributeError)).
Proof. vm_compute. reflexivity. Qed.

(** ** The program as a whole *)

Lemma digit_not_space (c : ascii) (d : Z) : digit_of c = Some d → is_space c = false.
Proof. destruct c as [[] [] [] [] [] [] [] []]; by vm_compute. Qed.

Lemma all_digits_rstrip (s : string) : all_digits s = true → rstrip s = s.
Proof.
  induction s as [|c s IH]; simpl; [done|].
  destruct (digit_of c) as [d|] eqn:Hc; [|done]. intros Hs.
  rewrite (IH Hs). destruct s; [|done]. by rewrite (digit_not_space c d).
Qed.

Lemma all_digits_parse (s : string) (acc : Z) (after : bool) :
  all_digits s = true → s ≠ ""%string ∨ after = true →
  ∃ n, parse_digits s acc after = Some n.
Proof.
  revert acc after. induction s as [|c s IH]; intros acc after; simpl.
  - intros _ [?| ->]; [done|by eexists].
  - destruct (digit_of c) as [d|] eqn:Hc; [|done]. intros Hs _.
    apply IH; [done|by right].
Qed.

Lemma all_digits_py_int (s : string) :
  negb (String.eqb s "") && all_digits s = true → ∃ n, py_int s = Ok n.
Proof.
  intros [Hne Hs]%andb_prop.
  destruct s as [|c s]; [done|].
  assert (∃ d, digit_of c = Some d) as [d Hc].
  { simpl in Hs. destruct (digit_of c); [by eexists|done]. }
  destruct (all_digits_parse (String c s) 0 false Hs) as [n Hn]; [by left|].
  exists n. unfold py_int.
  assert (lstrip (String c s) = String c s) as ->.
  { simpl. by rewrite (digit_not_space c d). }
  rewrite (all_digits_rstrip _ Hs).
  assert ((match String c s with
           | String "-" r => (true, r)
           | String "+" r => (false, r)
           | _ => (false, String c s)
           end) = (false, String c s)) as ->.
  { clear -Hc. destruct c as [[] [] [] [] [] [] [] []]; try done; by vm_compute in Hc. }
  by rewrite Hn.
Qed.

Section MainTheory.

Variable python : Interpreter.
Variable site : string.
Variable hostname : string → option string.
Variable default_cookie_file : string.
Variable cookiejar_from_dict : json → result (list Cookie).
Variable extract_cookies_to_jar : list Cookie → list Cookie → list Cookie.
Variable cookies_set :
  string → string → option string → string → list Cookie → result (list Cookie).
Variable default_headers : gmap string string.
Variable tfa_api : list request → response (gmap string json).
Variable logout_api : list request → response unit.
Variable contests_api : list request → response (paged Contest).
Variable profile_api : list request → response (option (gmap string json)).
Variable login_api : list request → response (gmap string json).
Variable rank_api : list request → response (paged Entry).

Lemma select_contest_step (cids : list Z) (lines : list string) (t : terminal) :
  select_contest python cids lines t
  = match stdin t with
    | [] => (write_err "Select contest id: " t, Fault EOFError)
    | l :: rest =>
        let t1 := {| machine := machine t; printed := printed t;
                     errors := errors t ++ ["Select contest id: "%string];
                     stdin := rest; keyboard := keyboard t |} in
        if passes_over python cids l
        then match lines with
             | _ :: more => select_contest python cids more t1
             | [] => (t1, Fault EOFError)
             end
        else (t1, selected python (Some l))
    end.
Proof.
  destruct lines as [|x more]; simpl;
    unfold mbind, T_bind, T_then, eprint_piece, input, passes_over; simpl;
    (destruct (stdin t) as [|l rest]; [done|]);
    (destruct (isdigit python l) eqn:Hd; simpl; [|done]);
    unfold run, lift; simpl;
    (destruct (line_int python l) as [n|e]; simpl; [|done]);
    by destruct (bool_decide (n ∈ cids)).
Qed.

Lemma select_contest_run
    (cids : list Z) (skipped rest : list string) (t : terminal) :
  stdin t = skipped ++ rest →
  forallb (passes_over python cids) skipped = true →
  (∀ l, head rest = Some l → passes_over python cids l = false) →
  ∃ t',
    select_contest python cids (skipped ++ rest) t = (t', selected python (head rest)) ∧
    stdin t' = tail rest ∧
    errors t'
    = errors t ++ replicate (S (length skipped)) "Select contest id: "%string ∧
    printed t' = printed t ∧ machine t' = machine t ∧ keyboard t' = keyboard t.
Proof.
  intros Hin Hskip Hacc.
  revert t Hin. induction skipped as [|s skipped IH]; intros t Hin.
  - rewrite select_contest_step, Hin. cbn [app].
    destruct rest as [|l rest']; cbn [head tail].
    + eexists. split; [done|]. by repeat split.
    + rewrite (Hacc l eq_refl). eexists. split; [done|]. by repeat split.
  - simpl in Hskip. apply andb_prop in Hskip as [Hs Hskip].
    rewrite select_contest_step, Hin. cbn [app]. rewrite Hs.
    edestruct (IH Hskip) as (t' & Hrun & Hi & He & Hp & Hm & Hk);
      [|rewrite Hrun]; [done|].
    exists t'. split; [done|]. split; [done|].
    split; [by rewrite He; simpl; rewrite <-app_assoc|done].
Qed.

Lemma selected_listed (cids : list Z) (l : string) (cid : Z) :
  passes_over python cids l = false → selected python (Some l) = Done cid → cid ∈ cids.
Proof.
  unfold passes_over, selected. intros [_ Hacc]%orb_false_elim.
  destruct (line_int python l) as [n|]; [|done]. intros [= <-].
  by apply negb_false_iff, bool_decide_eq_true in Hacc.
Qed.

Lemma passes_over_plain (cids : list Z) (l : string) :
  ascii_text l = true → (String.length l ≤ 640)%nat →
  passes_over python cids l = negb (names_one_of cids l).
Proof.
  intros Hascii Hlen. unfold passes_over, names_one_of, isdigit, line_int.
  rewrite Hascii. apply Nat.leb_le in Hlen. rewrite Hlen. cbn [andb].
  destruct (negb (String.eqb l "") && all_digits l) eqn:Hd; [|done].
  destruct (all_digits_py_int l Hd) as [n ->]. cbn [negb orb andb].
  by destruct (bool_decide (n ∈ cids)).
Qed.

(** X20. The contest loop of [main] reads standard input line by line,
    writing its prompt on standard error before each line, until a line is
    made of digits and the integer it reads as is one of the listed ids:
    that integer is the contest chosen, the lines before it are passed over,
    the lines after it are left unread.  A line of ASCII text (of at most 640
    characters) is passed over unless it is the decimal text of one of the
    ids.  When the input ends before a line is taken, the loop ends with
    [EOFError], and at a line of digits that [int] refuses it ends with the
    exception of [int].  Nothing is written on standard output. *)
Theorem select_contest_reads_until_accepted
    (cids : list Z) (skipped rest : list string) (t : terminal) :
  stdin t = skipped ++ rest →
  forallb (passes_over python cids) skipped = true →
  (∀ l, head rest = Some l → passes_over python cids l = false) →
  ∃ t',
    select_contest python cids (stdin t) t = (t', selected python (head rest)) ∧
    (∀ cid, selected python (head rest) = Done cid → cid ∈ cids) ∧
    (∀ l, ascii_text l = true → (String.length l ≤ 640)%nat →
          passes_over python cids l = negb (names_one_of cids l)) ∧
    stdin t' = tail rest ∧
    errors t'
    = errors t ++ replicate (S (length skipped)) "Select contest id: "%string ∧
    printed t' = printed t ∧ machine t' = machine t ∧ keyboard t' = keyboard t.
Proof.
  intros Hin Hskip Hacc.
  destruct (select_contest_run cids skipped rest t Hin Hskip Hacc)
    as (t' & Hrun & Hrest).
  exists t'. rewrite Hin. split; [done|].
  split; [|split; [apply passes_over_plain|done]].
  intros cid. destruct rest as [|l rest']; [done|].
  by apply selected_listed, Hacc.
Qed.

Let program :=
  main python site hostname default_cookie_file cookiejar_from_dict extract_cookies_to_jar
    cookies_set default_headers tfa_api logout_api contests_api profile_api login_api
    rank_api.

Let profile_request : request := GET (site ++ "/api/profile")%string.

Let logout_request : request := POST (site ++ "/api/logout")%string [].

Let fresh : Session :=
  {| cookies := []; headers := <["Referer"%string := site]> default_headers |}.

Lemma set_csrf_header_some (w : world) :
  named "csrftoken" (cookies (session w)) ≠ [] →
  ∃ c, set_csrf_header site hostname w = (with_csrf_header c w, Ok tt).
Proof.
  intros Hcsrf. unfold set_csrf_header, mbind, M_bind, bind, get_session.
  fold (named "csrftoken" (cookies (session w))).
  destruct (last (named "csrftoken" (cookies (session w)))) as [fallback|] eqn:Hlast;
    [by eexists|by apply last_None in Hlast].
Qed.

Lemma set_csrf_header_none (w : world) :
  named "csrftoken" (cookies (session w)) = [] →
  set_csrf_header site hostname w = (w, Raise RuntimeError).
Proof.
  intros Hcsrf. unfold set_csrf_header, mbind, M_bind, bind, get_session.
  fold (named "csrftoken" (cookies (session w))). by rewrite Hcsrf.
Qed.

(** X21. With [--logout] the saved cookies are not loaded: the session
    that logs out starts from an empty jar and holds only what the answers to
    the profile request and to the logout request set.  When the first of
    them sets a [csrftoken] cookie and the logout goes through, [main] sends
    these two requests, removes the cookie file, prints the farewell line and
    reads nothing from the input. *)
Theorem main_logout_starts_from_empty_jar
    (args : Namespace) (jar : list Cookie) (t : terminal) :
  let profile := profile_api (trace (machine t) ++ [profile_request]) in
  let jar1 := extract_cookies_to_jar [] (set_cookies profile) in
  let answer := logout_api (trace (machine t) ++ [profile_request; logout_request]) in
  let jar2 := extract_cookies_to_jar jar1 (set_cookies answer) in
  args_logout args = true →
  named "csrftoken" jar1 ≠ [] →
  ok_status answer = true →
  cookies_set "sessionid" "" (hostname site) "/" jar2 = Ok jar →
  may_write (disk (machine t)) default_cookie_file = true →
  ∃ t',
    program args t = (t', Done tt) ∧
    trace (machine t') = trace (machine t) ++ [profile_request; logout_request] ∧
    cookies (session (machine t')) = jar ∧
    disk (machine t') = delete default_cookie_file (disk (machine t)) ∧
    printed t' = printed t ++ as_lines ["Logged out successfully."%string] ∧
    stdin t' = stdin t ∧ keyboard t' = keyboard t.
Proof.
  intros profile jar1 answer jar2 Hlogout Hcsrf Hok Hjar Hw.
  unfold program, main. rewrite Hlogout.
  unfold mbind at 1 2 3, T_bind, T_then.
  rewrite (run_eq (put_session _) t _ _ eq_refl).
  fold profile_request.
  rewrite (run_eq (send extract_cookies_to_jar profile_api profile_request)
             (on_machine _ t) _ _ eq_refl).
  match goal with
  | |- context [run (set_csrf_header _ _) (on_machine ?w ?u)] =>
      set (w1 := w); set (t0 := u)
  end.
  assert (cookies (session w1) = jar1) as Hjar1 by done.
  assert (trace w1 = trace (machine t) ++ [profile_request]) as Htr1 by done.
  assert (disk w1 = disk (machine t)) as Hdisk1 by done.
  destruct (set_csrf_header_some w1) as [c Hcsrf1]; [by rewrite Hjar1|].
  rewrite (run_eq (set_csrf_header site hostname) (on_machine w1 t0) _ _ Hcsrf1).
  set (w2 := with_csrf_header c w1).
  rewrite do_logout_run. cbn [machine on_machine].
  assert (trace w2 = trace (machine t) ++ [profile_request]) as -> by done.
  rewrite <-app_assoc. cbn [app]. fold logout_request. fold answer. rewrite Hok.
  cbn [cookies session set_session set_trace disk headers].
  change (cookies (session w2)) with jar1. fold jar2. rewrite Hjar.
  change (disk w2) with (disk (machine t)). rewrite Hw.
  eexists. split; [done|]. by repeat split.
Qed.

Lemma load_cookies_frame (w : world) :
  ∃ w' b,
    load_cookies cookiejar_from_dict default_cookie_file w = (w', Ok b) ∧
    trace w' = trace w ∧ disk w' = disk w ∧ stdout w' = stdout w ∧
    headers (session w') = headers (session w).
Proof.
  rewrite load_cookies_run.
  destruct (disk w !! default_cookie_file) as [[m [raw|v]]|];
    [by eexists _, _| |by eexists _, _].
  destruct (owner_may_read _); [|by eexists _, _].
  destruct (cookiejar_from_dict v); by eexists _, _.
Qed.

(** X22. In either mode, when the session has no [csrftoken] cookie after
    the profile request (the saved cookies, in the mode that loads them, and
    the answer bring none), [main] stops with [RuntimeError]: that one
    request has been sent, nothing has been asked or printed, and the disk is
    as it was. *)
Theorem main_needs_csrftoken (args : Namespace) (t : terminal) :
  let w0 := set_session fresh (machine t) in
  let jar0 :=
    if args_logout args then []
    else cookies (session (load_cookies cookiejar_from_dict default_cookie_file w0).1) in
  let profile := profile_api (trace (machine t) ++ [profile_request]) in
  named "csrftoken" (extract_cookies_to_jar jar0 (set_cookies profile)) = [] →
  ∃ t',
    program args t = (t', Fault (Python RuntimeError)) ∧
    trace (machine t') = trace (machine t) ++ [profile_request] ∧
    disk (machine t') = disk (machine t) ∧
    stdout (machine t') = stdout (machine t) ∧
    printed t' = printed t ∧ errors t' = errors t ∧
    stdin t' = stdin t ∧ keyboard t' = keyboard t.
Proof.
  intros w0 jar0 profile Hnone.
  unfold program, main. unfold mbind, T_bind, T_then.
  rewrite (run_eq (put_session _) t _ _ eq_refl). fold fresh. fold w0.
  fold profile_request.
  destruct (args_logout args).
  - rewrite (run_eq (send extract_cookies_to_jar profile_api profile_request)
               (on_machine w0 t) _ _ eq_refl).
    match goal with
    | |- context [run (set_csrf_header _ _) (on_machine ?w ?u)] =>
        set (w1 := w); set (t0 := u)
    end.
    rewrite (run_eq (set_csrf_header site hostname) (on_machine w1 t0) _ _
               (set_csrf_header_none w1 Hnone)).
    eexists. split; [done|]. by repeat split.
  - destruct (load_cookies_frame w0) as (w' & b & Hload & Htr & Hdisk & Hout & Hh).
    rewrite (run_eq (load_cookies cookiejar_from_dict default_cookie_file)
               (on_machine w0 t) _ _ Hload).
    subst jar0. rewrite Hload in Hnone. cbn [fst] in Hnone.
    rewrite (run_eq (send extract_cookies_to_jar profile_api profile_request)
               (on_machine w' _) _ _ eq_refl).
    cbn [machine on_machine]. rewrite Htr.
    match goal with
    | |- context [run (set_csrf_header _ _) (on_machine ?w ?u)] =>
        set (w1 := w); set (t0 := u)
    end.
    rewrite (run_eq (set_csrf_header site hostname) (on_machine w1 t0) _ _
               (set_csrf_header_none w1 Hnone)).
    eexists. split; [done|]. by repeat split.
Qed.

(** What [main] does once the profile answer [resp] is there and the CSRF
    header is set. *)
Let after_profile (args : Namespace) (resp : response (option (gmap string json)))
  : T unit :=
  rst ← (if ok resp
         then match body resp with
              | Some envelope => mret envelope
              | None => throw (Python JSONDecodeError)
              end
         else mret ∅);
  logged_in ←
    (if negb (is_None (rst !! "error"%string) && negb (is_None (rst !! "data"%string)))
     then
       '(u, p) ← prompt_credentials;
       tc ← check_tfa_required site extract_cookies_to_jar tfa_api u;
       code ← (if truthy tc
               then c ← (λ t, ask_tfa_code python (stdin t) t); mret (Some c)
               else mret None);
       success ← run (do_login site default_cookie_file extract_cookies_to_jar
                        login_api u p code);
       if success : bool
       then print "Login successful.";; mret true
       else print "Login failed";; mret false
     else mret true);
  if logged_in : bool then
    match args_mode args with
    | Some m =>
        if String.eqb m "" then print "Authenticated successfully."
        else
          cids ← list_contests site extract_cookies_to_jar contests_api m;
          match cids with
          | [] => print "No contests"
          | _ =>
              cid ← (λ t, select_contest python cids (stdin t) t);
              ranks ← run (fetch_all_ranks site extract_cookies_to_jar rank_api cid);
              if String.eqb (upper m) "OI"
              then run (results_to_csv_oi (map as_oi ranks))
              else run (results_to_csv_acm (map as_acm ranks))
          end
    | None => print "Authenticated successfully."
    end
  else mret tt.

(** The session once the profile request is answered, in the mode that
    loads the saved cookies. *)
Let profile_of (t : terminal) : response (option (gmap string json)) :=
  profile_api (trace (machine t) ++ [profile_request]).

Let loaded (t : terminal) : world :=
  (load_cookies cookiejar_from_dict default_cookie_file
     (set_session fresh (machine t))).1.

Let asked (t : terminal) : world :=
  set_session {| cookies := extract_cookies_to_jar (cookies (session (loaded t)))
                              (set_cookies (profile_of t));
                 headers := headers fresh |}
              (set_trace (trace (machine t) ++ [profile_request]) (loaded t)).

Lemma loaded_frame (t : terminal) :
  trace (loaded t) = trace (machine t) ∧ disk (loaded t) = disk (machine t) ∧
  stdout (loaded t) = stdout (machine t) ∧
  headers (session (loaded t)) = headers fresh.
Proof.
  unfold loaded.
  destruct (load_cookies_frame (set_session fresh (machine t)))
    as (w' & b & -> & Htr & Hdisk & Hout & Hh).
  cbn [fst]. by rewrite Htr, Hdisk, Hout, Hh.
Qed.

Lemma main_login_mode (args : Namespace) (t : terminal) (c : Cookie) :
  args_logout args = false →
  set_csrf_header site hostname (asked t) = (with_csrf_header c (asked t), Ok tt) →
  program args t
  = after_profile args (profile_of t) (on_machine (with_csrf_header c (asked t)) t).
Proof.
  intros Hlogout Hcsrf.
  unfold program, main. unfold mbind at 1 4 5 6, T_bind, T_then.
  rewrite (run_eq (put_session _) t _ _ eq_refl). fold fresh. fold profile_request.
  rewrite Hlogout.
  destruct (load_cookies_frame (set_session fresh (machine t)))
    as (w' & b & Hload & Htr & Hdisk & Hout & Hh).
  rewrite (run_eq (load_cookies cookiejar_from_dict default_cookie_file)
             (on_machine (set_session fresh (machine t)) t) _ _ Hload).
  assert (loaded t = w') as Hw' by (unfold loaded; by rewrite Hload).
  rewrite (run_eq (send extract_cookies_to_jar profile_api profile_request)
             (on_machine w' _) _ _ eq_refl).
  cbn [machine on_machine].
  assert (set_session
            {| cookies := extract_cookies_to_jar (cookies (session w'))
                            (set_cookies (profile_api (trace w' ++ [profile_request])));
               headers := headers (session w') |}
            (set_trace (trace w' ++ [profile_request]) w') = asked t) as ->.
  { unfold asked, profile_of. rewrite Hw', Htr, Hh. done. }
  rewrite (run_eq (set_csrf_header site hostname) (on_machine (asked t) _) _ _ Hcsrf).
  rewrite Htr. reflexivity.
Qed.

Lemma authenticated_inv (resp : response (option (gmap string json))) :
  authenticated resp = true →
  ok resp = true ∧
  ∃ envelope, body resp = Some envelope ∧
    negb (is_None (envelope !! "error"%string)
          && negb (is_None (envelope !! "data"%string))) = false.
Proof.
  unfold authenticated. intros [Hok Hbody]%andb_prop. split; [done|].
  destruct (body resp) as [envelope|]; [|done].
  exists envelope. split; [done|]. by rewrite Hbody.
Qed.

(** X23. A saved session that the judge still accepts is used as it is:
    when the profile request, sent with the saved cookies loaded, is answered
    without an [error] and with [data], and no mode is given, [main] asks for
    no credentials, sends no other request, writes nothing to disk and prints
    that the user is authenticated. *)
Theorem main_keeps_valid_session (args : Namespace) (t : terminal) :
  args_logout args = false →
  default ""%string (args_mode args) = ""%string →
  named "csrftoken" (cookies (session (asked t))) ≠ [] →
  authenticated (profile_of t) = true →
  ∃ t',
    program args t = (t', Done tt) ∧
    trace (machine t') = trace (machine t) ++ [profile_request] ∧
    cookies (session (machine t')) = cookies (session (asked t)) ∧
    disk (machine t') = disk (machine t) ∧
    printed t' = printed t ++ as_lines ["Authenticated successfully."%string] ∧
    errors t' = errors t ∧ stdin t' = stdin t ∧ keyboard t' = keyboard t.
Proof.
  intros Hlogout Hmode Hcsrf (Hok & envelope & Hbody & Hauth)%authenticated_inv.
  destruct (set_csrf_header_some (asked t) Hcsrf) as [c Hc].
  rewrite (main_login_mode args t c Hlogout Hc).
  destruct (loaded_frame t) as (Htr & Hdisk & _).
  unfold after_profile, mbind, T_bind, T_then. rewrite Hok, Hbody.
  unfold mret at 1, T_ret, T_unit. rewrite Hauth.
  unfold mret at 1, T_ret, T_unit.
  assert (∀ u, (match args_mode args with
                | Some m =>
                    if String.eqb m "" then print "Authenticated successfully."
                    else u m
                | None => print "Authenticated successfully."
                end) = print "Authenticated successfully.") as Hprint.
  { intros u. destruct (args_mode args) as [m|]; [|done].
    simpl in Hmode. by rewrite Hmode. }
  rewrite Hprint. unfold print. eexists. split; [done|].
  by repeat split.
Qed.

Let tfa_request (username : string) : request :=
  POST (site ++ "/api/tfa_required")%string [("username"%string, username)].

Let login_request (user password : string) (tfa_code : option string) : request :=
  POST (site ++ "/api/login")%string
       ([("username"%string, user); ("password"%string, password)] ++
        match tfa_code with
        | Some code => if String.eqb code "" then [] else [("tfa_code"%string, code)]
        | None => []
        end).

(** The world once [req] has been sent and answered by [api]. *)
Let sent {B} (api : list request → response B) (req : request) (w : world) : world :=
  set_session {| cookies := extract_cookies_to_jar (cookies (session w))
                              (set_cookies (api (trace w ++ [req])));
                 headers := headers (session w) |}
              (set_trace (trace w ++ [req]) w).

Lemma check_tfa_required_run (username : string) (t : terminal) :
  let answer := tfa_api (trace (machine t) ++ [tfa_request username]) in
  ok_status answer = true →
  check_tfa_required site extract_cookies_to_jar tfa_api username t
  = (on_machine (sent tfa_api (tfa_request username) (machine t)) t,
     tfa_result answer).
Proof.
  intros answer Hok.
  unfold check_tfa_required, mbind, T_bind, T_then. fold (tfa_request username).
  rewrite (run_eq (send extract_cookies_to_jar tfa_api (tfa_request username))
             t _ (Ok answer) eq_refl).
  rewrite (run_eq (raise_for_status answer) (on_machine _ t) _ _
             (raise_for_status_ok _ _ Hok)).
  unfold tfa_result.
  destruct (is_None (body answer !! "error"%string)); [|done].
  by destruct (default (JObj []) (body answer !! "data"%string)).
Qed.

Lemma do_login_rejected_run (user password : string) (tfa_code : option string)
    (w : world) :
  let answer := login_api (trace w ++ [login_request user password tfa_code]) in
  ok_status answer = true →
  is_None (body answer !! "error"%string)
  && py_eq_str (body answer !! "data"%string) "Succeeded" = false →
  do_login site default_cookie_file extract_cookies_to_jar login_api
    user password tfa_code w
  = (sent login_api (login_request user password tfa_code) w, Ok false).
Proof.
  intros answer Hok Hrejected.
  unfold do_login, mbind, M_bind, bind, send.
  fold (login_request user password tfa_code). fold answer.
  rewrite raise_for_status_ok by done. by rewrite Hrejected.
Qed.

Lemma do_login_accepted_run (user password : string) (tfa_code : option string)
    (w : world) :
  let answer := login_api (trace w ++ [login_request user password tfa_code]) in
  let w1 := sent login_api (login_request user password tfa_code) w in
  ok_status answer = true →
  is_None (body answer !! "error"%string)
  && py_eq_str (body answer !! "data"%string) "Succeeded" = true →
  may_write (disk w) default_cookie_file = true →
  do_login site default_cookie_file extract_cookies_to_jar login_api
    user password tfa_code w
  = (set_disk (<[default_cookie_file := saved_cookie_file (cookies (session w1))]>
                 (disk w)) w1, Ok true).
Proof.
  intros answer w1 Hok Haccepted Hw.
  unfold do_login, mbind, M_bind, bind, send.
  fold (login_request user password tfa_code). fold answer.
  rewrite raise_for_status_ok by done. rewrite Haccepted. cbv iota beta.
  change (save_cookies default_cookie_file (set_session _ _))
    with (save_cookies default_cookie_file w1).
  by rewrite (save_cookies_run default_cookie_file w1 Hw).
Qed.

Lemma not_authenticated_inv (resp : response (option (gmap string json))) :
  authenticated resp = false → readable resp = true →
  ∃ rst,
    (if ok resp
     then match body resp with
          | Some envelope => mret envelope
          | None => throw (Python JSONDecodeError)
          end
     else mret ∅) = (mret rst : T (gmap string json)) ∧
    negb (is_None (rst !! "error"%string) && negb (is_None (rst !! "data"%string)))
    = true.
Proof.
  unfold authenticated, readable. destruct (ok resp); simpl.
  - destruct (body resp) as [envelope|]; [|done].
    intros Hno _. exists envelope. split; [done|]. by rewrite Hno.
  - intros _ _. exists ∅. split; [done|]. by rewrite lookup_empty.
Qed.

Lemma prompt_credentials_run (u p : string) (lines keys : list string) (t : terminal) :
  stdin t = u :: lines → keyboard t = p :: keys →
  prompt_credentials t
  = ({| machine := machine t; printed := printed t ++ ["Username: "%string];
        errors := errors t; stdin := lines; keyboard := keys |}, Done (u, p)).
Proof.
  intros Hin Hkey.
  unfold prompt_credentials, mbind, T_bind, T_then, input, getpass, write_out.
  cbn [stdin keyboard machine printed errors]. rewrite Hin.
  cbn [stdin keyboard machine printed errors]. by rewrite Hkey.
Qed.

(** X24. When the saved session is not accepted, the two-factor check
    answers that no code is wanted and the login is rejected, [main] reads the
    user name from standard input and the password from the terminal device,
    sends the two-factor check and the login, prints [Login failed] and stops:
    whatever mode was asked for, no contest is listed and nothing is written
    to disk. *)
Theorem main_stops_after_failed_login
    (args : Namespace) (u p : string) (lines keys : list string) (wanted : json)
    (t : terminal) :
  let requests :=
    [profile_request; tfa_request u; login_request u p None] in
  let checked := tfa_api (trace (machine t) ++ take 2 requests) in
  let answer := login_api (trace (machine t) ++ requests) in
  args_logout args = false →
  named "csrftoken" (cookies (session (asked t))) ≠ [] →
  authenticated (profile_of t) = false →
  readable (profile_of t) = true →
  stdin t = u :: lines →
  keyboard t = p :: keys →
  ok_status checked = true →
  tfa_result checked = Done wanted →
  truthy wanted = false →
  ok_status answer = true →
  is_None (body answer !! "error"%string)
  && py_eq_str (body answer !! "data"%string) "Succeeded" = false →
  ∃ t',
    program args t = (t', Done tt) ∧
    trace (machine t') = trace (machine t) ++ requests ∧
    disk (machine t') = disk (machine t) ∧
    stdout (machine t') = stdout (machine t) ∧
    printed t' = printed t ++ "Username: "%string :: as_lines ["Login failed"%string] ∧
    errors t' = errors t ∧ stdin t' = lines ∧ keyboard t' = keys.
Proof.
  intros requests checked answer Hlogout Hcsrf Hauth Hread Hin Hkey
    Hchecked Hresult Hwanted Hok Hrejected.
  destruct (set_csrf_header_some (asked t) Hcsrf) as [c Hc].
  rewrite (main_login_mode args t c Hlogout Hc).
  destruct (loaded_frame t) as (Htr & Hdisk & Hout & _).
  destruct (not_authenticated_inv _ Hauth Hread) as (rst & Hrst & Hneed).
  unfold after_profile. rewrite Hrst.
  unfold mbind at 1 2, T_bind, T_then.
  unfold mret at 1, T_ret, T_unit. rewrite Hneed.
  unfold mbind at 1 2, T_bind, T_then.
  rewrite (prompt_credentials_run u p lines keys (on_machine _ t) Hin Hkey).
  match goal with
  | |- context [check_tfa_required _ _ _ _ ?u0] => set (t1 := u0)
  end.
  assert (trace (machine t1) = trace (machine t) ++ [profile_request]) as Htr1
    by done.
  rewrite check_tfa_required_run;
    [|by rewrite Htr1, <-app_assoc].
  rewrite Htr1, <-app_assoc. cbn [app].
  change (tfa_api (trace (machine t) ++ [profile_request; tfa_request u]))
    with checked.
  rewrite Hresult.
  unfold mbind at 1 2, T_bind, T_then. rewrite Hwanted.
  unfold mret at 1, T_ret, T_unit.
  match goal with
  | |- context [run (do_login _ _ _ _ _ _ _) (on_machine ?w0 _)] => set (w2 := w0)
  end.
  assert (trace w2 = trace (machine t) ++ [profile_request; tfa_request u]) as Htr2
    by (cbn; by rewrite <-app_assoc).
  rewrite (run_eq (do_login site default_cookie_file extract_cookies_to_jar login_api
                     u p None) (on_machine w2 t1) _ _
             (do_login_rejected_run u p None w2
                ltac:(by rewrite Htr2, <-app_assoc)
                ltac:(by rewrite Htr2, <-app_assoc))).
  unfold mbind, T_bind, T_then, print. eexists. split; [done|].
  cbn [machine printed errors stdin keyboard write_out on_machine trace disk stdout
       sent set_session set_trace].
  split; [by rewrite Htr2, <-app_assoc|].
  split; [exact Hdisk|]. split; [exact Hout|].
  split; [by subst t1; cbn; rewrite <-app_assoc|done].
Qed.

Lemma ask_tfa_code_step (lines : list string) (t : terminal) :
  ask_tfa_code python lines t
  = match stdin t with
    | [] => (write_out "2FA code: " t, Fault EOFError)
    | l :: rest =>
        let t1 := {| machine := machine t;
                     printed := printed t ++ ["2FA code: "%string];
                     errors := errors t; stdin := rest; keyboard := keyboard t |} in
        if fullmatch_six_digits python l then (t1, Done l)
        else match lines with
             | _ :: more => ask_tfa_code python more t1
             | [] => (t1, Fault EOFError)
             end
    end.
Proof.
  destruct lines as [|x more]; simpl;
    unfold mbind, T_bind, T_then, input; simpl;
    (destruct (stdin t) as [|l rest]; [done|]);
    by destruct (fullmatch_six_digits python l).
Qed.

Lemma ask_tfa_code_run (skipped rest : list string) (t : terminal) :
  stdin t = skipped ++ rest →
  forallb (λ l, negb (fullmatch_six_digits python l)) skipped = true →
  (∀ l, head rest = Some l → fullmatch_six_digits python l = true) →
  ask_tfa_code python (skipped ++ rest) t
  = ({| machine := machine t;
        printed := printed t ++ replicate (S (length skipped)) "2FA code: "%string;
        errors := errors t; stdin := tail rest; keyboard := keyboard t |},
     entered (head rest)).
Proof.
  intros Hin Hskip Hacc.
  revert t Hin. induction skipped as [|s skipped IH]; intros t Hin.
  - rewrite ask_tfa_code_step, Hin. cbn [app].
    destruct rest as [|l rest']; cbn [head tail].
    + unfold write_out. by rewrite Hin.
    + by rewrite (Hacc l eq_refl).
  - simpl in Hskip. apply andb_prop in Hskip as [Hs Hskip].
    apply negb_true_iff in Hs.
    rewrite ask_tfa_code_step, Hin. cbn [app]. rewrite Hs.
    cbv zeta. rewrite (IH Hskip) by done.
    cbn [machine printed errors stdin keyboard length replicate].
    by rewrite <-app_assoc.
Qed.

(** X25. The two-factor loop of [main] writes its prompt on standard
    output and reads a line of standard input, again and again, until a line
    is made of exactly six decimal digits: that line is the code, the lines
    before it are passed over and the lines after it are left unread; when
    the input ends before such a line, the loop ends with [EOFError].  Of
    lines of ASCII text the ones of six characters from 0 to 9 are taken, and
    no other. *)
Theorem ask_tfa_code_reads_until_six_digits
    (skipped rest : list string) (t : terminal) :
  stdin t = skipped ++ rest →
  forallb (λ l, negb (fullmatch_six_digits python l)) skipped = true →
  (∀ l, head rest = Some l → fullmatch_six_digits python l = true) →
  ∃ t',
    ask_tfa_code python (stdin t) t = (t', entered (head rest)) ∧
    (∀ l, ascii_text l = true →
          fullmatch_six_digits python l = (String.length l =? 6)%nat && all_digits l) ∧
    stdin t' = tail rest ∧
    printed t' = printed t ++ replicate (S (length skipped)) "2FA code: "%string ∧
    errors t' = errors t ∧ machine t' = machine t ∧ keyboard t' = keyboard t.
Proof.
  intros Hin Hskip Hacc. rewrite Hin.
  rewrite (ask_tfa_code_run skipped rest t Hin Hskip Hacc).
  eexists. split; [done|].
  split; [by intros l Hl; unfold fullmatch_six_digits; rewrite Hl|].
  by repeat split.
Qed.

Lemma six_digits_not_empty (code : string) :
  fullmatch_six_digits python code = true → String.eqb code "" = false.
Proof. by destruct code. Qed.

(** X26. A login with two-factor authentication: when the saved session is
    not accepted and the two-factor check answers that a code is wanted,
    [main] reads the user name, the password and, skipping every line that is
    not six digits, the code; the code goes into the login request as
    [tfa_code]; and when the login is accepted the cookies are saved with mode
    0600 and, no mode being given, [Login successful.] and [Authenticated
    successfully.] are printed after the prompts. *)
Theorem main_two_factor_login
    (args : Namespace) (u p code : string) (skipped lines keys : list string)
    (fields : list (string * json)) (wanted : json) (t : terminal) :
  let requests :=
    [profile_request; tfa_request u;
     POST (site ++ "/api/login")%string
          [("username"%string, u); ("password"%string, p); ("tfa_code"%string, code)]] in
  let checked := tfa_api (trace (machine t) ++ take 2 requests) in
  let answer := login_api (trace (machine t) ++ requests) in
  args_logout args = false →
  default ""%string (args_mode args) = ""%string →
  named "csrftoken" (cookies (session (asked t))) ≠ [] →
  authenticated (profile_of t) = false →
  readable (profile_of t) = true →
  stdin t = u :: skipped ++ code :: lines →
  keyboard t = p :: keys →
  forallb (λ l, negb (fullmatch_six_digits python l)) skipped = true →
  fullmatch_six_digits python code = true →
  ok_status checked = true →
  is_None (body checked !! "error"%string) = true →
  body checked !! "data"%string = Some (JObj fields) →
  dict_get "result" fields = Some wanted →
  truthy wanted = true →
  ok_status answer = true →
  is_None (body answer !! "error"%string)
  && py_eq_str (body answer !! "data"%string) "Succeeded" = true →
  may_write (disk (machine t)) default_cookie_file = true →
  ∃ t',
    program args t = (t', Done tt) ∧
    trace (machine t') = trace (machine t) ++ requests ∧
    disk (machine t')
    = <[default_cookie_file := saved_cookie_file (cookies (session (machine t')))]>
        (disk (machine t)) ∧
    printed t'
    = printed t ++ "Username: "%string
        :: replicate (S (length skipped)) "2FA code: "%string
        ++ as_lines ["Login successful."; "Authenticated successfully."]%string ∧
    errors t' = errors t ∧ stdin t' = lines ∧ keyboard t' = keys.
Proof.
  intros requests checked answer Hlogout Hmode Hcsrf Hauth Hread Hin Hkey Hskip Hcode
    Hchecked Herror Hdata Hresult Hwanted Hok Haccepted Hw.
  destruct (set_csrf_header_some (asked t) Hcsrf) as [c Hc].
  rewrite (main_login_mode args t c Hlogout Hc).
  destruct (loaded_frame t) as (Htr & Hdisk & Hout & _).
  destruct (not_authenticated_inv _ Hauth Hread) as (rst & Hrst & Hneed).
  unfold after_profile. rewrite Hrst.
  unfold mbind at 1 2, T_bind, T_then.
  unfold mret at 1, T_ret, T_unit. rewrite Hneed.
  unfold mbind at 1 2, T_bind, T_then.
  rewrite (prompt_credentials_run u p (skipped ++ code :: lines) keys
             (on_machine _ t) Hin Hkey).
  match goal with
  | |- context [check_tfa_required _ _ _ _ ?u0] => set (t1 := u0)
  end.
  assert (trace (machine t1) = trace (machine t) ++ [profile_request]) as Htr1
    by done.
  rewrite check_tfa_required_run;
    [|by rewrite Htr1, <-app_assoc].
  rewrite Htr1, <-app_assoc. cbn [app].
  change (tfa_api (trace (machine t) ++ [profile_request; tfa_request u]))
    with checked.
  unfold tfa_result.
  rewrite Herror, Hdata. cbn [from_option id]. rewrite Hresult. cbn [from_option id].
  unfold mbind at 1 2 3, T_bind, T_then. rewrite Hwanted.
  unfold mbind at 1, T_bind, T_then. cbv beta.
  match goal with
  | |- context [ask_tfa_code python (stdin ?u0) ?u0] => set (t2 := u0)
  end.
  assert (stdin t2 = skipped ++ code :: lines) as Hin2 by done.
  rewrite Hin2.
  rewrite (ask_tfa_code_run skipped (code :: lines) t2 Hin2 Hskip)
    by (by intros l [= <-]).
  cbn [head tail entered]. unfold mret at 1, T_ret, T_unit.
  match goal with
  | |- context [run (do_login _ _ _ _ _ _ _) ?u0] => set (t3 := u0)
  end.
  assert (trace (machine t3)
          = trace (machine t) ++ [profile_request; tfa_request u]) as Htr3
    by (cbn; by rewrite <-app_assoc).
  assert (login_request u p (Some code)
          = POST (site ++ "/api/login")%string
              [("username"%string, u); ("password"%string, p);
               ("tfa_code"%string, code)]) as Hreq.
  { unfold login_request. by rewrite (six_digits_not_empty code Hcode). }
  rewrite (run_eq (do_login site default_cookie_file extract_cookies_to_jar login_api
                     u p (Some code)) t3 _ _
             (do_login_accepted_run u p (Some code) (machine t3)
                ltac:(by rewrite Htr3, <-app_assoc, Hreq)
                ltac:(by rewrite Htr3, <-app_assoc, Hreq)
                ltac:(by cbn; rewrite Hdisk))).
  unfold mbind at 1 2, T_bind, T_then, print at 1. unfold mret at 1, T_ret, T_unit.
  assert (∀ k, (match args_mode args with
                | Some m =>
                    if String.eqb m "" then print "Authenticated successfully."
                    else k m
                | None => print "Authenticated successfully."
                end) = print "Authenticated successfully.") as Hprint.
  { intros k. destruct (args_mode args) as [m|]; [|done].
    simpl in Hmode. by rewrite Hmode. }
  rewrite Hprint. unfold print. eexists. split; [done|].
  cbn [machine printed errors stdin keyboard write_out on_machine trace disk stdout
       sent set_session set_trace set_disk session cookies].
  split; [by rewrite Htr3, Hreq, <-app_assoc|].
  split; [by rewrite <-Hdisk|].
  split; [|done].
  subst t3 t2 t1. cbn. by rewrite <-!app_assoc.
Qed.

Lemma results_to_csv_acm_from_empty (results : list (RankEntry attempt)) (w : world) :
  results_to_csv_acm results w
  = (set_stdout (stdout w ++ stdout (results_to_csv_acm results empty_world).1) w,
     (results_to_csv_acm results empty_world).2).
Proof.
  rewrite !results_to_csv_acm_run. destruct (qids results) as [qs|e]; simpl; [done|].
  by rewrite app_nil_r, set_stdout_id.
Qed.

Lemma results_to_csv_oi_from_empty (results : list (RankEntry Z)) (w : world) :
  results_to_csv_oi results w
  = (set_stdout (stdout w ++ stdout (results_to_csv_oi results empty_world).1) w,
     (results_to_csv_oi results empty_world).2).
Proof.
  rewrite !results_to_csv_oi_run. destruct (qids results) as [qs|e]; simpl; [done|].
  by rewrite app_nil_r, set_stdout_id.
Qed.

Let contests_request (rule_type : string) : request :=
  GET (site ++ "/api/contests?offset=0&limit=100&keyword=&rule_type="
            ++ rule_type ++ "&status=")%string.

(** X27. The whole of a scoring run with a saved session the judge
    accepts: [main] lists the contests of the mode given, reads standard
    input until a line names one of them, fetches all pages of that contest's
    ranking, and writes the table of the OI scorer exactly when the mode in
    upper case is [OI], and of the ACM scorer for any other mode.  The table
    is all that reaches standard output; the contest list and the prompts go
    to standard error; the disk is not touched.  The answers to the contest
    list and to the rank requests are taken to bring pages. *)
Theorem main_scores_by_mode
    (args : Namespace) (m line : string) (skipped lines : list string) (cid : Z)
    (t : terminal) :
  let history := trace (machine t) ++ [profile_request; contests_request m] in
  let listed := contests_api history in
  let cids := map id_ (entries_of listed) in
  let first := rank_api (history ++ [GET (rank_url site 0 cid)]) in
  let total := default (Z.of_nat (length (entries_of first))) (total_of first) in
  let rank_requests :=
    map (λ o, GET (rank_url site o cid)) (0 :: py_range PAGE_LIMIT total PAGE_LIMIT) in
  let pages := replies rank_api history rank_requests in
  let ranks := concat (map entries_of pages) in
  let scorer :=
    if String.eqb (upper m) "OI"
    then results_to_csv_oi (map as_oi ranks)
    else results_to_csv_acm (map as_acm ranks) in
  args_logout args = false →
  args_mode args = Some m →
  String.eqb m "" = false →
  named "csrftoken" (cookies (session (asked t))) ≠ [] →
  authenticated (profile_of t) = true →
  is_page listed = true →
  stdin t = skipped ++ line :: lines →
  forallb (passes_over python cids) skipped = true →
  passes_over python cids line = false →
  line_int python line = Ok cid →
  forallb is_page pages = true →
  ∃ t',
    program args t
    = (t', match (scorer empty_world).2 with
           | Ok _ => Done tt
           | Raise e => Fault (Python e)
           end) ∧
    stdout (machine t') = stdout (machine t) ++ stdout (scorer empty_world).1 ∧
    printed t' = printed t ∧
    errors t'
    = errors t
      ++ as_lines ("Available contests:"%string
                     :: map contest_line (entries_of listed))
      ++ replicate (S (length skipped)) "Select contest id: "%string ∧
    trace (machine t') = history ++ rank_requests ∧
    stdin t' = lines ∧ keyboard t' = keyboard t ∧
    disk (machine t') = disk (machine t).
Proof.
  intros history listed cids first total rank_requests pages ranks scorer
    Hlogout Hmode Hm Hcsrf (Hok & envelope & Hbody & Hauth)%authenticated_inv
    Hlisted Hin Hskip Hline Hcid Hpages.
  destruct (set_csrf_header_some (asked t) Hcsrf) as [c Hc].
  rewrite (main_login_mode args t c Hlogout Hc).
  destruct (loaded_frame t) as (Htr & Hdisk & Hout & _).
  unfold after_profile. unfold mbind at 1 2, T_bind, T_then. rewrite Hok, Hbody.
  unfold mret at 1, T_ret, T_unit. rewrite Hauth.
  unfold mret at 1, T_ret, T_unit. rewrite Hmode, Hm.
  unfold mbind at 1, T_bind, T_then.
  set (t1 := on_machine (with_csrf_header c (asked t)) t).
  assert (trace (machine t1) ++ [contests_request m] = history) as Hhistory.
  { subst history. cbn. by rewrite <-app_assoc. }
  pose proof Hlisted as [Hlisted_ok _]%andb_prop.
  rewrite list_contests_run; fold (contests_request m); rewrite Hhistory;
    [|exact Hlisted_ok].
  fold listed. rewrite Hlisted. fold cids.
  assert (cid ∈ cids) as Hlistedcid.
  { apply (selected_listed cids line); [done|]. unfold selected. by rewrite Hcid. }
  assert (∀ (A : Type) (x y : A),
            match cids with [] => x | _ :: _ => y end = y) as Hsome.
  { intros A x y. destruct cids; [by apply elem_of_nil in Hlistedcid|done]. }
  rewrite Hsome.
  unfold mbind at 1, T_bind, T_then. cbv beta.
  match goal with
  | |- context [select_contest python cids (stdin ?u0) ?u0] => set (t2 := u0)
  end.
  assert (stdin t2 = skipped ++ line :: lines) as Hin2 by done.
  rewrite Hin2.
  destruct (select_contest_run cids skipped (line :: lines) t2 Hin2 Hskip)
    as (t3 & Hselect & Hin3 & Herr3 & Hprinted3 & Hmachine3 & Hkey3);
    [by intros l [= <-]|].
  rewrite Hselect. cbn [head selected]. rewrite Hcid.
  unfold mbind at 1, T_bind, T_then.
  assert (trace (machine t3) = history) as Htr3.
  { rewrite Hmachine3. done. }
  destruct (fetch_all_ranks_run site extract_cookies_to_jar rank_api cid (machine t3))
    as (w4 & Hfetch & Htr4).
  { rewrite Htr3. exact Hpages. }
  rewrite Htr3 in Hfetch, Htr4. fold first in Hfetch, Htr4.
  fold total in Hfetch, Htr4.
  pose proof (fetch_all_ranks_frame site extract_cookies_to_jar rank_api cid (machine t3))
    as (Hdisk4 & Hout4 & _). rewrite Hfetch in Hdisk4, Hout4. cbn [fst] in Hdisk4, Hout4.
  rewrite (run_eq _ t3 _ _ Hfetch).
  change (concat (map entries_of
                    (replies rank_api history
                       (map (λ offset, GET (rank_url site offset cid))
                            (0 :: py_range PAGE_LIMIT total PAGE_LIMIT)))))
    with ranks.
  assert (∀ r : result unit,
            match r with
            | Ok a => Done a
            | Raise e => Fault (Python e)
            end
            = match r with
              | Ok _ => Done tt
              | Raise e => Fault (Python e)
              end) as Hunit by (by intros [[]|]).
  assert (stdout w4 = stdout (machine t)) as Hout'.
  { rewrite Hout4, Hmachine3. exact Hout. }
  assert (disk w4 = disk (machine t)) as Hdisk'.
  { rewrite Hdisk4, Hmachine3. exact Hdisk. }
  subst scorer. destruct (String.eqb (upper m) "OI").
  - rewrite (run_eq _ (on_machine w4 t3) _ _ (results_to_csv_oi_from_empty _ w4)).
    eexists. split; [by rewrite Hunit|].
    cbn [machine printed errors stdin keyboard on_machine stdout set_stdout trace disk].
    rewrite Hout', Hprinted3, Herr3, Hin3, Hkey3, Hdisk'.
    split; [done|]. split; [done|].
    split; [by subst t2; cbn; rewrite <-app_assoc|].
    by split.
  - rewrite (run_eq _ (on_machine w4 t3) _ _ (results_to_csv_acm_from_empty _ w4)).
    eexists. split; [by rewrite Hunit|].
    cbn [machine printed errors stdin keyboard on_machine stdout set_stdout trace disk].
    rewrite Hout', Hprinted3, Herr3, Hin3, Hkey3, Hdisk'.
    split; [done|]. split; [done|].
    split; [by subst t2; cbn; rewrite <-app_assoc|].
    by split.
Qed.

End MainTheory.

Lemma select_contest_reads_until_accepted_witness :
  let twelve := (fullwidth_digit 1 ++ fullwidth_digit 2)%string in
  let t := typing ["x"; "99"; "+7"; twelve; "7"]%string [] in
  stdin t = ["x"; "99"; "+7"]%string ++ [twelve; "7"%string] ∧
  ∃ t',
    select_contest sample_python [12; 7] (stdin t) t = (t', Done 12) ∧
    stdin t' = ["7"%string] ∧
    errors t' = replicate 4 "Select contest id: "%string ∧
    printed t' = [].
Proof.
  split; [reflexivity|].
  destruct (select_contest_reads_until_accepted sample_python [12; 7]
              ["x"; "99"; "+7"]%string
              [(fullwidth_digit 1 ++ fullwidth_digit 2)%string; "7"%string]
              (typing ["x"; "99"; "+7"; (fullwidth_digit 1 ++ fullwidth_digit 2)%string;
                       "7"]%string []))
    as (t' & Hrun & _ & _ & Hin & Herr & Hout & _);
    [reflexivity|vm_compute; reflexivity|by intros l [= <-]; vm_compute|].
  exists t'. split; [exact Hrun|]. by repeat split.
Defined.

(** A superscript two is a digit to [str.isdigit] and no number to [int]:
    the loop does not pass over the line, it ends with [ValueError], and the
    lines after it are not read. *)
Example select_contest_superscript_two :
  let t := typing ["x"; superscript_two; "12"]%string [] in
  ∃ t',
    select_contest sample_python [12; 7] (stdin t) t = (t', Fault (Python ValueError)) ∧
    stdin t' = ["12"%string].
Proof. eexists. split; vm_compute; reflexivity. Qed.

Lemma ask_tfa_code_reads_until_six_digits_witness :
  let t := typing ["12345"; "1234567"; "12345a"; "123456"; "654321"]%string [] in
  ∃ t',
    ask_tfa_code sample_python (stdin t) t = (t', Done "123456"%string) ∧
    stdin t' = ["654321"%string] ∧
    printed t' = replicate 4 "2FA code: "%string.
Proof.
  destruct (ask_tfa_code_reads_until_six_digits sample_python
              ["12345"; "1234567"; "12345a"]%string ["123456"; "654321"]%string
              (typing ["12345"; "1234567"; "12345a"; "123456"; "654321"]%string []))
    as (t' & Hrun & _ & Hin & Hout & _);
    [reflexivity|vm_compute; reflexivity|by intros l [= <-]; vm_compute|].
  exists t'. split; [exact Hrun|]. by split.
Defined.

(** Six full-width digits are six decimal digits to [\d]: the loop takes
    the line. *)
Example ask_tfa_code_fullwidth :
  let t := typing ["12345"; fullwidth_code; "123456"]%string [] in
  ∃ t',
    ask_tfa_code sample_python (stdin t) t = (t', Done fullwidth_code) ∧
    stdin t' = ["123456"%string].
Proof. eexists. split; vm_compute; reflexivity. Qed.

Lemma main_logout_starts_from_empty_jar_witness :
  ∃ t',
    sample_main tfa_wanted accepting_login profile_logged_in
      {| args_logout := true; args_mode := None |} (terminal_of logged_in_world)
    = (t', Done tt) ∧
    trace (machine t')
    = [GET "https://oj.example/api/profile"; POST "https://oj.example/api/logout" []] ∧
    cookies (session (machine t'))
    = [csrf_site;
       {| name := "sessionid"; value := ""; domain := "oj.example"; path := "/" |}] ∧
    disk (machine t') = ∅ ∧
    printed t' = as_lines ["Logged out successfully."%string].
Proof.
  destruct (main_logout_starts_from_empty_jar sample_python "https://oj.example" sample_hostname
              "cookies.json" strict_cookiejar_from_dict append_cookies
              sample_cookies_set ∅ tfa_wanted accepting_logout sample_contests
              profile_logged_in accepting_login short_ranking
              {| args_logout := true; args_mode := None |}
              [csrf_site;
               {| name := "sessionid"; value := ""; domain := "oj.example";
                  path := "/" |}]
              (terminal_of logged_in_world))
    as (t' & Hrun & Htr & Hjar & Hdisk & Hout & _);
    [reflexivity|vm_compute; discriminate|vm_compute; reflexivity..|].
  exists t'. split; [exact Hrun|]. split; [exact Htr|]. split; [exact Hjar|].
  split; [|exact Hout]. rewrite Hdisk. vm_compute. reflexivity.
Defined.

Lemma main_needs_csrftoken_witness :
  ∃ t',
    sample_main tfa_wanted accepting_login profile_without_token
      {| args_logout := false; args_mode := Some "ACM"%string |}
      (typing ["alice"]%string ["secret"]%string)
    = (t', Fault (Python RuntimeError)) ∧
    trace (machine t') = [GET "https://oj.example/api/profile"] ∧
    printed t' = [] ∧ stdin t' = ["alice"%string].
Proof.
  destruct (main_needs_csrftoken sample_python "https://oj.example" sample_hostname
              "cookies.json" strict_cookiejar_from_dict append_cookies
              sample_cookies_set ∅ tfa_wanted accepting_logout sample_contests
              profile_without_token accepting_login short_ranking
              {| args_logout := false; args_mode := Some "ACM"%string |}
              (typing ["alice"]%string ["secret"]%string))
    as (t' & Hrun & Htr & _ & _ & Hout & _ & Hin & _);
    [vm_compute; reflexivity|].
  exists t'. split; [exact Hrun|]. by repeat split.
Defined.

Lemma main_keeps_valid_session_witness :
  ∃ t',
    sample_main tfa_wanted accepting_login profile_logged_in
      {| args_logout := false; args_mode := None |} (terminal_of logged_in_world)
    = (t', Done tt) ∧
    trace (machine t') = [GET "https://oj.example/api/profile"] ∧
    disk (machine t') = disk logged_in_world ∧
    printed t' = as_lines ["Authenticated successfully."%string].
Proof.
  destruct (main_keeps_valid_session sample_python "https://oj.example" sample_hostname
              "cookies.json" strict_cookiejar_from_dict append_cookies
              sample_cookies_set ∅ tfa_wanted accepting_logout sample_contests
              profile_logged_in accepting_login short_ranking
              {| args_logout := false; args_mode := None |}
              (terminal_of logged_in_world))
    as (t' & Hrun & Htr & _ & Hdisk & Hout & _);
    [reflexivity|reflexivity|vm_compute; discriminate|vm_compute; reflexivity|].
  exists t'. split; [exact Hrun|]. by repeat split.
Defined.

Lemma main_stops_after_failed_login_witness :
  ∃ t',
    sample_main tfa_not_wanted rejecting_login profile_anonymous
      {| args_logout := false; args_mode := Some "ACM"%string |}
      (typing ["alice"; "12"]%string ["wrong"]%string)
    = (t', Done tt) ∧
    trace (machine t')
    = [GET "https://oj.example/api/profile";
       POST "https://oj.example/api/tfa_required" [("username", "alice")];
       POST "https://oj.example/api/login"
         [("username", "alice"); ("password", "wrong")]]%string ∧
    disk (machine t') = ∅ ∧
    printed t' = "Username: "%string :: as_lines ["Login failed"%string] ∧
    stdin t' = ["12"%string].
Proof.
  destruct (main_stops_after_failed_login sample_python "https://oj.example" sample_hostname
              "cookies.json" strict_cookiejar_from_dict append_cookies
              sample_cookies_set ∅ tfa_not_wanted accepting_logout sample_contests
              profile_anonymous rejecting_login short_ranking
              {| args_logout := false; args_mode := Some "ACM"%string |}
              "alice" "wrong" ["12"%string] [] (JBool false)
              (typing ["alice"; "12"]%string ["wrong"]%string))
    as (t' & Hrun & Htr & Hdisk & _ & Hout & _ & Hin & _);
    [reflexivity|vm_compute; discriminate|vm_compute; reflexivity..|].
  exists t'. split; [exact Hrun|]. by repeat split.
Defined.

Lemma main_two_factor_login_witness :
  ∃ t',
    sample_main tfa_wanted accepting_login profile_anonymous
      {| args_logout := false; args_mode := None |}
      (typing ["alice"; "12 34 56"; "123456"]%string ["secret"]%string)
    = (t', Done tt) ∧
    trace (machine t')
    = [GET "https://oj.example/api/profile";
       POST "https://oj.example/api/tfa_required" [("username", "alice")];
       POST "https://oj.example/api/login"
         [("username", "alice"); ("password", "secret"); ("tfa_code", "123456")]]%string ∧
    disk (machine t')
    = {[ "cookies.json"%string := saved_cookie_file [csrf_site; session_cookie] ]} ∧
    printed t'
    = ["Username: "; "2FA code: "; "2FA code: "]%string
      ++ as_lines ["Login successful."; "Authenticated successfully."]%string.
Proof.
  destruct (main_two_factor_login sample_python "https://oj.example" sample_hostname
              "cookies.json" strict_cookiejar_from_dict append_cookies
              sample_cookies_set ∅ tfa_wanted accepting_logout sample_contests
              profile_anonymous accepting_login short_ranking
              {| args_logout := false; args_mode := None |}
              "alice" "secret" "123456" ["12 34 56"%string] [] []
              [("result"%string, JBool true)] (JBool true)
              (typing ["alice"; "12 34 56"; "123456"]%string ["secret"]%string))
    as (t' & Hrun & Htr & Hdisk & Hout & _);
    [reflexivity|reflexivity|vm_compute; discriminate|vm_compute; reflexivity..|].
  exists t'. split; [exact Hrun|]. split; [exact Htr|]. split; [|exact Hout].
  rewrite Hdisk. vm_compute in Hrun. injection Hrun as <-. vm_compute. reflexivity.
Defined.

Lemma main_scores_by_mode_witness :
  ∃ t',
    sample_main tfa_wanted accepting_login profile_logged_in
      {| args_logout := false; args_mode := Some "oi"%string |}
      (typing ["x"; "99"; "12"; "7"]%string [])
    = (t', Done tt) ∧
    stdout (machine t')
    = [["username"; "Q1(1)"; "Q2(2)"; "total_score"];
       ["alice"; "60"; "40"; "100"];
       ["bob"; "0"; "25"; "25"]]%string ∧
    printed t' = [] ∧
    stdin t' = ["7"%string].
Proof.
  destruct (main_scores_by_mode sample_python "https://oj.example" sample_hostname
              "cookies.json" strict_cookiejar_from_dict append_cookies
              sample_cookies_set ∅ tfa_wanted accepting_logout sample_contests
              profile_logged_in accepting_login short_ranking
              {| args_logout := false; args_mode := Some "oi"%string |}
              "oi" "12" ["x"; "99"]%string ["7"%string] 12
              (typing ["x"; "99"; "12"; "7"]%string []))
    as (t' & Hrun & Hcsv & Hout & _ & _ & Hin & _);
    [reflexivity|reflexivity|reflexivity|vm_compute; discriminate
    |vm_compute; reflexivity..|].
  exists t'. split; [exact Hrun|]. split; [|by split].
  rewrite Hcsv. vm_compute. reflexivity.
Defined.
